(** * Snapchat memories downloader: the per-item download / classify / tag pipeline

    A shallow embedding of [main.py].  Pure helpers are Rocq functions; code
    that touches the disk, the network or the console runs in a small
    state-and-exception monad [M] over a [World] (files on disk, the scripted
    network, the trace of observable events).  Third-party code (requests'
    transport, mimetypes, urllib, html, json, piexif, Pillow, the ffmpeg
    executable, binary64 rounding) is not part of the program: it enters as the
    fields of the class [Externals], and every theorem holds for every
    instance, under the contracts it names. *)

From Stdlib Require Import String Ascii ZArith QArith Qabs Qround Lia Lqa List DecimalString.
From Stdlib Require Import DecimalNat DecimalFacts.
From stdpp Require Import base option gmap strings.
Import ListNotations.
Open Scope string_scope.

(** ** Python strings

    A [str] is modelled by its UTF-8 bytes; the character classes below are
    the ASCII parts of Python's. *)

Module Str.

(** [str.isspace] on one ASCII character: TAB..CR, FS..US and the space. *)
Definition is_space (c : ascii) : bool :=
  let n := nat_of_ascii c in
  ((9 <=? n)%nat && (n <=? 13)%nat) || ((28 <=? n)%nat && (n <=? 32)%nat).

Definition is_upper (c : ascii) : bool :=
  let n := nat_of_ascii c in (65 <=? n)%nat && (n <=? 90)%nat.

Definition is_digit (c : ascii) : bool :=
  let n := nat_of_ascii c in (48 <=? n)%nat && (n <=? 57)%nat.

(** [\w] of the [re] module, ASCII part: letters, digits and the underscore. *)
Definition is_word (c : ascii) : bool :=
  let n := nat_of_ascii c in
  is_digit c || is_upper c || ((97 <=? n)%nat && (n <=? 122)%nat) || (n =? 95)%nat.

Definition lower_char (c : ascii) : ascii :=
  if is_upper c then ascii_of_nat (nat_of_ascii c + 32) else c.

(** [s.lower()] *)
Fixpoint lower (s : string) : string :=
  match s with
  | EmptyString => EmptyString
  | String c r => String (lower_char c) (lower r)
  end.

(** [s.lstrip(chars)], [s.rstrip(chars)], [s.strip(chars)] for the characters
    satisfying [p]; [strip] is the default, whitespace. *)
Fixpoint lstrip_by (p : ascii -> bool) (s : string) : string :=
  match s with
  | EmptyString => EmptyString
  | String c r => if p c then lstrip_by p r else s
  end.

Fixpoint rstrip_by (p : ascii -> bool) (s : string) : string :=
  match s with
  | EmptyString => EmptyString
  | String c r =>
      match rstrip_by p r with
      | EmptyString => if p c then EmptyString else String c EmptyString
      | r' => String c r'
      end
  end.

Definition strip_by (p : ascii -> bool) (s : string) : string :=
  lstrip_by p (rstrip_by p s).

Definition strip (s : string) : string := strip_by is_space s.

(** [s.split(sep)[0]] for a one-character separator: the text before the
    first [sep], or all of [s] when there is none. *)
Fixpoint split_head (sep : ascii) (s : string) : string :=
  match s with
  | EmptyString => EmptyString
  | String c r => if Ascii.eqb c sep then EmptyString else String c (split_head sep r)
  end.

(** [sep in s] for a one-character [sep]. *)
Fixpoint contains (sep : ascii) (s : string) : bool :=
  match s with
  | EmptyString => false
  | String c r => Ascii.eqb c sep || contains sep r
  end.

(** [s.startswith(c)] for a one-character [c]. *)
Definition startswith (c : ascii) (s : string) : bool :=
  match s with
  | String c' _ => Ascii.eqb c' c
  | EmptyString => false
  end.

(** [s.replace(c, new, 1)]: the first occurrence of the character only. *)
Fixpoint replace_first (c : ascii) (new : string) (s : string) : string :=
  match s with
  | EmptyString => EmptyString
  | String c' r => if Ascii.eqb c' c then new ++ r else String c' (replace_first c new r)
  end.

(** [s.startswith(pre)], returning the text after the prefix. *)
Fixpoint strip_prefix (pre s : string) : option string :=
  match pre, s with
  | EmptyString, _ => Some s
  | String a pre', String b s' => if Ascii.eqb a b then strip_prefix pre' s' else None
  | String _ _, EmptyString => None
  end.

(** [s.replace(old, new)] for a non-empty [old]: the occurrences from the
    left, not overlapping.  The fuel bounds the scan by the length of [s]. *)
Fixpoint replace_from (fuel : nat) (old new s : string) : string :=
  match fuel with
  | O => s
  | S fuel' =>
      match strip_prefix old s with
      | Some rest => new ++ replace_from fuel' old new rest
      | None =>
          match s with
          | EmptyString => EmptyString
          | String c r => String c (replace_from fuel' old new r)
          end
      end
  end.

Definition replace (old new s : string) : string :=
  replace_from (S (String.length s)) old new s.

(** [sub in s] *)
Fixpoint contains_str (sub s : string) : bool :=
  match strip_prefix sub s with
  | Some _ => true
  | None =>
      match s with
      | EmptyString => false
      | String _ r => contains_str sub r
      end
  end.

(** [s[:n]] *)
Fixpoint take (n : nat) (s : string) : string :=
  match n, s with
  | S k, String c r => String c (take k r)
  | _, _ => EmptyString
  end.

(** [str(n)] for a natural number. *)
Definition of_nat (n : nat) : string := NilZero.string_of_uint (Nat.to_uint n).

(** [str(z)] for an integer. *)
Definition of_Z (z : Z) : string := NilZero.string_of_int (Z.to_int z).

(** Truthiness of a string: non-empty. *)
Definition truthy (s : string) : bool := negb (s =? "").

End Str.

(** ** pathlib

    A path is its parent directory and its final component.  [suffix] and
    [with_suffix] follow [pathlib.PurePosixPath]. *)

Record Path := { parent : string; name : string }.

(** [str(p)] *)
Definition path_str (p : Path) : string := parent p ++ "/" ++ name p.

(** [p == q] *)
Definition path_eqb (p q : Path) : bool :=
  (parent p =? parent q) && (name p =? name q).

(** [dir / base] for a [base] that is a single component. *)
Definition path_join (dir base : string) : Path := {| parent := dir; name := base |}.

(** The split of a name at its last dot ([name.rfind('.')]): the text before
    it and the text after it, [None] when the name has no dot. *)
Fixpoint rsplit_dot (s : string) : option (string * string) :=
  match s with
  | EmptyString => None
  | String c r =>
      match rsplit_dot r with
      | Some (b, a) => Some (String c b, a)
      | None => if Ascii.eqb c "." then Some (EmptyString, r) else None
      end
  end.

(** [p.suffix]: [name[i:]] when the last dot is at [0 < i < len(name) - 1]. *)
Definition path_suffix (p : Path) : string :=
  match rsplit_dot (name p) with
  | Some (String _ _, String c a) => String "." (String c a)
  | _ => ""
  end.

(** ** Exceptions and results

    Only the classes the program tells apart are kept, with the subclass
    relation the [except] clauses test. *)

Inductive exn_class :=
| SSLError            (* requests.exceptions.SSLError *)
| HTTPError           (* requests.exceptions.HTTPError *)
| RequestException    (* any other requests exception: ConnectionError, MissingSchema, ... *)
| FileNotFoundError
| OSError             (* any other OSError *)
| ValueError
| UnboundLocalError
| CalledProcessError
| OtherException.     (* any other subclass of Exception *)

Record exn := Exn { exn_class_of : exn_class; exn_message : string }.

(** [isinstance(e, SSLError)], [isinstance(e, HTTPError)] and
    [isinstance(e, OSError)]: requests' exceptions derive from [IOError]. *)
Definition is_SSLError (e : exn) : bool :=
  match exn_class_of e with SSLError => true | _ => false end.

Definition is_HTTPError (e : exn) : bool :=
  match exn_class_of e with HTTPError => true | _ => false end.

Definition is_OSError (e : exn) : bool :=
  match exn_class_of e with
  | SSLError | HTTPError | RequestException | FileNotFoundError | OSError => true
  | _ => false
  end.

(** [except Exception] catches every class above. *)
Definition is_Exception (e : exn) : bool := true.

Inductive result (A : Type) :=
| Ok (a : A)
| Raise (e : exn).
Arguments Ok {A} a.
Arguments Raise {A} e.

(** [p.with_suffix(suffix)] *)
Definition with_suffix (p : Path) (suffix : string) : result Path :=
  if Str.contains "/" suffix then
    Raise (Exn ValueError "Invalid suffix")
  else if (Str.truthy suffix && negb (Str.startswith "." suffix)) || (suffix =? ".") then
    Raise (Exn ValueError "Invalid suffix")
  else if negb (Str.truthy (name p)) then
    Raise (Exn ValueError "path has an empty name")
  else
    let old_suffix := path_suffix p in
    let new_name :=
      if negb (Str.truthy old_suffix) then name p ++ suffix
      else Str.take (String.length (name p) - String.length old_suffix) (name p) ++ suffix in
    Ok {| parent := parent p; name := new_name |}.

(** ** Values handed to third-party code *)

(** The values of the dict given to [json.dumps]: strings, floats and None.
    The dict itself is the list of its items, in insertion order. *)
Inductive json_value :=
| JNull
| JString (s : string)
| JFloat (q : Q).

Definition json_of_opt_str (o : option string) : json_value :=
  match o with Some s => JString s | None => JNull end.

Definition json_of_opt_float (o : option Q) : json_value :=
  match o with Some q => JFloat q | None => JNull end.

(** The values piexif stores: an ASCII string or a tuple of rationals. *)
Inductive exif_value :=
| ExifAscii (s : string)
| ExifRationals (l : list (Z * Z)).

(** [exif_dict]: the IFDs are Python dicts keyed by piexif's tag numbers. *)
Record exif_dict := {
  ifd_0th : gmap N exif_value;
  ifd_Exif : gmap N exif_value;
  ifd_GPS : gmap N exif_value;
  ifd_1st : gmap N exif_value;
  thumbnail : option string
}.

(** piexif's tag constants. *)
Module ImageIFD.
Definition ImageDescription : N := 270.
Definition DateTime : N := 306.
End ImageIFD.

Module ExifIFD.
Definition DateTimeOriginal : N := 36867.
Definition DateTimeDigitized : N := 36868.
End ExifIFD.

Module GPSIFD.
Definition GPSLatitudeRef : N := 1.
Definition GPSLatitude : N := 2.
Definition GPSLongitudeRef : N := 3.
Definition GPSLongitude : N := 4.
End GPSIFD.

(** ** The world

    Files are a finite map from path strings to their bytes; directories are
    not modelled (every directory exists, so [mkdir(parents=True,
    exist_ok=True)] changes nothing).  The network is a script: each call of
    [requests.get] consumes the next scripted response.  The trace records
    what an observer sees, in order. *)

Inductive response :=
| NoResponse (e : exn)
    (* requests.get raises e *)
| Response (status_code : nat) (content_type : option string)
           (chunks : list string) (broken : option exn).
    (* headers arrive; iter_content yields the chunks, then raises [broken] *)

Inductive event :=
| EvGet (url : string)
| EvSleep (seconds : nat)
| EvPrint (line : string)
| EvInput (prompt : string)
| EvRun (cmd : list string)
| EvPiexifInsert (path : string)
| EvImageOpen (path : string)
| EvImageSave (path : string).

Record World := {
  files : gmap string string;
  net : list response;
  trace : list event
}.

Definition set_files (f : gmap string string) (w : World) : World :=
  {| files := f; net := net w; trace := trace w |}.

Definition set_net (n : list response) (w : World) : World :=
  {| files := files w; net := n; trace := trace w |}.

Definition log_event (ev : event) (w : World) : World :=
  {| files := files w; net := net w; trace := trace w ++ [ev] |}.

(** ** The monad: state passing with Python exceptions

    An exception does not roll the world back: a handler runs in the world
    the failing code left. *)

Definition M (A : Type) : Type := World -> result A * World.

#[export] Instance M_ret : MRet M := fun A a w => (Ok a, w).

#[export] Instance M_bind : MBind M := fun A B f m w =>
  match m w with
  | (Ok a, w') => f a w'
  | (Raise e, w') => (Raise e, w')
  end.

Definition raise {A : Type} (e : exn) : M A := fun w => (Raise e, w).

(** A pure computation that may raise. *)
Definition lift {A : Type} (r : result A) : M A := fun w => (r, w).

(** [try: body  except <class>: handler(e)] *)
Definition try_except {A : Type} (body : M A) (catches : exn -> bool)
    (handler : exn -> M A) : M A := fun w =>
  match body w with
  | (Ok a, w') => (Ok a, w')
  | (Raise e, w') => if catches e then handler e w' else (Raise e, w')
  end.

Definition emit (ev : event) : M unit := fun w => (Ok tt, log_event ev w).

Definition print (line : string) : M unit := emit (EvPrint line).

(** [input(prompt)]: the operator presses Enter. *)
Definition input (prompt : string) : M unit := emit (EvInput prompt).

(** [time.sleep(seconds)] *)
Definition time_sleep (seconds : nat) : M unit := emit (EvSleep seconds).

(** *** File operations *)

Module Fs.

(** [open(p, "rb")] then [f.read(n)] *)
Definition read_head (p : string) (n : nat) : M string := fun w =>
  match files w !! p with
  | Some data => (Ok (Str.take n data), w)
  | None => (Raise (Exn FileNotFoundError "No such file or directory"), w)
  end.

(** [open(p, "wb")]: the file is created, or truncated. *)
Definition open_wb (p : string) : M unit := fun w =>
  (Ok tt, set_files (<[p := ""]> (files w)) w).

(** [f.write(data)] on a file open for writing or appending. *)
Definition write (p : string) (data : string) : M unit := fun w =>
  (Ok tt, set_files (<[p := default "" (files w !! p) ++ data]> (files w)) w).

(** [open(p, "a")]: the file is created when absent, its bytes are kept. *)
Definition open_append (p : string) : M unit := fun w =>
  (Ok tt, set_files (<[p := default "" (files w !! p)]> (files w)) w).

(** [Path.write_text(data)] *)
Definition write_text (p : string) (data : string) : M unit := fun w =>
  (Ok tt, set_files (<[p := data]> (files w)) w).

(** [src.replace(dst)], that is [os.replace]. *)
Definition replace (src dst : string) : M unit := fun w =>
  match files w !! src with
  | Some data => (Ok tt, set_files (<[dst := data]> (delete src (files w))) w)
  | None => (Raise (Exn FileNotFoundError "No such file or directory"), w)
  end.

(** [p.unlink(missing_ok=True)] *)
Definition unlink_missing_ok (p : string) : M unit := fun w =>
  (Ok tt, set_files (delete p (files w)) w).

End Fs.

(** ** Third-party code

    Each field stands for a library call of the source; the comment gives the
    call.  Tools that touch the disk are world transformers that may raise. *)

Class Externals := {
  (* mimetypes.guess_extension(ct) *)
  mimetypes_guess_extension : string -> option string;
  (* Path(urlparse(url).path).suffix *)
  url_path_suffix : string -> string;
  (* html.unescape(s) *)
  html_unescape : string -> string;
  (* json.dumps(obj, indent=2) *)
  json_dumps : list (string * json_value) -> string;
  (* rounding of a real to the nearest binary64 *)
  fl : Q -> Q;
  (* shutil.which(name) is truthy *)
  shutil_which : string -> bool;
  (* subprocess.run(cmd, check=True, ...) *)
  subprocess_run : list string -> M unit;
  (* piexif.dump(exif_dict) *)
  piexif_dump : exif_dict -> result string;
  (* piexif.insert(exif_bytes, path) *)
  piexif_insert : string -> string -> M unit;
  (* Image.open(path) *)
  Image_open : string -> M unit;
  (* im.save(tmp, pnginfo=meta), for the image opened from path *)
  Image_save : string -> string -> list (string * string) -> M unit
}.

(** ** Regular expressions

    The patterns of the source are written with backtracking combinators in
    continuation-passing style: a combinator consumes a prefix and hands the
    matched text and the rest to its continuation; when the continuation
    fails it tries its next, shorter or later, alternative, in the order of
    Python's [re]. *)

Module Re.

Section Combinators.
Context {A : Type}.

(** One literal character; [ci] ignores ASCII case ([re.I]). *)
Definition char (ci : bool) (c : ascii) (s : string) (k : string -> option A) : option A :=
  match s with
  | String a r =>
      if Ascii.eqb (if ci then Str.lower_char a else a) (if ci then Str.lower_char c else c)
      then k r else None
  | EmptyString => None
  end.

(** A literal string. *)
Fixpoint lit (ci : bool) (l : string) (s : string) (k : string -> option A) : option A :=
  match l with
  | EmptyString => k s
  | String c l' => char ci c s (fun r => lit ci l' r k)
  end.

(** [[class]*], greedy. *)
Fixpoint star (p : ascii -> bool) (s : string) (k : string -> string -> option A) : option A :=
  match s with
  | String a r =>
      if p a then
        match star p r (fun m rest => k (String a m) rest) with
        | Some x => Some x
        | None => k EmptyString s
        end
      else k EmptyString s
  | EmptyString => k EmptyString s
  end.

(** [[class]+], greedy. *)
Definition plus (p : ascii -> bool) (s : string) (k : string -> string -> option A) : option A :=
  match s with
  | String a r => if p a then star p r (fun m rest => k (String a m) rest) else None
  | EmptyString => None
  end.

(** [[class]?], greedy. *)
Definition opt (p : ascii -> bool) (s : string) (k : string -> string -> option A) : option A :=
  match s with
  | String a r =>
      if p a then
        match k (String a EmptyString) r with
        | Some x => Some x
        | None => k EmptyString s
        end
      else k EmptyString s
  | EmptyString => k EmptyString s
  end.

(** A fixed sequence of character classes. *)
Fixpoint classes (cs : list (ascii -> bool)) (s : string) : option (string * string) :=
  match cs with
  | [] => Some (EmptyString, s)
  | c :: cs' =>
      match s with
      | String a r =>
          if c a then
            match classes cs' r with
            | Some (m, rest) => Some (String a m, rest)
            | None => None
            end
          else None
      | EmptyString => None
      end
  end.

(** [alt1|alt2|...], each alternative a fixed sequence of classes. *)
Fixpoint alts (l : list (list (ascii -> bool))) (s : string)
    (k : string -> string -> option A) : option A :=
  match l with
  | [] => None
  | a :: more =>
      match classes a s with
      | Some (m, rest) =>
          match k m rest with
          | Some x => Some x
          | None => alts more s k
          end
      | None => alts more s k
      end
  end.

(** [pattern.search]: the match at the leftmost position that has one. *)
Fixpoint search (m : string -> option A) (s : string) : option A :=
  match m s with
  | Some x => Some x
  | None =>
      match s with
      | String _ r => search m r
      | EmptyString => None
      end
  end.

End Combinators.

Definition just (c : ascii) : ascii -> bool := fun a => Ascii.eqb a c.

Definition between (lo hi : ascii) : ascii -> bool := fun a =>
  (nat_of_ascii lo <=? nat_of_ascii a)%nat && (nat_of_ascii a <=? nat_of_ascii hi)%nat.

Definition digit : ascii -> bool := Str.is_digit.

Definition sign : ascii -> bool := fun a => Ascii.eqb a "+" || Ascii.eqb a "-".

End Re.

(** [int(text)] for a run of decimal digits, possibly after blanks. *)
Fixpoint int_of_digits_from (acc : nat) (s : string) : nat :=
  match s with
  | EmptyString => acc
  | String c r =>
      if Str.is_digit c then int_of_digits_from (10 * acc + (nat_of_ascii c - 48)) r
      else int_of_digits_from acc r
  end.

Definition int_of_digits (s : string) : nat := int_of_digits_from 0 s.

(** [str(n).zfill(width)] for the fixed-width fields of date formats. *)
Definition zfill (width : nat) (n : nat) : string :=
  let s := Str.of_nat n in
  String.concat "" (repeat "0" (width - String.length s)) ++ s.

(** ** datetime *)

Module Datetime.

Record datetime := {
  year : nat; month : nat; day : nat;
  hour : nat; minute : nat; second : nat
}.

Definition is_leap (y : nat) : bool :=
  ((y mod 4 =? 0) && negb (y mod 100 =? 0) || (y mod 400 =? 0))%nat.

Definition days_in_month (y m : nat) : nat :=
  match m with
  | 2 => if is_leap y then 29 else 28
  | 4 | 6 | 9 | 11 => 30
  | _ => 31
  end.

(** The regular expression [_strptime] builds for
    ["%Y-%m-%d %H:%M:%S UTC"]:
    [(\d\d\d\d)-(1[0-2]|0[1-9]|[1-9])-(3[0-1]|[1-2]\d|0[1-9]|[1-9]| [1-9])\s+(2[0-3]|[0-1]\d|\d):([0-5]\d|\d):(6[0-1]|[0-5]\d|\d)\s+UTC],
    compiled with [re.IGNORECASE] and applied with [match]; the result is the
    six fields and the text left after the match. *)
Definition strptime_regex (s : string)
    : option (string * string * string * string * string * string * string) :=
  let d := Re.digit in
  Re.alts [[d; d; d; d]] s (fun yy s =>
  Re.lit true "-" s (fun s =>
  Re.alts [[Re.just "1"; Re.between "0" "2"]; [Re.just "0"; Re.between "1" "9"];
           [Re.between "1" "9"]] s (fun mm s =>
  Re.lit true "-" s (fun s =>
  Re.alts [[Re.just "3"; Re.between "0" "1"]; [Re.between "1" "2"; d];
           [Re.just "0"; Re.between "1" "9"]; [Re.between "1" "9"];
           [Re.just " "; Re.between "1" "9"]] s (fun dd s =>
  Re.plus Str.is_space s (fun _ s =>
  Re.alts [[Re.just "2"; Re.between "0" "3"]; [Re.between "0" "1"; d]; [d]] s (fun hh s =>
  Re.lit true ":" s (fun s =>
  Re.alts [[Re.between "0" "5"; d]; [d]] s (fun mi s =>
  Re.lit true ":" s (fun s =>
  Re.alts [[Re.just "6"; Re.between "0" "1"]; [Re.between "0" "5"; d]; [d]] s (fun ss s =>
  Re.plus Str.is_space s (fun _ s =>
  Re.lit true "UTC" s (fun rest =>
  Some (yy, mm, dd, hh, mi, ss, rest)))))))))))))).

(** [datetime.strptime(s, "%Y-%m-%d %H:%M:%S UTC")]: [ValueError] when the
    pattern does not match, when text remains after the match, or when the
    fields are no date and time of the calendar. *)
Definition strptime (s : string) : result datetime :=
  match strptime_regex s with
  | None => Raise (Exn ValueError "time data does not match format")
  | Some (yy, mm, dd, hh, mi, ss, rest) =>
      if Str.truthy rest then Raise (Exn ValueError "unconverted data remains")
      else
        let dt := {| year := int_of_digits yy; month := int_of_digits mm;
                     day := int_of_digits dd; hour := int_of_digits hh;
                     minute := int_of_digits mi; second := int_of_digits ss |} in
        if ((1 <=? year dt) && (day dt <=? days_in_month (year dt) (month dt))
            && (second dt <=? 59))%nat
        then Ok dt
        else Raise (Exn ValueError "value out of range")
  end.

(** [dt.replace(tzinfo=timezone.utc).isoformat()] *)
Definition isoformat_utc (dt : datetime) : string :=
  zfill 4 (year dt) ++ "-" ++ zfill 2 (month dt) ++ "-" ++ zfill 2 (day dt) ++ "T"
  ++ zfill 2 (hour dt) ++ ":" ++ zfill 2 (minute dt) ++ ":" ++ zfill 2 (second dt)
  ++ "+00:00".

(** [dt.strftime("%Y:%m:%d %H:%M:%S")] *)
Definition strftime_exif (dt : datetime) : string :=
  zfill 4 (year dt) ++ ":" ++ zfill 2 (month dt) ++ ":" ++ zfill 2 (day dt) ++ " "
  ++ zfill 2 (hour dt) ++ ":" ++ zfill 2 (minute dt) ++ ":" ++ zfill 2 (second dt).

End Datetime.

(** ** Floats

    A float is the rational it denotes.  An arithmetic operation on floats is
    the exact operation followed by the rounding [fl] of [Externals];
    conversions to integers are exact. *)

Module Float.

(** [int(x)]: truncation towards zero. *)
Definition py_int (x : Q) : Z := if Qle_bool 0 x then Qfloor x else Qceiling x.

(** [round(x)]: to the nearest integer, ties to the even one. *)
Definition py_round (x : Q) : Z :=
  let f := Qfloor x in
  match (x - inject_Z f ?= 1 # 2)%Q with
  | Lt => f
  | Gt => (f + 1)%Z
  | Eq => if Z.even f then f else (f + 1)%Z
  end.

Section Ops.
Context `{!Externals}.

Definition sub (x y : Q) : Q := fl (x - y).
Definition mul (x y : Q) : Q := fl (x * y).

(** [float(text)] for text matching [[+-]?\d+(\.\d+)?]. *)
Definition decimal_value (text : string) : Q :=
  let neg := Str.startswith "-" text in
  let body := Str.replace "+" "" (Str.replace "-" "" text) in
  let ip := Str.split_head "." body in
  let fp := match Str.strip_prefix (ip ++ ".") body with Some f => f | None => "" end in
  let mag := (inject_Z (Z.of_nat (int_of_digits ip))
              + inject_Z (Z.of_nat (int_of_digits fp))
                / inject_Z (10 ^ Z.of_nat (String.length fp)))%Q in
  if neg then (- mag)%Q else mag.

Definition of_string (text : string) : Q := fl (decimal_value text).

End Ops.

(** [f"{x:+.4f}"]: the sign, then the value rounded to four decimals. *)
Definition format_plus_4f (x : Q) : string :=
  let n := py_round (Qabs x * 10000) in
  (if Qlt_le_dec x 0 then "-" else "+")
  ++ Str.of_nat (Z.to_nat (n / 10000)) ++ "." ++ zfill 4 (Z.to_nat (n mod 10000)).

End Float.

(** ** The catalog

    One table row as BeautifulSoup hands it over: the stripped text of its
    [td] cells ([td.get_text(strip=True)]) and, for each [a] element in
    document order, its [onclick] attribute when it has one. *)

Record Row := { tds : list string; anchors : list (option string) }.

(** ** The program *)

Section Program.
Context `{!Externals}.

(** [ONCLICK_RE = re.compile(r"downloadMemories\(\s*'([^']+)'", re.I)],
    applied with [search]; the result is group 1. *)
Definition ONCLICK_RE_search (s : string) : option string :=
  Re.search (fun s =>
    Re.lit true "downloadMemories(" s (fun s =>
    Re.star Str.is_space s (fun _ s =>
    Re.lit true "'" s (fun s =>
    Re.plus (fun c => negb (Ascii.eqb c "'")) s (fun g s =>
    Re.lit true "'" s (fun _ => Some g)))))) s.

Definition parse_iso8601_utc (date_str : string) : result string :=
  match Datetime.strptime (Str.strip date_str) with
  | Ok dt => Ok (Str.replace "+00:00" "Z" (Datetime.isoformat_utc dt))
  | Raise e => Raise e
  end.

(** The number of [parse_lat_lon]'s pattern: [[+-]?\d+(?:\.\d+)?]. *)
Definition re_number {A : Type} (s : string) (k : string -> string -> option A) : option A :=
  Re.opt Re.sign s (fun sg s =>
  Re.plus Re.digit s (fun ip s =>
  match Re.lit false "." s (fun s => Re.plus Re.digit s (fun fp s => k (sg ++ ip ++ "." ++ fp) s)) with
  | Some x => Some x
  | None => k (sg ++ ip) s
  end)).

Definition parse_lat_lon (location_str : string) : option Q * option Q :=
  match
    Re.search (fun s =>
      Re.lit false "Latitude," s (fun s =>
      Re.star Str.is_space s (fun _ s =>
      Re.lit false "Longitude:" s (fun s =>
      Re.star Str.is_space s (fun _ s =>
      re_number s (fun g1 s =>
      Re.lit false "," s (fun s =>
      Re.star Str.is_space s (fun _ s =>
      re_number s (fun g2 _ => Some (g1, g2)))))))))) location_str
  with
  | None => (None, None)
  | Some (g1, g2) => (Some (Float.of_string g1), Some (Float.of_string g2))
  end.

(** [re.sub(r"[^\w\-\.]+", "_", s)]: [in_run] tells that the previous
    character was already part of the run being replaced.  The class [\w]
    is the one of [Str.is_word]: the function is the source's on ASCII text,
    which is what the loop gives it (an index, an underscore and a
    timestamp). *)
Fixpoint sub_unsafe_runs (in_run : bool) (s : string) : string :=
  match s with
  | EmptyString => EmptyString
  | String c r =>
      if Str.is_word c || Ascii.eqb c "-" || Ascii.eqb c "."
      then String c (sub_unsafe_runs false r)
      else if in_run then sub_unsafe_runs true r
      else String "_" (sub_unsafe_runs true r)
  end.

Definition safe_filename (s : string) : string :=
  let s := sub_unsafe_runs false (Str.strip s) in
  let t := Str.strip_by (fun c => Ascii.eqb c "_") s in
  Str.take 180 (if Str.truthy t then t else "file").

(** [row.select_one('a[onclick*="downloadMemories"]')]: the [onclick] of the
    first anchor whose attribute contains the text. *)
Fixpoint select_one_onclick (l : list (option string)) : option string :=
  match l with
  | [] => None
  | Some oc :: more =>
      if Str.contains_str "downloadMemories" oc then Some oc else select_one_onclick more
  | None :: more => select_one_onclick more
  end.

Definition extract_download_url (row : Row) : option string :=
  match select_one_onclick (anchors row) with
  | None => None
  | Some onclick =>
      if negb (Str.truthy onclick) then None
      else
        match ONCLICK_RE_search onclick with
        | None => None
        | Some g1 => Some (html_unescape g1)
        end
  end.

(** The normalised media type [content_type.split(";")[0].strip().lower()]. *)
Definition media_type (content_type : string) : string :=
  Str.lower (Str.strip (Str.split_head ";" content_type)).

Definition guess_ext (url : string) (content_type : option string) : string :=
  let from_url :=
    let suffix := url_path_suffix url in
    if Str.truthy suffix then suffix else "" in
  match content_type with
  | Some content_type =>
      if Str.truthy content_type then
        let ct := media_type content_type in
        let ext := default "" (mimetypes_guess_extension ct) in
        if ct =? "video/mp4" then ".mp4"
        else if ct =? "image/jpeg" then ".jpg"
        else if Str.truthy ext then ext
        else from_url
      else from_url
  | None => from_url
  end.

(** [requests.get(url, stream=True, timeout=timeout)]: the next scripted
    response.  A url that is [None] is refused before anything is sent. *)
Definition requests_get (url : option string)
    : M (nat * option string * list string * option exn) :=
  match url with
  | None => raise (Exn RequestException "Invalid URL 'None': No scheme supplied")
  | Some u => fun w =>
      let w := log_event (EvGet u) w in
      match net w with
      | [] => (Raise (Exn RequestException "Connection refused"), w)
      | NoResponse e :: later => (Raise e, set_net later w)
      | Response status ct chunks broken :: later =>
          (Ok (status, ct, chunks, broken), set_net later w)
      end
  end.

(** [r.raise_for_status()]: client and server error statuses raise. *)
Definition is_error_status (status_code : nat) : bool :=
  ((400 <=? status_code) && (status_code <? 600))%nat.

Definition status_error (status_code : nat) : exn :=
  Exn HTTPError ("HTTP status " ++ Str.of_nat status_code).

Definition raise_for_status (status_code : nat) : M unit :=
  if is_error_status status_code then raise (status_error status_code) else mret tt.

(** [for chunk in r.iter_content(...): if chunk: f.write(chunk)]; the
    generator raises [broken] after its last chunk. *)
Fixpoint write_chunks (p : string) (chunks : list string) (broken : option exn) : M unit :=
  match chunks with
  | [] => match broken with Some e => raise e | None => mret tt end
  | chunk :: more =>
      (if Str.truthy chunk then Fs.write p chunk else mret tt);;
      write_chunks p more broken
  end.

Definition max_retries : nat := 3.

(** The body of the [try] in [download_file]: one attempt. *)
Definition download_attempt (url : option string) (tmp_path : Path) : M (option string) :=
  r ← requests_get url;
  let '(status, headers_content_type, chunks, broken) := r in
  raise_for_status status;;
  let content_type := headers_content_type in
  Fs.open_wb (path_str tmp_path);;
  write_chunks (path_str tmp_path) chunks broken;;
  mret content_type.

(** [for attempt in range(1, max_retries + 1)]: the loop over the attempt
    numbers still to come.  Leaving the loop without [break] would leave
    [content_type] unbound. *)
Fixpoint download_attempts (url : option string) (tmp_path : Path) (attempts : list nat)
    : M (option string) :=
  match attempts with
  | [] => raise (Exn UnboundLocalError "content_type")
  | attempt :: later =>
      try_except
        (download_attempt url tmp_path)               (* then: break *)
        is_SSLError
        (fun e =>
           if (attempt =? max_retries)%nat then raise e
           else time_sleep 60;; download_attempts url tmp_path later)
  end.

Definition download_file (url : option string) (out_stem : Path) (kind_norm : string)
    : M (Path * option string) :=
  (* out_stem.parent.mkdir(parents=True, exist_ok=True): directories are not modelled *)
  tmp_path ← lift (with_suffix out_stem ".download");
  content_type ← download_attempts url tmp_path (seq 1 max_retries);
  u ← match url with
      | Some u => mret u
      | None => raise (Exn OtherException "urlparse of None")
      end;
  let ext := guess_ext u content_type in
  final_path ← lift (if (ext =? "") && (kind_norm =? "image")
                      then with_suffix out_stem ".jpg"
                      else with_suffix out_stem ext);
  Fs.replace (path_str tmp_path) (path_str final_path);;
  mret (final_path, content_type).

(** *** Video metadata (ffmpeg) *)

Definition to_iso6709 (lat lon : option Q) : string :=
  match lat, lon with
  | Some lat, Some lon => Float.format_plus_4f lat ++ Float.format_plus_4f lon ++ "/"
  | _, _ => ""
  end.

Definition write_video_metadata_ffmpeg (in_path out_path : Path) (date_iso location_text : string)
    (lat lon : option Q) : M unit :=
  let iso6709 := to_iso6709 lat lon in
  let cmd : list string :=
    ["ffmpeg"; "-y"; "-i"; path_str in_path; "-map"; "0"; "-c"; "copy";
     "-metadata"; ("creation_time=" ++ date_iso)%string;
     "-metadata";
     ("comment=Location: " ++ location_text ++ " | Date: " ++ date_iso)%string] in
  let cmd : list string :=
    if Str.truthy iso6709
    then (cmd ++ ["-metadata";
                  ("com.apple.quicktime.location.ISO6709=" ++ iso6709)%string]
              ++ ["-metadata"; ("location=" ++ iso6709)%string])%list
    else cmd in
  let cmd : list string := (cmd ++ [path_str out_path])%list in
  emit (EvRun cmd);;
  subprocess_run cmd.

(** *** Image metadata (EXIF for JPEG/TIFF via piexif; PNG text via Pillow) *)

Definition _deg_to_dms_rational (deg_float : Q) : (Z * Z) * (Z * Z) * (Z * Z) :=
  let deg_abs := Qabs deg_float in
  let d := Float.py_int deg_abs in
  let m_float := Float.mul (Float.sub deg_abs (inject_Z d)) 60 in
  let m := Float.py_int m_float in
  let s := Float.mul (Float.sub m_float (inject_Z m)) 60 in
  ((d, 1%Z), (m, 1%Z), (Float.py_round (Float.mul s 100), 100%Z)).

Definition dms_value (t : (Z * Z) * (Z * Z) * (Z * Z)) : exif_value :=
  let '(d, m, s) := t in ExifRationals [d; m; s].

(** The [exif_dict] that [tag_jpeg_tiff_exif] builds. *)
Definition build_exif_dict (date_str_for_exif : string) (lat lon : option Q)
    (location_text : string) : exif_dict :=
  let zeroth : gmap N exif_value :=
    <[ImageIFD.ImageDescription := ExifAscii ("Location: " ++ location_text)]>
      (<[ImageIFD.DateTime := ExifAscii date_str_for_exif]> ∅) in
  let exif : gmap N exif_value :=
    <[ExifIFD.DateTimeDigitized := ExifAscii date_str_for_exif]>
      (<[ExifIFD.DateTimeOriginal := ExifAscii date_str_for_exif]> ∅) in
  let gps : gmap N exif_value :=
    match lat, lon with
    | Some lat, Some lon =>
        <[GPSIFD.GPSLongitude := dms_value (_deg_to_dms_rational lon)]>
          (<[GPSIFD.GPSLatitude := dms_value (_deg_to_dms_rational lat)]>
             (<[GPSIFD.GPSLongitudeRef := ExifAscii (if Qle_bool 0 lon then "E" else "W")]>
                (<[GPSIFD.GPSLatitudeRef := ExifAscii (if Qle_bool 0 lat then "N" else "S")]> ∅)))
    | _, _ => ∅
    end in
  {| ifd_0th := zeroth; ifd_Exif := exif; ifd_GPS := gps; ifd_1st := ∅; thumbnail := None |}.

(** [piexif] is imported unconditionally, so the [piexif is None] guard never
    fires. *)
Definition tag_jpeg_tiff_exif (path : Path) (date_str_for_exif : string) (lat lon : option Q)
    (location_text : string) : M unit :=
  let exif_dict := build_exif_dict date_str_for_exif lat lon location_text in
  exif_bytes ← lift (piexif_dump exif_dict);
  emit (EvPiexifInsert (path_str path));;
  piexif_insert exif_bytes (path_str path).

(** [Image] and [PngInfo] are imported unconditionally as well. *)
Definition tag_png_text (path : Path) (date_iso location_text : string) : M unit :=
  emit (EvImageOpen (path_str path));;
  Image_open (path_str path);;
  let meta :=
    [("Creation Time", date_iso); ("Location", location_text);
     ("Comment", "Location: " ++ location_text ++ " | Date: " ++ date_iso)] in
  tmp ← lift (with_suffix path ".tagged.png");
  emit (EvImageSave (path_str tmp));;
  Image_save (path_str path) (path_str tmp) meta;;
  Fs.replace (path_str tmp) (path_str path).

Definition zip_signature : string := String "P" (String "K" (String "003" (String "004" ""))).

Definition is_zip (file_path : Path) (content_type : option string) : M bool :=
  let is_zip :=
    match content_type with
    | Some content_type =>
        if Str.truthy content_type then
          let ct := media_type content_type in
          (ct =? "application/zip") || (ct =? "application/x-zip-compressed")
        else false
    | None => false
    end in
  if negb is_zip then
    try_except
      (sig ← Fs.read_head (path_str file_path) 4;
       mret (sig =? zip_signature))
      is_OSError
      (fun _ => mret false)
  else mret is_zip.

Definition save_zip (file_path : Path) (suffix : string) : M unit :=
  zip_path ← lift (if suffix =? ".zip" then Ok file_path else with_suffix file_path ".zip");
  file_path ←
    (if negb (path_eqb zip_path file_path) then
       Fs.replace (path_str file_path) (path_str zip_path);;
       mret zip_path
     else mret file_path);
  print ("Saved ZIP -> " ++ name file_path).

Definition add_line_to_file (file_path : string) (text : string) : M unit :=
  Fs.open_append file_path;;
  Fs.write file_path (text ++ String "010" "").

(** *** The orchestrator ([__main__]) *)

(** The dict of a sidecar; [tag_error] is present in the failure case only. *)
Definition sidecar_doc (kind date_iso location_str : string) (lat lon : option Q)
    (content_type : option string) (tag_error : option string) : list (string * json_value) :=
  [("kind", JString kind); ("date", JString date_iso); ("location", JString location_str);
   ("lat", json_of_opt_float lat); ("lon", json_of_opt_float lon);
   ("content_type", json_of_opt_str content_type)]
  ++ match tag_error with
     | Some msg => [("tag_error", JString msg)]
     | None => []
     end.

(** [sidecar = file_path.with_suffix(file_path.suffix + ".json")] and
    [sidecar.write_text(json.dumps(doc, indent=2))], as the three sidecar
    sites of the source do; the result is the sidecar's path. *)
Definition write_sidecar (file_path : Path) (doc : list (string * json_value)) : M Path :=
  sidecar ← lift (with_suffix file_path (path_suffix file_path ++ ".json"));
  Fs.write_text (path_str sidecar) (json_dumps doc);;
  mret sidecar.

(** The body of the tagging [try]. *)
Definition tag_artifact (kind kind_norm date_iso dt_exif location_str : string)
    (lat lon : option Q) (file_path : Path) (content_type : option string)
    (suffix : string) : M unit :=
  zipped ← is_zip file_path content_type;
  if (zipped : bool) then
    save_zip file_path suffix
  else if (kind_norm =? "video") && shutil_which "ffmpeg" then
    tagged ← lift (with_suffix file_path
                     (Str.replace_first "." ".tagged." (path_suffix file_path)));
    write_video_metadata_ffmpeg file_path tagged date_iso location_str lat lon;;
    Fs.unlink_missing_ok (path_str file_path);;
    Fs.replace (path_str tagged) (path_str file_path);;
    print ("   Saved video -> " ++ name file_path)
  else if kind_norm =? "image" then
    if (suffix =? ".jpg") || (suffix =? ".jpeg") || (suffix =? ".tif") || (suffix =? ".tiff")
    then
      tag_jpeg_tiff_exif file_path dt_exif lat lon location_str;;
      print ("   Saved EXIF -> " ++ name file_path)
    else if suffix =? ".png" then
      tag_png_text file_path date_iso location_str;;
      print ("   Saved PNG text -> " ++ name file_path)
    else
      sidecar ← write_sidecar file_path
                  (sidecar_doc kind date_iso location_str lat lon content_type None);
      print ("   Image type unsupported for tagging; wrote sidecar -> " ++ name sidecar)
  else
    sidecar ← write_sidecar file_path
                (sidecar_doc kind date_iso location_str lat lon content_type None);
    print ("   Tagger not available; wrote sidecar -> " ++ name sidecar).

(** The handler of [except Exception as e] around the tagging. *)
Definition tagging_failed (kind date_iso location_str : string) (lat lon : option Q)
    (file_path : Path) (content_type : option string) (e : exn) : M unit :=
  print (exn_message e);;
  sidecar ← write_sidecar file_path
              (sidecar_doc kind date_iso location_str lat lon content_type
                 (Some (exn_message e)));
  print ("   Tagging failed; wrote sidecar -> " ++ name sidecar).

(** One iteration of [for i, row in enumerate(rows, start=0)]; returning
    early is [continue]. *)
Definition process_row (out_dir : string) (starting_index : Z) (n_rows : nat)
    (i : nat) (row : Row) : M unit :=
  let tds := tds row in
  if (length tds <? 4)%nat then mret tt
  else if (Z.of_nat i <? starting_index)%Z then mret tt
  else
    let date_str := nth 0 tds "" in
    let kind := nth 1 tds "" in
    let location_str := nth 2 tds "" in
    let url := extract_download_url row in
    let kind_norm := Str.lower (Str.strip kind) in
    date_iso ← lift (parse_iso8601_utc date_str);
    dt ← lift (Datetime.strptime (Str.strip date_str));
    let dt_exif := Datetime.strftime_exif dt in
    let '(lat, lon) := parse_lat_lon location_str in
    let base := safe_filename (Str.replace ":" "" (Str.of_nat i ++ "_" ++ date_iso)) in
    let out_stem := path_join out_dir base in
    print ("[" ++ Str.of_nat i ++ "/" ++ Str.of_nat n_rows ++ "] Downloading "
           ++ kind ++ " " ++ date_str);;
    fetched ←
      try_except
        (r ← download_file url out_stem kind_norm; mret (Some r))
        is_HTTPError
        (fun _ =>
           let not_saved_file_name := "not_saved.txt" in
           add_line_to_file (out_dir ++ "/" ++ not_saved_file_name)
             (Str.of_nat i ++ "_" ++ kind ++ " " ++ date_str);;
           print ("HTTP Error, saved file name in " ++ not_saved_file_name);;
           mret None);
    match (fetched : option (Path * option string)) with
    | None => mret tt
    | Some (file_path, content_type) =>
        let suffix := Str.lower (path_suffix file_path) in
        try_except
          (tag_artifact kind kind_norm date_iso dt_exif location_str lat lon
             file_path content_type suffix)
          is_Exception
          (tagging_failed kind date_iso location_str lat lon file_path content_type);;
        input (String "010" "Press Enter to close...")
    end.

Fixpoint process_rows (out_dir : string) (starting_index : Z) (n_rows : nat)
    (i : nat) (rows : list Row) : M unit :=
  match rows with
  | [] => mret tt
  | row :: later =>
      process_row out_dir starting_index n_rows i row;;
      process_rows out_dir starting_index n_rows (S i) later
  end.

(** The script, from the parsed catalog on: [rows] are the [tr] elements of
    the table, [out_dir] and [starting_index] come from [params.json]. *)
Definition main (out_dir : string) (starting_index : Z) (rows : list Row) : M unit :=
  print ("Number of files: " ++ Str.of_Z (Z.of_nat (length rows) - 1));;
  process_rows out_dir starting_index (length rows) 0 rows.

End Program.

(** * Vocabulary of the statements

    Names for what the properties below talk about: parts of paths, the
    outcomes of a scripted response, what the loop reads off a row, the
    contracts of the external tools. *)

(** The stem of a name: the name without its suffix. *)
Definition path_stem (p : Path) : string :=
  Str.take (String.length (name p) - String.length (path_suffix p)) (name p).

(** Suffixes [with_suffix] accepts. *)
Definition valid_suffix (suffix : string) : bool :=
  negb (Str.contains "/" suffix)
  && negb ((Str.truthy suffix && negb (Str.startswith "." suffix)) || (suffix =? ".")).

(** The temporary path of a download. *)
Definition tmp_path_of (out_stem : Path) : Path :=
  {| parent := parent out_stem; name := path_stem out_stem ++ ".download" |}.

(** The declared content-type names a zip archive. *)
Definition declares_zip (content_type : option string) : Prop :=
  exists c, content_type = Some c
            /\ (media_type c = "application/zip"
                \/ media_type c = "application/x-zip-compressed").

(** The bytes a response delivers when all its chunks arrive. *)
Definition response_body (chunks : list string) : string :=
  fold_right String.append "" chunks.

(** What one attempt makes of a scripted response: its result, and the bytes
    it leaves in the temporary file ([None] when the file is not opened). *)
Definition fetch_outcome (r : response) : result (option string) * option string :=
  match r with
  | NoResponse e => (Raise e, None)
  | Response status ct chunks broken =>
      if is_error_status status then (Raise (status_error status), None)
      else (match broken with Some e => Raise e | None => Ok ct end,
            Some (response_body chunks))
  end.

(** The response the next [requests.get] meets. *)
Definition next_response (w : World) : response :=
  match net w with
  | [] => NoResponse (Exn RequestException "Connection refused")
  | r :: _ => r
  end.

(** The world one attempt leaves. *)
Definition after_attempt (u tmp : string) (w : World) : World :=
  {| files := match snd (fetch_outcome (next_response w)) with
              | Some bytes => <[tmp := bytes]> (files w)
              | None => files w
              end;
     net := tl (net w);
     trace := trace w ++ [EvGet u] |}.

(** A response on which an attempt fails with the TLS error class. *)
Definition tls_failure (r : response) : Prop :=
  exists e, fst (fetch_outcome r) = Raise e /\ is_SSLError e = true.

(** The events of [n] attempts: a request, then a 60-second sleep before each
    further request. *)
Fixpoint retry_trace (u : string) (n : nat) : list event :=
  match n with
  | O => []
  | S O => [EvGet u]
  | S n' => EvGet u :: EvSleep 60 :: retry_trace u n'
  end.

(** What the loop reads off a row. *)
Definition row_date_str (row : Row) : string := nth 0 (tds row) "".
Definition row_kind (row : Row) : string := nth 1 (tds row) "".
Definition row_location (row : Row) : string := nth 2 (tds row) "".
Definition row_kind_norm (row : Row) : string := Str.lower (Str.strip (row_kind row)).
Definition row_date_iso (dt : Datetime.datetime) : string :=
  Str.replace "+00:00" "Z" (Datetime.isoformat_utc dt).

(** The ledger and the line recorded for a row. *)
Definition ledger_path (out_dir : string) : string := out_dir ++ "/" ++ "not_saved.txt".
Definition ledger_line (i : nat) (row : Row) : string :=
  Str.of_nat i ++ "_" ++ row_kind row ++ " " ++ row_date_str row.

(** The progress line printed before a fetch. *)
Definition downloading (n_rows i : nat) (row : Row) : event :=
  EvPrint ("[" ++ Str.of_nat i ++ "/" ++ Str.of_nat n_rows ++ "] Downloading "
           ++ row_kind row ++ " " ++ row_date_str row).

(** A row the loop goes on to fetch: four cells or more, not before the
    starting index, and a timestamp that parses to [dt]. *)
Definition fetchable (starting_index : Z) (i : nat) (row : Row) (dt : Datetime.datetime)
    : Prop :=
  (4 <= length (tds row))%nat
  /\ (starting_index <= Z.of_nat i)%Z
  /\ Datetime.strptime (Str.strip (row_date_str row)) = Ok dt.

(** Binary64 rounding: within the range of the format, the relative error is
    at most the unit roundoff [2^-53], up to half the smallest subnormal,
    [2^-1075], near zero. *)
Definition unit_roundoff : Q := 1 # (2 ^ 53).
Definition underflow_unit : Q := 1 # (2 ^ 1075).
Definition float_max : Q := inject_Z (2 ^ 1023).

(** Decimal degrees of a degrees/minutes/seconds triple of rationals. *)
Definition rational_value (r : Z * Z) : Q := (inject_Z (fst r) / inject_Z (snd r))%Q.

Definition dms_to_degrees (t : (Z * Z) * (Z * Z) * (Z * Z)) : Q :=
  let '(d, m, s) := t in
  (rational_value d + rational_value m / 60 + rational_value s / 3600)%Q.

Section Vocabulary.
Context `{!Externals}.

(** The final destination path: the stem with the resolved extension, [.jpg]
    for an image of unknown extension. *)
Definition final_path_of (u : string) (out_stem : Path) (kind_norm : string)
    (content_type : option string) : result Path :=
  let ext := guess_ext u content_type in
  if (ext =? "") && (kind_norm =? "image") then with_suffix out_stem ".jpg"
  else with_suffix out_stem ext.

(** The stem the loop gives the fetcher for row [i]. *)
Definition row_out_stem (out_dir : string) (i : nat) (dt : Datetime.datetime) : Path :=
  path_join out_dir
    (safe_filename (Str.replace ":" "" (Str.of_nat i ++ "_" ++ row_date_iso dt))).

(** The fetch of a fetchable row. *)
Definition row_fetch (out_dir : string) (i : nat) (row : Row) (dt : Datetime.datetime)
    : M (Path * option string) :=
  download_file (extract_download_url row) (row_out_stem out_dir i dt) (row_kind_norm row).

(** The tagging of a fetched row. *)
Definition row_tagging (row : Row) (dt : Datetime.datetime) (file_path : Path)
    (content_type : option string) : M unit :=
  tag_artifact (row_kind row) (row_kind_norm row) (row_date_iso dt)
    (Datetime.strftime_exif dt) (row_location row)
    (fst (parse_lat_lon (row_location row))) (snd (parse_lat_lon (row_location row)))
    file_path content_type (Str.lower (path_suffix file_path)).

(** *** Contracts of the external tools

    A tool may rewrite files, create files and fail, but it deletes none. *)



(** The contract of the rounding. *)
Definition fl_accurate : Prop :=
  forall x : Q,
    (Qabs x <= float_max)%Q ->
    (Qabs (fl x - x) <= unit_roundoff * Qabs x + underflow_unit)%Q.

End Vocabulary.

(** * Vocabulary of the further properties

    Character classes of strings, the shapes of the texts the parsers read,
    and the checks used in proofs by enumeration. *)

(** Every character of [s] satisfies [p]. *)
Fixpoint all_chars (p : ascii -> bool) (s : string) : bool :=
  match s with
  | EmptyString => true
  | String c r => p c && all_chars p r
  end.

(** The last character of a string. *)
Fixpoint last_char (s : string) : option ascii :=
  match s with
  | EmptyString => None
  | String c r => match r with EmptyString => Some c | String _ _ => last_char r end
  end.

(** The characters [safe_filename] keeps: those of [[\w\-\.]]. *)
Definition safe_char (c : ascii) : bool :=
  Str.is_word c || Ascii.eqb c "-" || Ascii.eqb c ".".

(** The characters of ASCII.  On a text made of them a byte is a character,
    and the classes of [Str] are Python's [str.isspace] and [\w]. *)
Definition is_ascii (c : ascii) : bool := (nat_of_ascii c <? 128)%nat.

(** [rest] does not go on with a character of the class [p]. *)
Definition stops (p : ascii -> bool) (rest : string) : bool :=
  match rest with
  | EmptyString => true
  | String c _ => negb (p c)
  end.

(** A decimal numeral [[+-]?\d+(\.\d+)?]: its sign, its integer digits and
    its fraction digits, none when [fp] is empty. *)
Definition numeral (sg ip fp : string) : string :=
  sg ++ ip ++ (if Str.truthy fp then "." ++ fp else "").

Definition is_numeral (sg ip fp : string) : Prop :=
  (sg = "" \/ sg = "+" \/ sg = "-")
  /\ ip <> "" /\ all_chars Str.is_digit ip = true /\ all_chars Str.is_digit fp = true.

(** An anchor that [select_one] passes over: no [onclick], or one without
    the text [downloadMemories]. *)
Definition no_download_call (a : option string) : bool :=
  match a with
  | Some onclick => negb (Str.contains_str "downloadMemories" onclick)
  | None => true
  end.

(** A date and time of the calendar, in the years [strptime] reads with
    [%Y]: 1 to 9999. *)
Definition valid_datetime (dt : Datetime.datetime) : Prop :=
  (1 <= Datetime.year dt < 10 ^ 4
   /\ 1 <= Datetime.month dt <= 12
   /\ 1 <= Datetime.day dt <= Datetime.days_in_month (Datetime.year dt) (Datetime.month dt)
   /\ Datetime.hour dt <= 23 /\ Datetime.minute dt <= 59 /\ Datetime.second dt <= 59)%nat.

(** The fields that the regular expression of the format reads, whether
    or not they make a date of the calendar. *)
Definition in_format_range (dt : Datetime.datetime) : Prop :=
  (Datetime.year dt < 10 ^ 4
   /\ 1 <= Datetime.month dt <= 12 /\ 1 <= Datetime.day dt <= 31
   /\ Datetime.hour dt <= 23 /\ Datetime.minute dt <= 59 /\ Datetime.second dt <= 61)%nat.

(** The catalog's text for a timestamp: [dt.strftime("%Y-%m-%d %H:%M:%S UTC")]. *)
Definition timestamp_text (dt : Datetime.datetime) : string :=
  zfill 4 (Datetime.year dt) ++ "-" ++ zfill 2 (Datetime.month dt) ++ "-"
  ++ zfill 2 (Datetime.day dt) ++ " " ++ zfill 2 (Datetime.hour dt) ++ ":"
  ++ zfill 2 (Datetime.minute dt) ++ ":" ++ zfill 2 (Datetime.second dt) ++ " UTC".

(** The first alternative of [l] that matches a prefix of [m] matches all of
    [m]. *)
Fixpoint first_full (l : list (list (ascii -> bool))) (m : string) : bool :=
  match l with
  | [] => false
  | a :: more =>
      match Re.classes a m with
      | Some (_, EmptyString) => true
      | Some (_, String _ _) => false
      | None => first_full more m
      end
  end.

(** The zero-padded text of [n] is [width] digits that the alternatives [l]
    read back as a whole, with the value [n]. *)
Definition field_ok (l : list (list (ascii -> bool))) (width n : nat) : bool :=
  let m := zfill width n in
  (String.length m =? width)%nat && first_full l m
  && (int_of_digits m =? n)%nat && all_chars Str.is_digit m.

(** [s] with every occurrence of the character [c] removed. *)
Fixpoint without_char (c : ascii) (s : string) : string :=
  match s with
  | EmptyString => EmptyString
  | String a r => if Ascii.eqb a c then without_char c r else String a (without_char c r)
  end.

(** The date and the time of day as [isoformat] and the file names show
    them. *)
Definition iso_date (dt : Datetime.datetime) : string :=
  zfill 4 (Datetime.year dt) ++ "-" ++ zfill 2 (Datetime.month dt) ++ "-"
  ++ zfill 2 (Datetime.day dt).

Definition iso_time (sep : string) (dt : Datetime.datetime) : string :=
  zfill 2 (Datetime.hour dt) ++ sep ++ zfill 2 (Datetime.minute dt) ++ sep
  ++ zfill 2 (Datetime.second dt).

(** [add_line_to_file] called once for each text of [lines], in order. *)
Fixpoint add_lines_to_file (file_path : string) (lines : list string) : M unit :=
  match lines with
  | [] => mret tt
  | text :: more => add_line_to_file file_path text;; add_lines_to_file file_path more
  end.



Section FurtherVocabulary.
Context `{!Externals}.

(** The extension [download_file] gives the final path: the guessed one,
    [.jpg] for an image when nothing could be guessed. *)
Definition resolved_ext (u kind_norm : string) (content_type : option string) : string :=
  let ext := guess_ext u content_type in
  if (ext =? "") && (kind_norm =? "image") then ".jpg" else ext.

End FurtherVocabulary.

(** The number a text [ip.fp] of decimal digits denotes. *)
Definition decimal_of_digits (ip fp : string) : Q :=
  (inject_Z (Z.of_nat (int_of_digits ip))
   + inject_Z (Z.of_nat (int_of_digits fp)) / inject_Z (10 ^ Z.of_nat (String.length fp)))%Q.

(** The text [sg ip . fp] is [x] printed with its sign and four decimals: the
    sign of a negative or positive [x] (that of a zero is left open, a float
    zero having one of its own), digits before the dot, four after it, and a
    value within half a unit of the fourth decimal of [|x|]. *)
Definition signed_decimal (x : Q) (sg ip fp : string) : Prop :=
  (sg = "+" \/ sg = "-")
  /\ ((x < 0)%Q -> sg = "-") /\ ((0 < x)%Q -> sg = "+")
  /\ ip <> "" /\ all_chars Str.is_digit ip = true
  /\ String.length fp = 4 /\ all_chars Str.is_digit fp = true
  /\ (Qabs (decimal_of_digits ip fp - Qabs x) <= 1 # 20000)%Q.

(** * A concrete environment

    Small stand-ins for the libraries and tools, used to run the program on
    examples: a three-entry MIME table, an ffmpeg that copies its input to
    its output, a piexif that accepts files starting with the JPEG marker,
    exact arithmetic for the floats. *)

Module Demo.

Fixpoint basename (s : string) : string :=
  match s with
  | EmptyString => EmptyString
  | String c r => if Str.contains "/" s then basename r else s
  end.

Definition mimetypes_table (ct : string) : option string :=
  if ct =? "image/png" then Some ".png"
  else if ct =? "image/webp" then Some ".webp"
  else if ct =? "application/zip" then Some ".zip"
  else None.

Definition url_suffix (url : string) : string :=
  path_suffix {| parent := ""; name := basename (Str.split_head "?" url) |}.

Definition render (doc : list (string * json_value)) : string :=
  "{" ++ String.concat "," (map fst doc) ++ "}".

Definition ffmpeg (cmd : list string) : M unit := fun w =>
  let input := nth 3 cmd "" in
  let output := List.last cmd "" in
  if input =? output then (Raise (Exn CalledProcessError "ffmpeg: output same as input"), w)
  else
    match files w !! input with
    | Some data => (Ok tt, set_files (<[output := data]> (files w)) w)
    | None => (Raise (Exn CalledProcessError "ffmpeg: no such file"), w)
    end.

Definition jpeg_magic : string := String "255" (String "216" "").

Definition exif_insert (exif_bytes path : string) : M unit := fun w =>
  match files w !! path with
  | Some data =>
      if Str.take 2 data =? jpeg_magic
      then (Ok tt, set_files (<[path := data ++ exif_bytes]> (files w)) w)
      else (Raise (Exn OtherException "Given file is neither JPEG nor TIFF."), w)
  | None => (Raise (Exn FileNotFoundError "No such file or directory"), w)
  end.

Definition image_open (path : string) : M unit := fun w =>
  match files w !! path with
  | Some data => (Ok tt, w)
  | None => (Raise (Exn FileNotFoundError "No such file or directory"), w)
  end.

Definition image_save (src dst : string) (meta : list (string * string)) : M unit := fun w =>
  (Ok tt, set_files (<[dst := default "" (files w !! src)]> (files w)) w).

Definition externals : Externals := {|
  mimetypes_guess_extension := mimetypes_table;
  url_path_suffix := url_suffix;
  html_unescape := fun s => s;
  json_dumps := render;
  fl := fun x => x;
  shutil_which := fun _ => true;
  subprocess_run := ffmpeg;
  piexif_dump := fun _ => Ok "Exif";
  piexif_insert := exif_insert;
  Image_open := image_open;
  Image_save := image_save
|}.

(** The header row, a row of an image, and a row whose date is no timestamp
    of the catalog's format. *)
Definition header_row : Row := {| tds := []; anchors := [] |}.

Definition image_row : Row :=
  {| tds := ["2025-11-12 21:05:03 UTC"; "Image"; "Latitude, Longitude: 48.8566, 2.3522"; ""];
     anchors := [Some "downloadMemories('https://cdn.example/m/1.jpg', this, true);"] |}.

Definition bad_date_row : Row :=
  {| tds := ["12/11/2025 21:05"; "Image"; "Latitude, Longitude: 48.8566, 2.3522"; ""];
     anchors := [Some "downloadMemories('https://cdn.example/m/2.jpg', this, true);"] |}.

Definition image_row_time : Datetime.datetime :=
  {| Datetime.year := 2025; Datetime.month := 11; Datetime.day := 12;
     Datetime.hour := 21; Datetime.minute := 5; Datetime.second := 3 |}.

(** A row of a video. *)
Definition video_row : Row :=
  {| tds := ["2025-11-12 21:05:03 UTC"; "Video"; "Latitude, Longitude: 48.8566, 2.3522"; ""];
     anchors := [Some "downloadMemories('https://cdn.example/m/3.mp4', this, true);"] |}.

(** The same environment with, under the name ffmpeg, a program that exits
    with status zero and writes no file. *)
Definition idle_ffmpeg (cmd : list string) : M unit := fun w => (Ok tt, w).

Definition externals_idle_ffmpeg : Externals := {|
  mimetypes_guess_extension := mimetypes_table;
  url_path_suffix := url_suffix;
  html_unescape := fun s => s;
  json_dumps := render;
  fl := fun x => x;
  shutil_which := fun _ => true;
  subprocess_run := idle_ffmpeg;
  piexif_dump := fun _ => Ok "Exif";
  piexif_insert := exif_insert;
  Image_open := image_open;
  Image_save := image_save
|}.

Definition tls_error : exn := Exn SSLError "EOF occurred in violation of protocol".

(** An empty disk in front of a scripted network. *)
Definition world (script : list response) : World :=
  {| files := ∅; net := script; trace := [] |}.

End Demo.

(** * Properties *)

#[local] Arguments String.append !s1 s2 / : simpl nomatch.

(** ** Running monadic code *)

Lemma bind_ok {A B : Type} (m : M A) (f : A -> M B) (w w' : World) (a : A) :
  m w = (Ok a, w') -> (m ≫= f) w = f a w'.
Proof. intros Hm. unfold mbind, M_bind. now rewrite Hm. Qed.

Lemma bind_raise {A B : Type} (m : M A) (f : A -> M B) (w w' : World) (e : exn) :
  m w = (Raise e, w') -> (m ≫= f) w = (Raise e, w').
Proof. intros Hm. unfold mbind, M_bind. now rewrite Hm. Qed.

Lemma try_except_ok {A : Type} (m : M A) c (h : exn -> M A) (w w' : World) (a : A) :
  m w = (Ok a, w') -> try_except m c h w = (Ok a, w').
Proof. intros Hm. unfold try_except. now rewrite Hm. Qed.


Lemma try_except_uncaught {A : Type} (m : M A) c (h : exn -> M A) (w w' : World) (e : exn) :
  m w = (Raise e, w') -> c e = false -> try_except m c h w = (Raise e, w').
Proof. intros Hm Hc. unfold try_except. now rewrite Hm, Hc. Qed.

Ltac unfold_monad :=
  unfold mbind, M_bind, mret, M_ret, lift, raise, emit, print, input, time_sleep in *.

(** ** Strings *)

Lemma is_space_lower_char (c : ascii) : Str.is_space (Str.lower_char c) = Str.is_space c.
Proof. destruct c as [[] [] [] [] [] [] [] []]; reflexivity. Qed.

Lemma semicolon_lower_char (c : ascii) :
  Ascii.eqb (Str.lower_char c) ";" = Ascii.eqb c ";".
Proof. destruct c as [[] [] [] [] [] [] [] []]; reflexivity. Qed.

Lemma lower_app (a b : string) : Str.lower (a ++ b) = Str.lower a ++ Str.lower b.
Proof. induction a as [|c a IH]; simpl; [reflexivity | now rewrite IH]. Qed.

Lemma lower_split_head (s : string) :
  Str.lower (Str.split_head ";" s) = Str.split_head ";" (Str.lower s).
Proof.
  induction s as [|c s IH]; simpl; [reflexivity|].
  rewrite semicolon_lower_char.
  destruct (Ascii.eqb c ";"); simpl; [reflexivity | now rewrite IH].
Qed.

Lemma lower_lstrip (s : string) :
  Str.lower (Str.lstrip_by Str.is_space s) = Str.lstrip_by Str.is_space (Str.lower s).
Proof.
  induction s as [|c s IH]; simpl; [reflexivity|].
  rewrite is_space_lower_char.
  destruct (Str.is_space c); simpl; [exact IH | reflexivity].
Qed.

Lemma lower_rstrip (s : string) :
  Str.lower (Str.rstrip_by Str.is_space s) = Str.rstrip_by Str.is_space (Str.lower s).
Proof.
  induction s as [|c s IH]; simpl; [reflexivity|].
  rewrite <- IH, is_space_lower_char.
  destruct (Str.rstrip_by Str.is_space s); simpl; [|reflexivity].
  destruct (Str.is_space c); reflexivity.
Qed.

Lemma lower_strip (s : string) : Str.lower (Str.strip s) = Str.strip (Str.lower s).
Proof. unfold Str.strip, Str.strip_by. now rewrite lower_lstrip, lower_rstrip. Qed.

Section Classifier.
Context `{!Externals}.

(** The media type is computed on the lower-cased header as well. *)
Lemma media_type_lower (ct : string) :
  media_type ct = Str.strip (Str.split_head ";" (Str.lower ct)).
Proof. unfold media_type. now rewrite lower_strip, lower_split_head. Qed.

(** A header whose part before any [;] is one of the zip MIME strings, in any
    letter case, declares a zip. *)
Lemma declares_zip_of_header (mt params ct : string) :
  ct = mt \/ ct = mt ++ ";" ++ params ->
  Str.lower mt = "application/zip" \/ Str.lower mt = "application/x-zip-compressed" ->
  declares_zip (Some ct).
Proof.
  intros Hct Hmt. exists ct. split; [reflexivity|].
  rewrite media_type_lower.
  destruct Hct as [-> | ->]; [|rewrite !lower_app];
    destruct Hmt as [-> | ->]; simpl; auto.
Qed.

Lemma is_zip_declared (file_path : Path) (content_type : option string) (w : World) :
  declares_zip content_type -> is_zip file_path content_type w = (Ok true, w).
Proof.
  intros (c & -> & Hc). unfold is_zip.
  assert (Str.truthy c = true) as ->.
  { destruct c; [|reflexivity]. destruct Hc as [Hc | Hc]; discriminate Hc. }
  destruct Hc as [-> | ->]; reflexivity.
Qed.

Lemma is_zip_signature (file_path : Path) (content_type : option string) (w : World)
    (data : string) :
  files w !! path_str file_path = Some data ->
  Str.take 4 data = zip_signature ->
  is_zip file_path content_type w = (Ok true, w).
Proof.
  intros Hfile Hsig. unfold is_zip.
  match goal with |- (if negb ?b then _ else _) _ = _ => destruct b end;
    [reflexivity|].
  simpl. unfold try_except, Fs.read_head. unfold_monad.
  rewrite Hfile, Hsig. reflexivity.
Qed.

Lemma is_zip_total (file_path : Path) (content_type : option string) (w : World) :
  exists b : bool, is_zip file_path content_type w = (Ok b, w).
Proof.
  unfold is_zip.
  match goal with |- context [if negb ?b then _ else _] => destruct b end;
    [exists true; reflexivity|].
  simpl. unfold try_except, Fs.read_head. unfold_monad.
  destruct (files w !! path_str file_path) as [data|]; eauto.
Qed.

Lemma is_zip_unreadable (file_path : Path) (content_type : option string)
    (w w1 : World) (e : exn) :
  ~ declares_zip content_type ->
  Fs.read_head (path_str file_path) 4 w = (Raise e, w1) ->
  is_zip file_path content_type w = (Ok false, w).
Proof.
  intros Hnot Hread. unfold is_zip.
  match goal with |- context [if negb ?b then _ else _] => destruct b eqn:Hb end.
  - exfalso. apply Hnot.
    destruct content_type as [c|]; [|discriminate Hb]. exists c. split; [reflexivity|].
    destruct (Str.truthy c); [|discriminate Hb].
    apply orb_true_iff in Hb. destruct Hb as [Hb | Hb]; apply String.eqb_eq in Hb; auto.
  - simpl. unfold try_except. unfold_monad.
    unfold Fs.read_head in *.
    destruct (files w !! path_str file_path); [discriminate Hread|]. reflexivity.
Qed.

(** C6.  A declared content-type whose media-type part (the text before any
    [;], compared without regard to letter case) is [application/zip] or
    [application/x-zip-compressed] makes [is_zip] answer true whatever the
    file holds, even when it is absent; and a file whose first four bytes are
    the local-file-header signature makes it answer true whatever
    content-type is declared, an absent one included. *)
Theorem is_zip_by_header_or_signature (file_path : Path) (w : World) :
  (forall mt params ct : string,
      ct = mt \/ ct = mt ++ ";" ++ params ->
      Str.lower mt = "application/zip" \/ Str.lower mt = "application/x-zip-compressed" ->
      is_zip file_path (Some ct) w = (Ok true, w))
  /\ (forall (content_type : option string) (data : string),
      files w !! path_str file_path = Some data ->
      Str.take 4 data = zip_signature ->
      is_zip file_path content_type w = (Ok true, w)).
Proof.
  split.
  - intros mt params ct Hct Hmt.
    apply is_zip_declared. eapply declares_zip_of_header; eassumption.
  - intros content_type data. apply is_zip_signature.
Qed.

(** C10.  [is_zip] always returns a boolean and never raises, and it leaves
    the world as it was; with a zip content-type declared the answer is true
    in every world, so no byte of the file is consulted; without one, when
    reading the file raises (the file is absent), the answer is false. *)
Theorem is_zip_never_raises (file_path : Path) (content_type : option string) (w : World) :
  (exists b : bool, is_zip file_path content_type w = (Ok b, w))
  /\ (declares_zip content_type ->
      forall w' : World, is_zip file_path content_type w' = (Ok true, w'))
  /\ (~ declares_zip content_type ->
      forall (e : exn) (w1 : World),
        Fs.read_head (path_str file_path) 4 w = (Raise e, w1) ->
        is_zip file_path content_type w = (Ok false, w)).
Proof.
  split; [apply is_zip_total|]. split.
  - intros Hz w'. now apply is_zip_declared.
  - intros Hnot e w1. now apply is_zip_unreadable.
Qed.

End Classifier.

(** ** Paths *)

Lemma string_app_nil_r (s : string) : s ++ "" = s.
Proof. induction s as [|c s IH]; simpl; [reflexivity | now rewrite IH]. Qed.

Lemma string_app_assoc (a b c : string) : (a ++ b) ++ c = a ++ b ++ c.
Proof. induction a as [|x a IH]; simpl; [reflexivity | now rewrite IH]. Qed.

Lemma string_app_length (a b : string) :
  String.length (a ++ b) = (String.length a + String.length b)%nat.
Proof. induction a as [|x a IH]; simpl; [reflexivity | now rewrite IH]. Qed.

Lemma string_app_inv_head (a b c : string) : a ++ b = a ++ c -> b = c.
Proof. induction a as [|x a IH]; simpl; intros Heq; [exact Heq | injection Heq; auto]. Qed.

Lemma take_app (a b : string) : Str.take (String.length a) (a ++ b) = a.
Proof. induction a as [|x a IH]; simpl; [now destruct b | now rewrite IH]. Qed.

Lemma take_all (s : string) : Str.take (String.length s) s = s.
Proof. induction s as [|x s IH]; simpl; [reflexivity | now rewrite IH]. Qed.

Lemma truthy_true (s : string) : Str.truthy s = true <-> s <> "".
Proof. destruct s; cbn; split; intros; (discriminate || congruence). Qed.

Lemma truthy_false (s : string) : Str.truthy s = false <-> s = "".
Proof. destruct s; cbn; split; intros; (discriminate || congruence). Qed.

(** [rsplit_dot] cuts the name at a dot, and no dot follows the cut. *)
Lemma rsplit_dot_some (s b a : string) :
  rsplit_dot s = Some (b, a) -> s = b ++ "." ++ a /\ Str.contains "." a = false.
Proof.
  revert b a. induction s as [|c s IH]; simpl; intros b a Hs; [discriminate|].
  destruct (rsplit_dot s) as [[b' a']|] eqn:Hr.
  - injection Hs as <- <-. destruct (IH _ _ eq_refl) as [-> Hno]. auto.
  - destruct (Ascii.eqb c ".") eqn:Hc; [|discriminate].
    injection Hs as <- <-. apply Ascii.eqb_eq in Hc as ->. split; [reflexivity|].
    clear IH. induction s as [|x s IHs]; simpl in *; [reflexivity|].
    destruct (rsplit_dot s) as [[? ?]|]; [discriminate|].
    destruct (Ascii.eqb x "."); [discriminate|]. simpl. auto.
Qed.

Lemma rsplit_dot_none_of_no_dot (s : string) :
  Str.contains "." s = false -> rsplit_dot s = None.
Proof.
  induction s as [|c s IH]; simpl; [reflexivity|].
  intros Hno. apply orb_false_iff in Hno as [Hc Hs]. now rewrite (IH Hs), Hc.
Qed.

Lemma rsplit_dot_app (b a : string) :
  Str.contains "." a = false -> rsplit_dot (b ++ "." ++ a) = Some (b, a).
Proof.
  intros Hno. induction b as [|c b IH]; simpl.
  - now rewrite (rsplit_dot_none_of_no_dot _ Hno).
  - simpl in IH. now rewrite IH.
Qed.

Lemma name_stem_suffix (p : Path) : name p = path_stem p ++ path_suffix p.
Proof.
  unfold path_stem, path_suffix.
  destruct (rsplit_dot (name p)) as [[b a]|] eqn:Hr.
  - destruct (rsplit_dot_some _ _ _ Hr) as [Hn _].
    destruct b as [|x b]; [|destruct a as [|y a]].
    + simpl. now rewrite Nat.sub_0_r, string_app_nil_r, take_all.
    + simpl. now rewrite Nat.sub_0_r, string_app_nil_r, take_all.
    + rewrite Hn at 1 2 3.
      replace (String.length (String x b ++ "." ++ String y a)
               - String.length (String "." (String y a)))%nat
        with (String.length (String x b))
        by (rewrite string_app_length; simpl; lia).
      now rewrite take_app.
  - simpl. now rewrite Nat.sub_0_r, string_app_nil_r, take_all.
Qed.

Lemma path_stem_no_suffix (p : Path) : path_suffix p = "" -> path_stem p = name p.
Proof.
  intros Hs. pose proof (name_stem_suffix p) as Hn.
  rewrite Hs, string_app_nil_r in Hn. now symmetry.
Qed.

Lemma path_stem_nonempty (p : Path) : name p <> "" -> path_stem p <> "".
Proof.
  intros Hn Hstem. pose proof (name_stem_suffix p) as Heq.
  rewrite Hstem in Heq. simpl in Heq.
  unfold path_suffix in Heq.
  destruct (rsplit_dot (name p)) as [[b a]|] eqn:Hr; [|congruence].
  destruct b as [|x b]; [congruence|]. destruct a as [|y a]; [congruence|].
  destruct (rsplit_dot_some _ _ _ Hr) as [Hname _].
  rewrite Hname in Heq. simpl in Heq. injection Heq as Hx Hb.
  apply (f_equal String.length) in Hb. rewrite string_app_length in Hb. simpl in Hb. lia.
Qed.

(** What [with_suffix] returns when it returns: the stem with the new suffix
    appended, in the same directory. *)
Lemma with_suffix_ok (p q : Path) (suffix : string) :
  with_suffix p suffix = Ok q ->
  parent q = parent p /\ name q = path_stem p ++ suffix /\ name p <> "".
Proof.
  unfold with_suffix. intros Hw.
  destruct (Str.contains "/" suffix); [discriminate|].
  destruct (_ || _); [discriminate|].
  destruct (Str.truthy (name p)) eqn:Hn; [|discriminate]. simpl in Hw.
  injection Hw as <-. simpl. split; [reflexivity|]. split; [|now apply truthy_true].
  destruct (Str.truthy (path_suffix p)) eqn:Hs; simpl; [reflexivity|].
  apply truthy_false in Hs. now rewrite path_stem_no_suffix.
Qed.

Lemma with_suffix_valid (p : Path) (suffix : string) :
  name p <> "" -> valid_suffix suffix = true ->
  with_suffix p suffix = Ok {| parent := parent p; name := path_stem p ++ suffix |}.
Proof.
  intros Hn Hv. unfold valid_suffix in Hv. apply andb_true_iff in Hv as [H1 H2].
  apply negb_true_iff in H1, H2. unfold with_suffix. rewrite H1, H2.
  apply truthy_true in Hn. rewrite Hn. simpl. f_equal. f_equal.
  destruct (Str.truthy (path_suffix p)) eqn:Hs; simpl; [reflexivity|].
  apply truthy_false in Hs. now rewrite path_stem_no_suffix.
Qed.

Lemma with_suffix_raises_iff (p : Path) (suffix : string) (e : exn) :
  with_suffix p suffix = Raise e -> name p = "" \/ valid_suffix suffix = false.
Proof.
  unfold with_suffix, valid_suffix. intros Hw.
  destruct (Str.contains "/" suffix); [now right|].
  destruct (_ || _); [now right|].
  destruct (Str.truthy (name p)) eqn:Hn; [discriminate|].
  left. now apply truthy_false.
Qed.

(** A one-dot suffix is the suffix of the path it was given to. *)
Lemma path_suffix_with_suffix (p q : Path) (c : ascii) (a : string) :
  Str.contains "." (String c a) = false ->
  with_suffix p (String "." (String c a)) = Ok q ->
  path_suffix q = String "." (String c a).
Proof.
  intros Hno Hw. destruct (with_suffix_ok _ _ _ Hw) as (_ & Hname & Hn).
  unfold path_suffix. rewrite Hname.
  change (path_stem p ++ String "." (String c a)) with (path_stem p ++ "." ++ String c a).
  rewrite (rsplit_dot_app _ _ Hno).
  destruct (path_stem p) eqn:Hstem; [|reflexivity].
  exfalso. now apply (path_stem_nonempty p).
Qed.

(** Dropping the suffix of a path that has none gives the path back. *)
Lemma with_suffix_empty (p q : Path) :
  with_suffix p "" = Ok q -> path_suffix p = "" -> q = p.
Proof.
  intros Hw Hs. destruct (with_suffix_ok _ _ _ Hw) as (Hp & Hname & _).
  rewrite string_app_nil_r, (path_stem_no_suffix _ Hs) in Hname.
  destruct p, q; simpl in *; congruence.
Qed.

(** ** The fetcher *)

Lemma set_files_files (w : World) : set_files (files w) w = w.
Proof. now destruct w. Qed.

Lemma write_chunks_spec (p : string) (chunks : list string) (broken : option exn)
    (w : World) (data : string) :
  files w !! p = Some data ->
  write_chunks p chunks broken w
  = (match broken with Some e => Raise e | None => Ok tt end,
     set_files (<[p := data ++ response_body chunks]> (files w)) w).
Proof.
  revert w data. induction chunks as [|chunk more IH]; intros w data Hp; simpl.
  - rewrite string_app_nil_r, (insert_id _ _ _ Hp), set_files_files.
    now destruct broken.
  - destruct chunk as [|c chunk]; simpl.
    + unfold_monad. now apply IH.
    + unfold mbind, M_bind, Fs.write at 1. rewrite Hp. simpl.
      erewrite IH; [|simpl; apply lookup_insert_eq].
      simpl. rewrite insert_insert_eq.
      change (String c (chunk ++ response_body more))
        with (String c chunk ++ response_body more).
      now rewrite string_app_assoc.
Qed.

Lemma download_attempt_eq (u : string) (tmp_path : Path) (w : World) :
  download_attempt (Some u) tmp_path w
  = (fst (fetch_outcome (next_response w)), after_attempt u (path_str tmp_path) w).
Proof.
  unfold download_attempt, requests_get, after_attempt, next_response.
  unfold mbind, M_bind at 1. unfold log_event, set_net. simpl.
  destruct (net w) as [|[e | status ct chunks broken] later]; simpl.
  - reflexivity.
  - reflexivity.
  - unfold raise_for_status.
    destruct (is_error_status status); simpl; [reflexivity|].
    unfold mbind, M_bind, mret, M_ret, Fs.open_wb. simpl.
    erewrite write_chunks_spec; [|simpl; apply lookup_insert_eq].
    simpl. rewrite insert_insert_eq. now destruct broken.
Qed.

Lemma download_attempts_cons (u : string) (tmp_path : Path) (attempt : nat)
    (later : list nat) (w : World) :
  download_attempts (Some u) tmp_path (attempt :: later) w
  = let w1 := after_attempt u (path_str tmp_path) w in
    match fst (fetch_outcome (next_response w)) with
    | Ok ct => (Ok ct, w1)
    | Raise e =>
        if is_SSLError e then
          if (attempt =? max_retries)%nat then (Raise e, w1)
          else download_attempts (Some u) tmp_path later (log_event (EvSleep 60) w1)
        else (Raise e, w1)
    end.
Proof.
  simpl. unfold try_except. rewrite download_attempt_eq.
  destruct (fst (fetch_outcome (next_response w))) as [ct|e]; [reflexivity|].
  destruct (is_SSLError e); [|reflexivity].
  destruct (attempt =? max_retries)%nat; reflexivity.
Qed.

Lemma after_attempt_files_other (u tmp : string) (w : World) (p : string) :
  p <> tmp -> files (after_attempt u tmp w) !! p = files w !! p.
Proof.
  intros Hp. unfold after_attempt. simpl.
  destruct (snd (fetch_outcome (next_response w))); [|reflexivity].
  now apply lookup_insert_ne.
Qed.

(** The attempts write to the temporary path only. *)
Lemma download_attempts_files (u : string) (tmp_path : Path) (attempts : list nat)
    (w w' : World) (r : result (option string)) :
  download_attempts (Some u) tmp_path attempts w = (r, w') ->
  forall p, p <> path_str tmp_path -> files w' !! p = files w !! p.
Proof.
  revert w. induction attempts as [|attempt later IH]; intros w Hrun p Hp.
  - simpl in Hrun. unfold raise in Hrun. now injection Hrun as _ <-.
  - rewrite download_attempts_cons in Hrun. cbv zeta in Hrun.
    pose proof (after_attempt_files_other u (path_str tmp_path) w p Hp) as Hone.
    destruct (fst (fetch_outcome (next_response w))) as [ct|e].
    + now injection Hrun as _ <-.
    + destruct (is_SSLError e).
      * destruct (attempt =? max_retries)%nat.
        -- now injection Hrun as _ <-.
        -- rewrite (IH _ Hrun p Hp). exact Hone.
      * now injection Hrun as _ <-.
Qed.

Lemma fetch_outcome_ok (r : response) (ct : option string) :
  fst (fetch_outcome r) = Ok ct ->
  exists status chunks,
    r = Response status ct chunks None /\ is_error_status status = false.
Proof.
  destruct r as [e | status ct' chunks broken]; simpl; [discriminate|].
  destruct (is_error_status status) eqn:Hs; simpl; [discriminate|].
  destruct broken; [discriminate|]. intros [= ->]. eauto.
Qed.

(** When the attempts return, the script was consumed up to a complete
    response, everything before it a TLS failure, and the temporary file
    holds that response's whole body. *)
Lemma download_attempts_ok (u : string) (tmp_path : Path) (attempts : list nat)
    (w w' : World) (ct : option string) :
  download_attempts (Some u) tmp_path attempts w = (Ok ct, w') ->
  exists (pre : list response) status chunks,
    net w = (pre ++ Response status ct chunks None :: net w')%list
    /\ Forall tls_failure pre
    /\ is_error_status status = false
    /\ files w' !! path_str tmp_path = Some (response_body chunks).
Proof.
  revert w. induction attempts as [|attempt later IH]; intros w Hrun.
  - simpl in Hrun. discriminate Hrun.
  - rewrite download_attempts_cons in Hrun. cbv zeta in Hrun.
    destruct (fst (fetch_outcome (next_response w))) as [ct1|e] eqn:Hout.
    + injection Hrun as -> <-.
      destruct (fetch_outcome_ok _ _ Hout) as (status & chunks & Hr & Hs).
      exists [], status, chunks. unfold next_response in Hr.
      destruct (net w) as [|r later'] eqn:Hnet; [discriminate Hr|]. subst r.
      repeat split; [| constructor | exact Hs |].
      * unfold after_attempt. simpl. now rewrite Hnet.
      * unfold after_attempt, next_response. rewrite Hnet. simpl.
        rewrite Hs. simpl. apply lookup_insert_eq.
    + destruct (is_SSLError e) eqn:Hssl; [|discriminate Hrun].
      destruct (attempt =? max_retries)%nat; [discriminate Hrun|].
      destruct (IH _ Hrun) as (pre & status & chunks & Hnet' & Hpre & Hs & Hfile).
      unfold next_response in Hout.
      destruct (net w) as [|r later'] eqn:Hnet.
      { simpl in Hout. injection Hout as <-. discriminate Hssl. }
      exists (r :: pre), status, chunks. simpl in Hnet'. rewrite Hnet in Hnet'.
      simpl in Hnet'. repeat split; [now rewrite Hnet' | | exact Hs | exact Hfile].
      constructor; [|exact Hpre]. exists e. auto.
Qed.

Section Fetcher.
Context `{!Externals}.

Lemma with_suffix_download (out_stem : Path) :
  name out_stem <> "" -> with_suffix out_stem ".download" = Ok (tmp_path_of out_stem).
Proof. intros Hn. now apply with_suffix_valid. Qed.

Lemma download_file_unfold (u : string) (out_stem : Path) (kind_norm : string) (w : World) :
  name out_stem <> "" ->
  download_file (Some u) out_stem kind_norm w
  = match download_attempts (Some u) (tmp_path_of out_stem) (seq 1 max_retries) w with
    | (Raise e, w1) => (Raise e, w1)
    | (Ok ct, w1) =>
        match final_path_of u out_stem kind_norm ct with
        | Raise e => (Raise e, w1)
        | Ok final =>
            match Fs.replace (path_str (tmp_path_of out_stem)) (path_str final) w1 with
            | (Ok _, w2) => (Ok (final, ct), w2)
            | (Raise e, w2) => (Raise e, w2)
            end
        end
    end.
Proof.
  intros Hn. unfold download_file. rewrite (with_suffix_download _ Hn).
  unfold mbind, M_bind, lift, mret, M_ret. fold (final_path_of u out_stem kind_norm).
  destruct (download_attempts _ _ _ w) as [[ct|e] w1]; [|reflexivity].
  fold (final_path_of u out_stem kind_norm ct).
  destruct (final_path_of u out_stem kind_norm ct) as [final|e]; [|reflexivity].
  destruct (Fs.replace _ _ w1) as [[[]|e] w2]; reflexivity.
Qed.

(** Without a stem name nothing is attempted; without a url nothing is sent. *)
Lemma download_file_no_name (url : option string) (out_stem : Path) (kind_norm : string)
    (w : World) :
  name out_stem = "" ->
  exists e, download_file url out_stem kind_norm w = (Raise e, w).
Proof.
  intros Hn. unfold download_file, with_suffix. rewrite Hn. simpl. eauto.
Qed.

Lemma download_file_no_url (out_stem : Path) (kind_norm : string) (w : World) :
  exists e, download_file None out_stem kind_norm w = (Raise e, w).
Proof.
  unfold download_file.
  destruct (with_suffix out_stem ".download") as [tmp|e] eqn:Hw; simpl; eauto.
Qed.

(** The outcome of the loop on each shape of script, three attempts at most. *)
Lemma download_attempts_trace (u : string) (tmp_path : Path) (w w' : World)
    (r : result (option string)) :
  download_attempts (Some u) tmp_path (seq 1 max_retries) w = (r, w') ->
  exists n : nat, (1 <= n <= 3)%nat
    /\ trace w' = (trace w ++ retry_trace u n)%list
    /\ net w' = drop n (net w).
Proof.
  change (seq 1 max_retries) with [1; 2; 3]%nat.
  assert (forall w0 : World,
             trace (after_attempt u (path_str tmp_path) w0) = (trace w0 ++ [EvGet u])%list
             /\ net (after_attempt u (path_str tmp_path) w0) = drop 1 (net w0)) as Hstep.
  { intros w0. split; [reflexivity|].
    unfold after_attempt. simpl. destruct (net w0); reflexivity. }
  rewrite download_attempts_cons. cbv zeta.
  destruct (Hstep w) as [Ht1 Hn1].
  remember (after_attempt u (path_str tmp_path) w) as w1 eqn:Hw1. clear Hw1.
  destruct (fst (fetch_outcome (next_response w))) as [?|e1];
    [intros [= <- <-]; exists 1%nat; repeat split; auto; lia|].
  destruct (is_SSLError e1);
    [|intros [= <- <-]; exists 1%nat; repeat split; auto; lia].
  change (1 =? max_retries)%nat with false. cbv iota.
  rewrite download_attempts_cons. cbv zeta.
  destruct (Hstep (log_event (EvSleep 60) w1)) as [Ht2 Hn2].
  remember (after_attempt u (path_str tmp_path) (log_event (EvSleep 60) w1)) as w2 eqn:Hw2.
  clear Hw2.
  unfold log_event in Ht2, Hn2. simpl in Ht2, Hn2. rewrite Ht1 in Ht2. rewrite Hn1, drop_drop in Hn2.
  rewrite <- !app_assoc in Ht2. simpl in Ht2.
  destruct (fst (fetch_outcome (next_response (log_event (EvSleep 60) w1)))) as [?|e2];
    [intros [= <- <-]; exists 2%nat; repeat split; auto; lia|].
  destruct (is_SSLError e2);
    [|intros [= <- <-]; exists 2%nat; repeat split; auto; lia].
  change (2 =? max_retries)%nat with false. cbv iota.
  rewrite download_attempts_cons. cbv zeta.
  destruct (Hstep (log_event (EvSleep 60) w2)) as [Ht3 Hn3].
  remember (after_attempt u (path_str tmp_path) (log_event (EvSleep 60) w2)) as w3 eqn:Hw3.
  clear Hw3.
  unfold log_event in Ht3, Hn3. simpl in Ht3, Hn3. rewrite Ht2 in Ht3. rewrite Hn2, drop_drop in Hn3.
  rewrite <- !app_assoc in Ht3. simpl in Ht3.
  change (3 =? max_retries)%nat with true. cbv iota.
  destruct (fst (fetch_outcome (next_response (log_event (EvSleep 60) w2)))) as [?|e3];
    [intros [= <- <-]; exists 3%nat; repeat split; auto; lia|].
  destruct (is_SSLError e3); intros [= <- <-]; exists 3%nat; repeat split; auto; lia.
Qed.

(** One attempt on a script whose head is known. *)
Lemma download_attempts_head (u : string) (tmp_path : Path) (attempt : nat)
    (later : list nat) (w : World) (r : response) (rest : list response) :
  net w = r :: rest ->
  exists w1 : World,
    net w1 = rest
    /\ trace w1 = (trace w ++ [EvGet u])%list
    /\ download_attempts (Some u) tmp_path (attempt :: later) w
       = match fst (fetch_outcome r) with
         | Ok ct => (Ok ct, w1)
         | Raise e =>
             if is_SSLError e then
               if (attempt =? max_retries)%nat then (Raise e, w1)
               else download_attempts (Some u) tmp_path later (log_event (EvSleep 60) w1)
             else (Raise e, w1)
         end.
Proof.
  intros Hnet. exists (after_attempt u (path_str tmp_path) w).
  rewrite download_attempts_cons. unfold next_response, after_attempt at 1 2.
  rewrite Hnet. simpl. auto.
Qed.

(** Three TLS failures in a row exhaust the retries. *)
Lemma download_file_tls_exhausted (u : string) (out_stem : Path) (kind_norm : string)
    (w : World) (r1 r2 r3 : response) (rest : list response) (e3 : exn) :
  name out_stem <> "" ->
  net w = r1 :: r2 :: r3 :: rest ->
  tls_failure r1 -> tls_failure r2 ->
  fst (fetch_outcome r3) = Raise e3 -> is_SSLError e3 = true ->
  exists w', download_file (Some u) out_stem kind_norm w = (Raise e3, w')
             /\ trace w' = (trace w ++ [EvGet u; EvSleep 60; EvGet u;
                                        EvSleep 60; EvGet u])%list
             /\ net w' = rest.
Proof.
  intros Hname Hnet (e1 & Ho1 & Hs1) (e2 & Ho2 & Hs2) Ho3 Hs3.
  rewrite (download_file_unfold _ _ _ _ Hname).
  change (seq 1 max_retries) with [1; 2; 3]%nat.
  destruct (download_attempts_head u (tmp_path_of out_stem) 1 [2; 3]%nat _ _ _ Hnet)
    as (w1 & Hn1 & Ht1 & ->).
  rewrite Ho1, Hs1. change (1 =? max_retries)%nat with false. cbv iota.
  destruct (download_attempts_head u (tmp_path_of out_stem) 2 [3]%nat
              (log_event (EvSleep 60) w1) _ _ Hn1) as (w2 & Hn2 & Ht2 & ->).
  rewrite Ho2, Hs2. change (2 =? max_retries)%nat with false. cbv iota.
  destruct (download_attempts_head u (tmp_path_of out_stem) 3 []%nat
              (log_event (EvSleep 60) w2) _ _ Hn2) as (w3 & Hn3 & Ht3 & ->).
  rewrite Ho3, Hs3. change (3 =? max_retries)%nat with true. cbv iota.
  exists w3. split; [reflexivity|]. split; [|exact Hn3].
  rewrite Ht3. simpl. rewrite Ht2. simpl. rewrite Ht1.
  now rewrite <- !app_assoc.
Qed.

(** C5.  [download_file] retries on the TLS error class only.  (a) Three TLS
    failures in a row: three requests, a 60-second sleep before the second
    and the third, and the third error is raised.  (b) Any other failure,
    met on the first attempt or after one or two TLS failures, is raised at
    once: no sleep and no request follows it.  (c) In particular an HTTP
    error status met first is raised after one request and no sleep.
    (d) Whatever the script, one to three requests are made, with a
    60-second sleep between consecutive ones. *)
Theorem download_file_retry_policy (u : string) (out_stem : Path) (kind_norm : string)
    (w : World) :
  name out_stem <> "" ->
  (forall r1 r2 r3 rest e3,
      net w = r1 :: r2 :: r3 :: rest ->
      tls_failure r1 -> tls_failure r2 ->
      fst (fetch_outcome r3) = Raise e3 -> is_SSLError e3 = true ->
      exists w', download_file (Some u) out_stem kind_norm w = (Raise e3, w')
                 /\ trace w' = (trace w ++ [EvGet u; EvSleep 60; EvGet u;
                                            EvSleep 60; EvGet u])%list
                 /\ net w' = rest)
  /\ (forall (pre : list response) r rest e,
      net w = (pre ++ r :: rest)%list ->
      Forall tls_failure pre -> (length pre <= 2)%nat ->
      fst (fetch_outcome r) = Raise e -> is_SSLError e = false ->
      exists w', download_file (Some u) out_stem kind_norm w = (Raise e, w')
                 /\ trace w' = (trace w ++ retry_trace u (S (length pre)))%list
                 /\ net w' = rest)
  /\ (forall status ct chunks broken rest,
      net w = Response status ct chunks broken :: rest ->
      is_error_status status = true ->
      exists w', download_file (Some u) out_stem kind_norm w
                 = (Raise (status_error status), w')
                 /\ trace w' = (trace w ++ [EvGet u])%list
                 /\ files w' = files w)
  /\ (forall r w',
      download_file (Some u) out_stem kind_norm w = (r, w') ->
      exists n : nat, (1 <= n <= 3)%nat
                      /\ trace w' = (trace w ++ retry_trace u n)%list).
Proof.
  intros Hname. change (seq 1 max_retries) with [1; 2; 3]%nat.
  split; [|split; [|split]].
  - intros r1 r2 r3 rest e3 Hnet H1 H2 Ho3 Hs3.
    now apply download_file_tls_exhausted with r1 r2 r3.
  - intros pre r rest e Hnet Hpre Hlen Ho Hs.
    rewrite (download_file_unfold _ _ _ _ Hname).
    change (seq 1 max_retries) with [1; 2; 3]%nat.
    destruct pre as [|r1 pre].
    { destruct (download_attempts_head u (tmp_path_of out_stem) 1 [2; 3]%nat _ _ _ Hnet)
        as (w1 & Hn1 & Ht1 & ->).
      rewrite Ho, Hs. exists w1. auto. }
    apply Forall_cons in Hpre as [(e1 & Ho1 & Hs1) Hpre].
    destruct (download_attempts_head u (tmp_path_of out_stem) 1 [2; 3]%nat _ _ _ Hnet)
      as (w1 & Hn1 & Ht1 & ->).
    rewrite Ho1, Hs1. change (1 =? max_retries)%nat with false. cbv iota.
    destruct pre as [|r2 pre].
    { destruct (download_attempts_head u (tmp_path_of out_stem) 2 [3]%nat
                  (log_event (EvSleep 60) w1) _ _ Hn1) as (w2 & Hn2 & Ht2 & ->).
      rewrite Ho, Hs. exists w2. split; [reflexivity|]. split; [|exact Hn2].
      rewrite Ht2. simpl. rewrite Ht1. now rewrite <- !app_assoc. }
    apply Forall_cons in Hpre as [(e2 & Ho2 & Hs2) Hpre].
    destruct (download_attempts_head u (tmp_path_of out_stem) 2 [3]%nat
                (log_event (EvSleep 60) w1) _ _ Hn1) as (w2 & Hn2 & Ht2 & ->).
    rewrite Ho2, Hs2. change (2 =? max_retries)%nat with false. cbv iota.
    destruct pre as [|r3 pre]; [|simpl in Hlen; lia].
    destruct (download_attempts_head u (tmp_path_of out_stem) 3 []%nat
                (log_event (EvSleep 60) w2) _ _ Hn2) as (w3 & Hn3 & Ht3 & ->).
    rewrite Ho, Hs. exists w3. split; [reflexivity|]. split; [|exact Hn3].
    rewrite Ht3. simpl. rewrite Ht2. simpl. rewrite Ht1. now rewrite <- !app_assoc.
  - intros status ct chunks broken rest Hnet Hst.
    rewrite (download_file_unfold _ _ _ _ Hname).
    change (seq 1 max_retries) with [1; 2; 3]%nat.
    rewrite download_attempts_cons. cbv zeta.
    unfold after_attempt, next_response. rewrite Hnet. simpl. rewrite Hst. simpl.
    eexists. split; [reflexivity|]. auto.
  - intros r w' Hrun.
    rewrite (download_file_unfold _ _ _ _ Hname) in Hrun.
    destruct (download_attempts _ _ _ w) as [[ct|e] w1] eqn:Hloop.
    + destruct (download_attempts_trace _ _ _ _ _ Hloop) as (n & Hn & Ht & _).
      exists n. split; [exact Hn|]. rewrite <- Ht.
      destruct (final_path_of u out_stem kind_norm ct) as [final|e];
        [|now injection Hrun as _ <-].
      unfold Fs.replace in Hrun.
      destruct (files w1 !! _); now injection Hrun as _ <-.
    + destruct (download_attempts_trace _ _ _ _ _ Hloop) as (n & Hn & Ht & _).
      injection Hrun as _ <-. eauto.
Qed.

Lemma after_attempt_delete_tmp (u tmp : string) (w : World) :
  delete tmp (files (after_attempt u tmp w)) = delete tmp (files w).
Proof.
  unfold after_attempt. cbn [files].
  destruct (snd (fetch_outcome (next_response w))); [apply delete_insert_eq | reflexivity].
Qed.

(** The attempts that fail with a TLS error, before the last allowed one:
    each is followed by a sleep, and the loop goes on with the next attempt
    number. *)
Lemma download_attempts_after_failures (u : string) (tmp_path : Path)
    (r : response) (rest : list response) (pre : list response) :
  forall (a n : nat) (w : World),
    net w = (pre ++ r :: rest)%list ->
    Forall tls_failure pre ->
    (a + length pre <= max_retries)%nat -> (length pre < n)%nat ->
    exists w1,
      net w1 = r :: rest
      /\ delete (path_str tmp_path) (files w1) = delete (path_str tmp_path) (files w)
      /\ (forall m, (trace w1 ++ retry_trace u (S m)
                     = trace w ++ retry_trace u (S (length pre + m)))%list)
      /\ download_attempts (Some u) tmp_path (seq a n) w
         = download_attempts (Some u) tmp_path (seq (a + length pre) (n - length pre)) w1.
Proof.
  induction pre as [|r1 pre IH]; intros a n w Hnet Hpre Ha Hn.
  - exists w. cbn [length app] in *. rewrite Nat.add_0_r, Nat.sub_0_r. auto.
  - apply Forall_cons in Hpre as [(e1 & Ho1 & Hs1) Hpre]. cbn [length] in Ha, Hn.
    destruct n as [|n]; [lia|]. cbn [seq].
    rewrite download_attempts_cons. cbv zeta.
    unfold next_response at 1. rewrite Hnet. cbn [app]. rewrite Ho1, Hs1.
    assert ((a =? max_retries)%nat = false) as -> by (apply Nat.eqb_neq; lia).
    set (w' := log_event (EvSleep 60) (after_attempt u (path_str tmp_path) w)).
    destruct (IH (S a) n w') as (w1 & Hn1 & Hf1 & Ht1 & Hrun).
    + unfold w', after_attempt. cbn [net log_event]. now rewrite Hnet.
    + exact Hpre.
    + lia.
    + lia.
    + exists w1. split; [exact Hn1|]. split; [|split].
      * rewrite Hf1. unfold w'. cbn [files log_event]. apply after_attempt_delete_tmp.
      * intros m. rewrite Ht1. unfold w', after_attempt. cbn [trace log_event length].
        rewrite <- !app_assoc. reflexivity.
      * rewrite Hrun. cbn [length]. f_equal. f_equal; lia.
Qed.

(** The final path when no extension could be guessed: [.jpg] for an image,
    the stem as it is for any other kind. *)
Lemma final_path_of_unknown (u : string) (out_stem final : Path) (kind_norm : string)
    (ct : option string) :
  guess_ext u ct = "" ->
  final_path_of u out_stem kind_norm ct = Ok final ->
  (kind_norm = "image" ->
   with_suffix out_stem ".jpg" = Ok final /\ path_suffix final = ".jpg")
  /\ (kind_norm <> "image" ->
      with_suffix out_stem "" = Ok final
      /\ (path_suffix out_stem = "" -> final = out_stem /\ path_suffix final = "")).
Proof.
  intros Hext Hfinal. unfold final_path_of in Hfinal. rewrite Hext in Hfinal.
  cbn [String.eqb andb] in Hfinal. split.
  - intros ->. cbn [String.eqb Ascii.eqb Bool.eqb andb] in Hfinal.
    change ("image" =? "image") with true in Hfinal. cbv iota in Hfinal.
    split; [exact Hfinal|].
    eapply (path_suffix_with_suffix out_stem final "j" "pg"); [reflexivity | exact Hfinal].
  - intros Hk. apply String.eqb_neq in Hk. rewrite Hk in Hfinal.
    split; [exact Hfinal|]. intros Hs.
    pose proof (with_suffix_empty _ _ Hfinal Hs) as ->. auto.
Qed.

Lemma guess_ext_from_url (u : string) :
  (if Str.truthy (url_path_suffix u) then url_path_suffix u else "") = url_path_suffix u.
Proof. destruct (url_path_suffix u); reflexivity. Qed.

(** C7.  [guess_ext] prefers a present content-type: [video/mp4] gives
    [.mp4], [image/jpeg] gives [.jpg], any other media type gives the
    extension [mimetypes] maps it to; with no content-type, an empty one, or
    one [mimetypes] does not map, the result is the suffix of the URL's path,
    which is empty when the path has none.  In [download_file], an empty
    extension gives the final path the suffix [.jpg] when the kind is
    [image]; for any other kind nothing is appended, so a stem without
    extension is the final path itself.  This is stated twice: of every
    call that returns, and as a result that is produced: on a complete
    response with a non-error status, met after at most two TLS failures,
    from which no extension can be guessed, [download_file] returns that
    final path, and the file there holds the body of the response. *)
Theorem guess_ext_priority (u : string) :
  (forall ct, media_type ct = "video/mp4" -> guess_ext u (Some ct) = ".mp4")
  /\ (forall ct, media_type ct = "image/jpeg" -> guess_ext u (Some ct) = ".jpg")
  /\ (forall ct ext,
        ct <> "" ->
        media_type ct <> "video/mp4" -> media_type ct <> "image/jpeg" ->
        mimetypes_guess_extension (media_type ct) = Some ext -> ext <> "" ->
        guess_ext u (Some ct) = ext)
  /\ (forall content_type,
        content_type = None \/ content_type = Some ""
        \/ (exists ct, content_type = Some ct
                       /\ media_type ct <> "video/mp4" /\ media_type ct <> "image/jpeg"
                       /\ (mimetypes_guess_extension (media_type ct) = None
                           \/ mimetypes_guess_extension (media_type ct) = Some "")) ->
        guess_ext u content_type = url_path_suffix u)
  /\ (forall out_stem kind_norm w final ct w',
        download_file (Some u) out_stem kind_norm w = (Ok (final, ct), w') ->
        guess_ext u ct = "" ->
        (kind_norm = "image" ->
         with_suffix out_stem ".jpg" = Ok final /\ path_suffix final = ".jpg")
        /\ (kind_norm <> "image" ->
            with_suffix out_stem "" = Ok final
            /\ (path_suffix out_stem = "" -> final = out_stem /\ path_suffix final = "")))
  /\ (forall out_stem kind_norm w (pre : list response) status ct chunks rest,
        name out_stem <> "" ->
        net w = (pre ++ Response status ct chunks None :: rest)%list ->
        Forall tls_failure pre -> (length pre <= 2)%nat ->
        is_error_status status = false ->
        guess_ext u ct = "" ->
        exists final w',
          download_file (Some u) out_stem kind_norm w = (Ok (final, ct), w')
          /\ files w' !! path_str final = Some (response_body chunks)
          /\ (kind_norm = "image" ->
              with_suffix out_stem ".jpg" = Ok final /\ path_suffix final = ".jpg")
          /\ (kind_norm <> "image" ->
              with_suffix out_stem "" = Ok final
              /\ (path_suffix out_stem = "" -> final = out_stem /\ path_suffix final = ""))).
Proof.
  split; [|split; [|split; [|split; [|split]]]].
  - intros ct Hmt. unfold guess_ext.
    destruct ct; [discriminate Hmt|]. cbn [Str.truthy String.eqb negb]. now rewrite Hmt.
  - intros ct Hmt. unfold guess_ext.
    destruct ct; [discriminate Hmt|]. cbn [Str.truthy String.eqb negb]. now rewrite Hmt.
  - intros ct ext Hct Hmp4 Hjpg Hmap Hext. unfold guess_ext.
    apply truthy_true in Hct. rewrite Hct, Hmap. simpl.
    apply String.eqb_neq in Hmp4, Hjpg. rewrite Hmp4, Hjpg.
    apply truthy_true in Hext. now rewrite Hext.
  - intros content_type [-> | [-> | (ct & -> & Hmp4 & Hjpg & Hmap)]];
      unfold guess_ext; try apply guess_ext_from_url.
    destruct (Str.truthy ct); [|apply guess_ext_from_url].
    apply String.eqb_neq in Hmp4, Hjpg. rewrite Hmp4, Hjpg.
    destruct Hmap as [-> | ->]; apply guess_ext_from_url.
  - intros out_stem kind_norm w final ct w' Hrun Hext.
    destruct (String.eqb_spec (name out_stem) "") as [Hn | Hn].
    { destruct (download_file_no_name (Some u) out_stem kind_norm w Hn) as (e & He).
      rewrite He in Hrun. discriminate Hrun. }
    rewrite (download_file_unfold _ _ _ _ Hn) in Hrun.
    destruct (download_attempts _ _ _ w) as [[ct1|e] w1]; [|discriminate Hrun].
    unfold final_path_of in Hrun.
    destruct (String.eqb_spec kind_norm "image") as [Hk | Hk].
    + assert (guess_ext u ct1 = "" -> with_suffix out_stem ".jpg" = Ok final) as Hfin.
      { intros Hx. rewrite Hx in Hrun. simpl in Hrun.
        destruct (with_suffix out_stem ".jpg") as [f|e]; [|discriminate Hrun].
        destruct (Fs.replace _ _ w1) as [[[]|e] w2]; [|discriminate Hrun].
        now injection Hrun as -> _ _. }
      assert (ct1 = ct) as ->.
      { destruct (if _ : bool then _ else _) as [f|e]; [|discriminate Hrun].
        destruct (Fs.replace _ _ w1) as [[[]|e] w2]; [|discriminate Hrun].
        now injection Hrun as _ -> _. }
      split; [|congruence]. intros _. split; [auto|].
      eapply (path_suffix_with_suffix out_stem final "j" "pg"); [reflexivity | auto].
    + rewrite andb_false_r in Hrun.
      destruct (with_suffix out_stem (guess_ext u ct1)) as [f|e] eqn:Hw; [|discriminate Hrun].
      destruct (Fs.replace _ _ w1) as [[[]|e] w2]; [|discriminate Hrun].
      injection Hrun as -> -> _. rewrite Hext in Hw.
      split; [congruence|]. intros _. split; [exact Hw|].
      intros Hs. pose proof (with_suffix_empty _ _ Hw Hs) as ->. auto.
  - intros out_stem kind_norm w pre status ct chunks rest Hname Hnet Hpre Hlen Hstatus Hext.
    assert (exists final, final_path_of u out_stem kind_norm ct = Ok final) as [final Hfinal].
    { unfold final_path_of. rewrite Hext.
      destruct (_ && _);
        [rewrite (with_suffix_valid _ ".jpg" Hname eq_refl)
        |rewrite (with_suffix_valid _ "" Hname eq_refl)]; eauto. }
    exists final.
    rewrite (download_file_unfold _ _ _ _ Hname).
    destruct (download_attempts_after_failures u (tmp_path_of out_stem)
                (Response status ct chunks None) rest pre 1 max_retries w Hnet Hpre)
      as (w1 & Hn1 & _ & _ & ->); [unfold max_retries; lia..|].
    assert (exists n, (max_retries - length pre)%nat = S n) as [n ->]
      by (exists (2 - length pre)%nat; unfold max_retries; lia).
    cbn [seq]. rewrite download_attempts_cons. cbv zeta.
    unfold next_response at 1. rewrite Hn1. cbn [fetch_outcome]. rewrite Hstatus. cbn [fst].
    rewrite Hfinal. unfold Fs.replace, after_attempt, next_response.
    rewrite Hn1. cbn [fetch_outcome]. rewrite Hstatus. cbn [snd files set_files net trace tl].
    rewrite lookup_insert_eq. eexists. split; [reflexivity|].
    cbn [files set_files]. split; [apply lookup_insert_eq|].
    exact (final_path_of_unknown u out_stem final kind_norm ct Hext Hfinal).
Qed.

(** The world a successful rename leaves. *)
Lemma replace_ok (src dst : string) (w w' : World) :
  Fs.replace src dst w = (Ok tt, w') ->
  exists data, files w !! src = Some data
               /\ files w' = <[dst := data]> (delete src (files w))
               /\ net w' = net w /\ trace w' = trace w.
Proof.
  unfold Fs.replace. destruct (files w !! src) as [data|]; [|discriminate].
  intros [= <-]. eauto.
Qed.

Lemma replace_raise (src dst : string) (w w' : World) (e : exn) :
  Fs.replace src dst w = (Raise e, w') -> w' = w /\ files w !! src = None.
Proof.
  unfold Fs.replace. destruct (files w !! src) as [data|] eqn:Hs; [discriminate|].
  now intros [= _ <-].
Qed.

Lemma download_file_ok_inv (url : option string) (out_stem : Path) (kind_norm : string)
    (w w' : World) (final : Path) (ct : option string) :
  download_file url out_stem kind_norm w = (Ok (final, ct), w') ->
  exists u (pre : list response) status chunks,
    url = Some u
    /\ final_path_of u out_stem kind_norm ct = Ok final
    /\ net w = (pre ++ Response status ct chunks None :: net w')%list
    /\ Forall tls_failure pre
    /\ is_error_status status = false
    /\ files w'
       = <[path_str final := response_body chunks]>
           (delete (path_str (tmp_path_of out_stem)) (files w)).
Proof.
  destruct url as [u|].
  2:{ destruct (download_file_no_url out_stem kind_norm w) as (e0 & He0).
      rewrite He0. discriminate. }
  destruct (String.eqb_spec (name out_stem) "") as [Hn | Hn].
  { destruct (download_file_no_name (Some u) out_stem kind_norm w Hn) as (e0 & He0).
    rewrite He0. discriminate. }
  rewrite (download_file_unfold _ _ _ _ Hn).
  destruct (download_attempts _ _ _ w) as [[ct1|e1] w1] eqn:Hloop; [|discriminate].
  pose proof (download_attempts_files _ _ _ _ _ _ Hloop) as Hframe.
  destruct (download_attempts_ok _ _ _ _ _ _ Hloop)
    as (pre & status & chunks & Hnet & Hpre & Hst & Hbody).
  destruct (final_path_of u out_stem kind_norm ct1) as [final1|e] eqn:Hfinal;
    [|discriminate].
  destruct (Fs.replace _ _ w1) as [[[]|e] w2] eqn:Hrep; [|discriminate].
  intros [= <- <- <-].
  destruct (replace_ok _ _ _ _ Hrep) as (data & Hdata & Hfiles & Hnet2 & _).
  exists u, pre, status, chunks. rewrite Hnet2.
  repeat split; auto.
  rewrite Hfiles. rewrite Hbody in Hdata. injection Hdata as <-. f_equal.
  apply map_eq. intros p.
  destruct (decide (path_str (tmp_path_of out_stem) = p)) as [<- | Hp].
  - now rewrite !lookup_delete_eq.
  - rewrite !lookup_delete_ne by exact Hp. apply Hframe. congruence.
Qed.

Lemma download_file_raise_frame (url : option string) (out_stem : Path)
    (kind_norm : string) (w w' : World) (e : exn) :
  download_file url out_stem kind_norm w = (Raise e, w') ->
  forall p, p <> path_str (tmp_path_of out_stem) -> files w' !! p = files w !! p.
Proof.
  destruct url as [u|].
  2:{ destruct (download_file_no_url out_stem kind_norm w) as (e0 & He0).
      rewrite He0. now intros [= _ <-]. }
  destruct (String.eqb_spec (name out_stem) "") as [Hn | Hn].
  { destruct (download_file_no_name (Some u) out_stem kind_norm w Hn) as (e0 & He0).
    rewrite He0. now intros [= _ <-]. }
  rewrite (download_file_unfold _ _ _ _ Hn).
  destruct (download_attempts _ _ _ w) as [[ct1|e1] w1] eqn:Hloop.
  - pose proof (download_attempts_files _ _ _ _ _ _ Hloop) as Hframe.
    destruct (final_path_of u out_stem kind_norm ct1) as [final1|e0] eqn:Hfinal.
    + destruct (Fs.replace _ _ w1) as [[[]|e0] w2] eqn:Hrep; [discriminate|].
      intros [= _ <-]. destruct (replace_raise _ _ _ _ _ Hrep) as [-> _]. exact Hframe.
    + intros [= _ <-]. exact Hframe.
  - intros [= _ <-]. exact (download_attempts_files _ _ _ _ _ _ Hloop).
Qed.

End Fetcher.

(** ** Zip handling *)

Section Zip.
Context `{!Externals}.

Lemma path_eqb_eq (p q : Path) : path_eqb p q = true <-> p = q.
Proof.
  unfold path_eqb. rewrite andb_true_iff, !String.eqb_eq.
  destruct p, q; simpl; split; [intros [-> ->] | intros [= -> ->]]; auto.
Qed.

Lemma save_zip_already (file_path : Path) (w : World) :
  save_zip file_path ".zip" w
  = (Ok tt, log_event (EvPrint ("Saved ZIP -> " ++ name file_path)) w).
Proof.
  unfold save_zip. unfold_monad. simpl.
  assert (path_eqb file_path file_path = true) as -> by now apply path_eqb_eq.
  reflexivity.
Qed.

Lemma save_zip_rename (file_path : Path) (suffix : string) (w : World) (data : string) :
  name file_path <> "" ->
  files w !! path_str file_path = Some data ->
  suffix <> ".zip" ->
  let zip_path := {| parent := parent file_path; name := path_stem file_path ++ ".zip" |} in
  save_zip file_path suffix w
  = (Ok tt,
     log_event (EvPrint ("Saved ZIP -> " ++ name zip_path))
       (set_files (<[path_str zip_path := data]> (delete (path_str file_path) (files w))) w)).
Proof.
  intros Hn Hfile Hsfx zip_path. unfold save_zip.
  apply String.eqb_neq in Hsfx. rewrite Hsfx.
  rewrite (with_suffix_valid _ ".zip" Hn eq_refl). fold zip_path.
  unfold mbind, M_bind, lift, mret, M_ret, print, emit.
  destruct (path_eqb zip_path file_path) eqn:Heq; simpl.
  - apply path_eqb_eq in Heq. pose proof (f_equal name Heq) as Hname.
    simpl in Hname. rewrite Heq, Hname.
    rewrite insert_delete_eq, (insert_id _ _ _ Hfile), set_files_files. reflexivity.
  - unfold Fs.replace. rewrite Hfile. reflexivity.
Qed.

(** C8.  (a) [save_zip] on an existing artifact whose suffix is not [.zip]
    moves it to the same name with the suffix [.zip]: the new path holds the
    same bytes, the old path is gone, nothing else changes.  (b) With the
    suffix [.zip] already, no file operation is performed; this is the case
    when zip handling is applied again to the renamed file.  (c) In the
    orchestrator an artifact that [is_zip] accepts is handled by [save_zip]
    alone: whatever the declared kind and whatever taggers are installed, no
    video or image tagging is run. *)
Theorem save_zip_in_place (file_path : Path) (w : World) :
  (forall suffix data,
      name file_path <> "" ->
      files w !! path_str file_path = Some data ->
      suffix <> ".zip" ->
      exists zip_path w',
        with_suffix file_path ".zip" = Ok zip_path
        /\ path_suffix zip_path = ".zip"
        /\ save_zip file_path suffix w = (Ok tt, w')
        /\ files w' = <[path_str zip_path := data]> (delete (path_str file_path) (files w))
        /\ files w' !! path_str zip_path = Some data
        /\ fst (save_zip zip_path (Str.lower (path_suffix zip_path)) w') = Ok tt
        /\ files (snd (save_zip zip_path (Str.lower (path_suffix zip_path)) w')) = files w')
  /\ (exists w', save_zip file_path ".zip" w = (Ok tt, w') /\ files w' = files w)
  /\ (forall kind kind_norm date_iso dt_exif location_str lat lon content_type suffix,
      is_zip file_path content_type w = (Ok true, w) ->
      tag_artifact kind kind_norm date_iso dt_exif location_str lat lon
        file_path content_type suffix w
      = save_zip file_path suffix w).
Proof.
  split; [|split].
  - intros suffix data Hn Hfile Hsfx.
    pose proof (save_zip_rename file_path suffix w data Hn Hfile Hsfx) as Hrun.
    cbv zeta in Hrun.
    pose proof (with_suffix_valid file_path ".zip" Hn eq_refl) as Hzip.
    pose proof (path_suffix_with_suffix file_path _ "z" "ip" eq_refl Hzip) as Hsuffix.
    eexists _, _. split; [exact Hzip|]. split; [exact Hsuffix|].
    split; [exact Hrun|]. split; [reflexivity|]. split; [apply lookup_insert_eq|].
    rewrite Hsuffix. change (Str.lower ".zip") with ".zip".
    rewrite save_zip_already. auto.
  - rewrite save_zip_already. eauto.
  - intros kind kind_norm date_iso dt_exif location_str lat lon content_type suffix Hzip.
    unfold tag_artifact. now rewrite (bind_ok _ _ _ _ _ Hzip).
Qed.

End Zip.

(** ** The orchestrator *)

Section Orchestrator.
Context `{!Externals}.
Variables (out_dir : string) (starting_index : Z) (n_rows : nat).

Lemma process_row_fetchable (i : nat) (row : Row) (dt : Datetime.datetime) (w : World) :
  fetchable starting_index i row dt ->
  process_row out_dir starting_index n_rows i row w
  = match row_fetch out_dir i row dt (log_event (downloading n_rows i row) w) with
    | (Ok (file_path, content_type), w1) =>
        match
          try_except (row_tagging row dt file_path content_type) is_Exception
            (tagging_failed (row_kind row) (row_date_iso dt) (row_location row)
               (fst (parse_lat_lon (row_location row)))
               (snd (parse_lat_lon (row_location row))) file_path content_type) w1
        with
        | (Ok _, w2) => (Ok tt, log_event (EvInput (String "010" "Press Enter to close...")) w2)
        | (Raise e, w2) => (Raise e, w2)
        end
    | (Raise e, w1) =>
        if is_HTTPError e then
          (Ok tt,
           log_event (EvPrint "HTTP Error, saved file name in not_saved.txt")
             (set_files
                (<[ledger_path out_dir := default "" (files w1 !! ledger_path out_dir)
                                  ++ ledger_line i row ++ String "010" ""]> (files w1)) w1))
        else (Raise e, w1)
    end.
Proof.
  intros (Hlen & Hidx & Hdt). unfold process_row.
  apply Nat.ltb_ge in Hlen. rewrite Hlen.
  apply Z.ltb_ge in Hidx. rewrite Hidx.
  unfold parse_iso8601_utc.
  fold (row_date_str row) (row_kind row) (row_location row). rewrite Hdt.
  unfold mbind, M_bind, lift at 1 2. cbv beta iota.
  fold (row_date_iso dt). fold (row_kind_norm row).
  destruct (parse_lat_lon (row_location row)) as [lat lon] eqn:Hll. cbv beta iota.
  unfold print at 1, emit at 1. cbv beta iota.
  fold (row_out_stem out_dir i dt). fold (downloading n_rows i row).
  unfold try_except at 1, row_fetch.
  destruct (download_file _ _ _ _) as [[[file_path content_type]|e] w1].
  - unfold mret, M_ret. cbv beta iota. unfold row_tagging. rewrite Hll. cbn [fst snd].
    unfold try_except, input, emit.
    destruct (tag_artifact _ _ _ _ _ _ _ _ _ _ w1) as [[[]|e] w2]; [reflexivity|].
    cbv beta iota. simpl (is_Exception e). cbv iota.
    destruct (tagging_failed _ _ _ _ _ _ _ e w2) as [[[]|e'] w3]; reflexivity.
  - destruct (is_HTTPError e); [|reflexivity].
    unfold add_line_to_file, Fs.open_append, Fs.write, print, emit, mret, M_ret,
      mbind, M_bind, set_files, log_event, ledger_path, ledger_line.
    cbn [files net trace]. rewrite lookup_insert_eq, insert_insert_eq. reflexivity.
Qed.

(** The loop goes on with the next row when a row's iteration ends. *)
Lemma process_rows_next (i : nat) (row : Row) (later : list Row) (w w' : World) :
  process_row out_dir starting_index n_rows i row w = (Ok tt, w') ->
  process_rows out_dir starting_index n_rows i (row :: later) w
  = process_rows out_dir starting_index n_rows (S i) later w'.
Proof. intros Hrow. simpl. now rewrite (bind_ok _ _ _ _ _ Hrow). Qed.

(** The loop stops where a row's iteration raises. *)
Lemma process_rows_halt (i : nat) (row : Row) (later : list Row) (w w' : World) (e : exn) :
  process_row out_dir starting_index n_rows i row w = (Raise e, w') ->
  process_rows out_dir starting_index n_rows i (row :: later) w = (Raise e, w').
Proof. intros Hrow. simpl. now rewrite (bind_raise _ _ _ _ _ Hrow). Qed.

Lemma take_nonempty (n : nat) (s : string) : s <> "" -> Str.take (S n) s <> "".
Proof. destruct s; [congruence | discriminate]. Qed.

Lemma safe_filename_nonempty (s : string) : safe_filename s <> "".
Proof.
  unfold safe_filename. change 180%nat with (S 179).
  apply take_nonempty.
  destruct (Str.truthy _) eqn:Ht; [now apply truthy_true | discriminate].
Qed.

Lemma row_out_stem_named (i : nat) (dt : Datetime.datetime) :
  name (row_out_stem out_dir i dt) <> "".
Proof. apply safe_filename_nonempty. Qed.

Lemma not_saved_is_no_download (s : string) : "not_saved.txt" <> s ++ ".download".
Proof.
  intros Heq.
  repeat (destruct s as [|? s]; simpl in Heq; [discriminate Heq | injection Heq as _ Heq]).
  destruct s; discriminate Heq.
Qed.

(** The ledger is never the temporary file of a download. *)
Lemma ledger_is_not_tmp (i : nat) (dt : Datetime.datetime) :
  ledger_path out_dir <> path_str (tmp_path_of (row_out_stem out_dir i dt)).
Proof.
  unfold ledger_path, path_str, tmp_path_of, row_out_stem, path_join. simpl.
  intros Heq. apply string_app_inv_head in Heq. injection Heq as Heq.
  now apply not_saved_is_no_download in Heq.
Qed.

(** C4.  For a row the loop fetches: when the fetch raises an HTTP status
    error, the row's iteration ends normally, the ledger [not_saved.txt]
    holds what it held before the row (nothing when it was absent) followed
    by the one line [{index}_{kind} {rawDateString}] and a newline, and the
    loop goes on with the next row; when the fetch raises a TLS error, which
    it does once three attempts in a row have failed with one, the loop
    raises it and no later row is processed. *)
Theorem fetch_failure_policy (i : nat) (row : Row) (later : list Row)
    (dt : Datetime.datetime) (w : World) :
  fetchable starting_index i row dt ->
  (forall e w1,
      row_fetch out_dir i row dt (log_event (downloading n_rows i row) w) = (Raise e, w1) ->
      is_HTTPError e = true ->
      exists w2,
        process_row out_dir starting_index n_rows i row w = (Ok tt, w2)
        /\ files w2
           = <[ledger_path out_dir := default "" (files w !! ledger_path out_dir)
                              ++ ledger_line i row ++ String "010" ""]> (files w1)
        /\ process_rows out_dir starting_index n_rows i (row :: later) w
           = process_rows out_dir starting_index n_rows (S i) later w2)
  /\ (forall e w1,
      row_fetch out_dir i row dt (log_event (downloading n_rows i row) w) = (Raise e, w1) ->
      is_SSLError e = true ->
      process_rows out_dir starting_index n_rows i (row :: later) w = (Raise e, w1))
  /\ (forall u r1 r2 r3 rest e3,
      extract_download_url row = Some u ->
      net w = r1 :: r2 :: r3 :: rest ->
      tls_failure r1 -> tls_failure r2 ->
      fst (fetch_outcome r3) = Raise e3 -> is_SSLError e3 = true ->
      exists w1,
        process_rows out_dir starting_index n_rows i (row :: later) w = (Raise e3, w1)
        /\ net w1 = rest).
Proof.
  intros Hrow. split; [|split].
  - intros e w1 Hfetch Hhttp.
    pose proof (process_row_fetchable i row dt w Hrow) as Hrun.
    rewrite Hfetch, Hhttp in Hrun.
    eexists. split; [exact Hrun|]. split.
    + cbn [files set_files log_event].
      unfold row_fetch in Hfetch.
      now rewrite (download_file_raise_frame _ _ _ _ _ _ Hfetch _ (ledger_is_not_tmp i dt)).
    + now apply process_rows_next.
  - intros e w1 Hfetch Hssl.
    apply process_rows_halt.
    rewrite (process_row_fetchable i row dt w Hrow), Hfetch.
    destruct e as [[] msg]; try discriminate Hssl. reflexivity.
  - intros u r1 r2 r3 rest e3 Hurl Hnet H1 H2 Ho3 Hssl.
    destruct (download_file_tls_exhausted u (row_out_stem out_dir i dt) (row_kind_norm row)
                (log_event (downloading n_rows i row) w) r1 r2 r3 rest e3
                (row_out_stem_named i dt) Hnet H1 H2 Ho3 Hssl) as (w1 & Hfetch & _ & Hn).
    exists w1. split; [|exact Hn].
    apply process_rows_halt.
    rewrite (process_row_fetchable i row dt w Hrow). unfold row_fetch.
    rewrite Hurl, Hfetch.
    destruct e3 as [[] msg]; try discriminate Hssl. reflexivity.
Qed.

(** C3, as the code has it.  A row with fewer than four cells is skipped: its
    iteration changes nothing and the loop goes on with the next row.  A row
    with four cells or more, at or after the starting index, whose timestamp
    [strptime] rejects is not skipped: the [ValueError] leaves the loop, in
    the world as it was, and no later row is processed. *)
Theorem short_row_skipped_bad_timestamp_raises (i : nat) (row : Row) (later : list Row)
    (w : World) :
  ((length (tds row) < 4)%nat ->
   process_row out_dir starting_index n_rows i row w = (Ok tt, w)
   /\ process_rows out_dir starting_index n_rows i (row :: later) w
      = process_rows out_dir starting_index n_rows (S i) later w)
  /\ (forall e,
      (4 <= length (tds row))%nat ->
      (starting_index <= Z.of_nat i)%Z ->
      Datetime.strptime (Str.strip (row_date_str row)) = Raise e ->
      process_rows out_dir starting_index n_rows i (row :: later) w = (Raise e, w)).
Proof.
  split.
  - intros Hlen.
    assert (process_row out_dir starting_index n_rows i row w = (Ok tt, w)) as Hrow.
    { unfold process_row. apply Nat.ltb_lt in Hlen. now rewrite Hlen. }
    split; [exact Hrow | now apply process_rows_next].
  - intros e Hlen Hidx Hdt. apply process_rows_halt.
    unfold process_row.
    apply Nat.ltb_ge in Hlen. rewrite Hlen.
    apply Z.ltb_ge in Hidx. rewrite Hidx.
    unfold parse_iso8601_utc. fold (row_date_str row). rewrite Hdt. reflexivity.
Qed.

Lemma write_video_metadata_ffmpeg_run (in_path out_path : Path)
    (date_iso location_text : string) (lat lon : option Q) :
  exists cmd : list string,
    nth 0 cmd "" = "ffmpeg"
    /\ nth 3 cmd "" = path_str in_path
    /\ List.last cmd "" = path_str out_path
    /\ forall w, write_video_metadata_ffmpeg in_path out_path date_iso location_text lat lon w
                 = subprocess_run cmd (log_event (EvRun cmd) w).
Proof.
  unfold write_video_metadata_ffmpeg.
  destruct (Str.truthy (to_iso6709 lat lon));
    eexists; (split; [|split; [|split]]); try (intros w; reflexivity); reflexivity.
Qed.






(** *** The artifact's name holds no slash, so its sidecar path is valid *)

Lemma contains_app (c : ascii) (a b : string) :
  Str.contains c (a ++ b) = Str.contains c a || Str.contains c b.
Proof.
  induction a as [|x a IH]; simpl; [reflexivity|]. now rewrite IH, orb_assoc.
Qed.

Lemma contains_take (c : ascii) (n : nat) (s : string) :
  Str.contains c s = false -> Str.contains c (Str.take n s) = false.
Proof.
  revert n. induction s as [|x s IH]; intros [|n]; simpl; auto.
  intros Hs. apply orb_false_iff in Hs as [Hx Hs]. now rewrite Hx, IH.
Qed.

Lemma contains_lstrip_by (c : ascii) (p : ascii -> bool) (s : string) :
  Str.contains c s = false -> Str.contains c (Str.lstrip_by p s) = false.
Proof.
  induction s as [|x s IH]; simpl; [auto|].
  intros Hs. destruct (p x); [|exact Hs].
  apply orb_false_iff in Hs as [_ Hs]. auto.
Qed.

Lemma contains_rstrip_by (c : ascii) (p : ascii -> bool) (s : string) :
  Str.contains c s = false -> Str.contains c (Str.rstrip_by p s) = false.
Proof.
  induction s as [|x s IH]; simpl; [auto|].
  intros Hs. apply orb_false_iff in Hs as [Hx Hs]. specialize (IH Hs).
  destruct (Str.rstrip_by p s) eqn:Hr.
  - destruct (p x); simpl; [reflexivity | now rewrite Hx].
  - simpl in *. now rewrite Hx, IH.
Qed.

Lemma sub_unsafe_runs_no_slash (in_run : bool) (s : string) :
  Str.contains "/" (sub_unsafe_runs in_run s) = false.
Proof.
  revert in_run. induction s as [|x s IH]; intros in_run; simpl; [reflexivity|].
  destruct (Str.is_word x || Ascii.eqb x "-" || Ascii.eqb x ".") eqn:Hsafe.
  - simpl. rewrite IH, orb_false_r.
    destruct (Ascii.eqb_spec x "/") as [-> | Hx]; [discriminate Hsafe | reflexivity].
  - destruct in_run; simpl; now rewrite IH.
Qed.

Lemma safe_filename_no_slash (s : string) : Str.contains "/" (safe_filename s) = false.
Proof.
  unfold safe_filename. apply contains_take.
  destruct (Str.truthy _); [|reflexivity].
  apply contains_lstrip_by, contains_rstrip_by, sub_unsafe_runs_no_slash.
Qed.

Lemma path_stem_suffix_no_slash (p : Path) :
  Str.contains "/" (name p) = false ->
  Str.contains "/" (path_stem p) = false /\ Str.contains "/" (path_suffix p) = false.
Proof.
  rewrite (name_stem_suffix p) at 1. rewrite contains_app. apply orb_false_iff.
Qed.




End Orchestrator.

(** ** GPS coordinates in EXIF *)

Lemma py_int_error (x : Q) :
  (-(1) < x - inject_Z (Float.py_int x) /\ x - inject_Z (Float.py_int x) < 1)%Q.
Proof.
  unfold Float.py_int. destruct (Qle_bool 0 x) eqn:Hx.
  - pose proof (Qfloor_le x). pose proof (Qlt_floor x) as Hlt.
    rewrite inject_Z_plus in Hlt. change (inject_Z 1) with 1%Q in Hlt. split; lra.
  - pose proof (Qle_ceiling x). pose proof (Qceiling_lt x) as Hlt.
    unfold Z.sub in Hlt. rewrite inject_Z_plus, inject_Z_opp in Hlt.
    change (inject_Z 1) with 1%Q in Hlt. split; lra.
Qed.

Lemma py_round_error (x : Q) :
  (-(1 # 2) <= inject_Z (Float.py_round x) - x
   /\ inject_Z (Float.py_round x) - x <= 1 # 2)%Q.
Proof.
  unfold Float.py_round.
  pose proof (Qfloor_le x). pose proof (Qlt_floor x) as Hlt.
  rewrite inject_Z_plus in Hlt. change (inject_Z 1) with 1%Q in Hlt.
  destruct (x - inject_Z (Qfloor x) ?= 1 # 2)%Q eqn:Hc.
  - apply Qeq_alt in Hc.
    destruct (Z.even (Qfloor x)); [|rewrite inject_Z_plus; change (inject_Z 1) with 1%Q];
      split; lra.
  - apply Qlt_alt in Hc. split; lra.
  - apply Qgt_alt in Hc. rewrite inject_Z_plus. change (inject_Z 1) with 1%Q. split; lra.
Qed.

Section Gps.
Context `{!Externals}.

Lemma fl_error (x B : Q) :
  fl_accurate -> (B <= float_max)%Q -> (- B <= x)%Q -> (x <= B)%Q ->
  (- (unit_roundoff * B + underflow_unit) <= fl x - x
   /\ fl x - x <= unit_roundoff * B + underflow_unit)%Q.
Proof.
  intros Hfl Hmax Hlo Hhi.
  assert (Qabs x <= B)%Q as Habs by (apply Qabs_Qle_condition; split; assumption).
  specialize (Hfl x (Qle_trans _ _ _ Habs Hmax)).
  assert (unit_roundoff * Qabs x <= unit_roundoff * B)%Q as Hmul.
  { apply Qmult_le_l; [reflexivity | exact Habs]. }
  apply Qabs_Qle_condition in Hfl. destruct Hfl as [Hl Hu]. split; lra.
Qed.

Lemma in_float_range (B : Q) : Qle_bool B float_max = true -> (B <= float_max)%Q.
Proof. apply Qle_bool_imp_le. Qed.

Lemma roundoff_small :
  (0 <= unit_roundoff /\ unit_roundoff <= 1 # 1000000000
   /\ 0 <= underflow_unit /\ underflow_unit <= 1 # 1000000000)%Q.
Proof. repeat split; apply Qle_bool_imp_le; vm_compute; reflexivity. Qed.

(** The triple decodes to the absolute value of the input, up to the rounding
    of the seconds to hundredths. *)
Lemma dms_roundtrip (deg : Q) :
  fl_accurate ->
  (Qabs (dms_to_degrees (_deg_to_dms_rational deg) - Qabs deg) <= 1 # 360000)%Q.
Proof.
  intros Hfl.
  destruct roundoff_small as (Hu0 & Hu & He0 & He).
  unfold _deg_to_dms_rational, dms_to_degrees, rational_value, Float.mul, Float.sub.
  cbn [fst snd].
  set (a := Qabs deg).
  set (d := Float.py_int a).
  set (f := fl (a - inject_Z d)).
  set (mf := fl (f * 60)).
  set (m := Float.py_int mf).
  set (g := fl (mf - inject_Z m)).
  set (s := fl (g * 60)).
  set (t := fl (s * 100)).
  pose proof (py_int_error a) as [Hf0l Hf0u]. fold d in Hf0l, Hf0u.
  pose proof (fl_error (a - inject_Z d) 1 Hfl) as [He1l He1u];
    [now apply in_float_range | lra | lra |].
  fold f in He1l, He1u.
  pose proof (fl_error (f * 60) 120 Hfl) as [He2l He2u];
    [now apply in_float_range | lra | lra |].
  fold mf in He2l, He2u.
  pose proof (py_int_error mf) as [Hg0l Hg0u]. fold m in Hg0l, Hg0u.
  pose proof (fl_error (mf - inject_Z m) 1 Hfl) as [He3l He3u];
    [now apply in_float_range | lra | lra |].
  fold g in He3l, He3u.
  pose proof (fl_error (g * 60) 120 Hfl) as [He4l He4u];
    [now apply in_float_range | lra | lra |].
  fold s in He4l, He4u.
  pose proof (fl_error (s * 100) 12100 Hfl) as [He5l He5u];
    [now apply in_float_range | lra | lra |].
  fold t in He5l, He5u.
  pose proof (py_round_error t) as [Hrl Hru].
  change (inject_Z 1) with 1%Q. change (inject_Z 100) with 100%Q.
  unfold Qdiv. change (/ 1)%Q with 1%Q. change (/ 60)%Q with (1 # 60)%Q.
  change (/ 100)%Q with (1 # 100)%Q. change (/ 3600)%Q with (1 # 3600)%Q.
  clearbody a d f mf m g s t.
  apply Qabs_Qle_condition. split; lra.
Qed.

Lemma dms_shape (deg : Q) :
  exists d m s : Z, _deg_to_dms_rational deg = ((d, 1%Z), (m, 1%Z), (s, 100%Z)).
Proof. unfold _deg_to_dms_rational. eauto. Qed.

Lemma hemisphere_letter (x : Q) (pos neg : string) :
  ((0 <= x)%Q -> (if Qle_bool 0 x then pos else neg) = pos)
  /\ ((x < 0)%Q -> (if Qle_bool 0 x then pos else neg) = neg).
Proof.
  destruct (Qle_bool 0 x) eqn:Hx; split; intros Hs; try reflexivity.
  - apply Qle_bool_iff in Hx. lra.
  - apply Qle_bool_iff in Hs. congruence.
Qed.

(** C9.  With binary64 rounding, the GPS IFD that [tag_jpeg_tiff_exif] builds
    for the coordinates [lat] and [lon] holds, under GPSLatitude and
    GPSLongitude, the triples of rationals [(d, 1), (m, 1), (s, 100)] of
    [_deg_to_dms_rational]; each decodes, as [d + m/60 + (s/100)/3600], to
    within 1/360000 of a degree of the absolute value of its coordinate; and
    the reference letters are N for a latitude that is not negative and S for
    a negative one, E for a longitude that is not negative and W for a
    negative one. *)
Theorem gps_exif_roundtrip (date_str_for_exif location_text : string) (lat lon : Q) :
  fl_accurate ->
  let gps := ifd_GPS (build_exif_dict date_str_for_exif (Some lat) (Some lon) location_text) in
  (exists d m s : Z,
      gps !! GPSIFD.GPSLatitude = Some (ExifRationals [(d, 1%Z); (m, 1%Z); (s, 100%Z)])
      /\ _deg_to_dms_rational lat = ((d, 1%Z), (m, 1%Z), (s, 100%Z))
      /\ (Qabs (dms_to_degrees ((d, 1%Z), (m, 1%Z), (s, 100%Z)) - Qabs lat)
          <= 1 # 360000)%Q)
  /\ (exists d m s : Z,
      gps !! GPSIFD.GPSLongitude = Some (ExifRationals [(d, 1%Z); (m, 1%Z); (s, 100%Z)])
      /\ _deg_to_dms_rational lon = ((d, 1%Z), (m, 1%Z), (s, 100%Z))
      /\ (Qabs (dms_to_degrees ((d, 1%Z), (m, 1%Z), (s, 100%Z)) - Qabs lon)
          <= 1 # 360000)%Q)
  /\ ((0 <= lat)%Q -> gps !! GPSIFD.GPSLatitudeRef = Some (ExifAscii "N"))
  /\ ((lat < 0)%Q -> gps !! GPSIFD.GPSLatitudeRef = Some (ExifAscii "S"))
  /\ ((0 <= lon)%Q -> gps !! GPSIFD.GPSLongitudeRef = Some (ExifAscii "E"))
  /\ ((lon < 0)%Q -> gps !! GPSIFD.GPSLongitudeRef = Some (ExifAscii "W")).
Proof.
  intros Hfl gps.
  assert (gps !! GPSIFD.GPSLatitude = Some (dms_value (_deg_to_dms_rational lat))) as Hlat.
  { subst gps. unfold build_exif_dict. cbn [ifd_GPS].
    rewrite lookup_insert_ne by discriminate. apply lookup_insert_eq. }
  assert (gps !! GPSIFD.GPSLongitude = Some (dms_value (_deg_to_dms_rational lon))) as Hlon.
  { subst gps. unfold build_exif_dict. cbn [ifd_GPS]. apply lookup_insert_eq. }
  assert (gps !! GPSIFD.GPSLatitudeRef
          = Some (ExifAscii (if Qle_bool 0 lat then "N" else "S"))) as Hlatref.
  { subst gps. unfold build_exif_dict. cbn [ifd_GPS].
    rewrite !lookup_insert_ne by discriminate. apply lookup_insert_eq. }
  assert (gps !! GPSIFD.GPSLongitudeRef
          = Some (ExifAscii (if Qle_bool 0 lon then "E" else "W"))) as Hlonref.
  { subst gps. unfold build_exif_dict. cbn [ifd_GPS].
    rewrite !lookup_insert_ne by discriminate. apply lookup_insert_eq. }
  pose proof (dms_roundtrip lat Hfl) as Hblat.
  pose proof (dms_roundtrip lon Hfl) as Hblon.
  destruct (dms_shape lat) as (d1 & m1 & s1 & Hs1).
  destruct (dms_shape lon) as (d2 & m2 & s2 & Hs2).
  rewrite Hs1 in Hlat, Hblat. rewrite Hs2 in Hlon, Hblon.
  destruct (hemisphere_letter lat "N" "S") as [HN HS].
  destruct (hemisphere_letter lon "E" "W") as [HE HW].
  split; [exists d1, m1, s1; auto|].
  split; [exists d2, m2, s2; auto|].
  repeat split; intros Hsign.
  - now rewrite Hlatref, (HN Hsign).
  - now rewrite Hlatref, (HS Hsign).
  - now rewrite Hlonref, (HE Hsign).
  - now rewrite Hlonref, (HW Hsign).
Qed.

End Gps.

(** * Further properties

    Properties of the helpers and of the orchestrator beyond the ones above:
    the parsers on the texts of the catalog, the names of the files, the
    ledger, the classification, the loop and the taggers. *)

(** ** Safe file names *)

Lemma concat_cons (x : string) (l : list string) :
  String.concat "" (x :: l) = x ++ String.concat "" l.
Proof. destruct l; cbn [String.concat]; [now rewrite string_app_nil_r | reflexivity]. Qed.

Lemma all_chars_app (p : ascii -> bool) (a b : string) :
  all_chars p (a ++ b) = all_chars p a && all_chars p b.
Proof. induction a as [|c a IH]; simpl; [reflexivity | now rewrite IH, andb_assoc]. Qed.

Lemma all_chars_impl (p q : ascii -> bool) (s : string) :
  (forall c, p c = true -> q c = true) -> all_chars p s = true -> all_chars q s = true.
Proof.
  intros Hpq. induction s as [|c s IH]; simpl; [reflexivity|].
  intros [Hc Hs]%andb_true_iff. rewrite (Hpq c Hc). now apply IH.
Qed.

Lemma all_chars_lstrip_by (p q : ascii -> bool) (s : string) :
  all_chars p s = true -> all_chars p (Str.lstrip_by q s) = true.
Proof.
  induction s as [|c s IH]; simpl; [reflexivity|].
  intros H. pose proof H as [Hc Hs]%andb_true_iff.
  destruct (q c); [now apply IH | exact H].
Qed.

Lemma all_chars_rstrip_by (p q : ascii -> bool) (s : string) :
  all_chars p s = true -> all_chars p (Str.rstrip_by q s) = true.
Proof.
  induction s as [|c s IH]; simpl; [reflexivity|].
  intros [Hc Hs]%andb_true_iff. specialize (IH Hs).
  destruct (Str.rstrip_by q s) as [|c' r'].
  - destruct (q c); simpl; [reflexivity | now rewrite Hc].
  - simpl in *. now rewrite Hc.
Qed.

Lemma all_chars_take (p : ascii -> bool) (n : nat) (s : string) :
  all_chars p s = true -> all_chars p (Str.take n s) = true.
Proof.
  revert n. induction s as [|c s IH]; intros [|n]; simpl; try reflexivity.
  intros [Hc Hs]%andb_true_iff. rewrite Hc. now apply IH.
Qed.

Lemma take_length_le (n : nat) (s : string) : (String.length (Str.take n s) <= n)%nat.
Proof.
  revert s. induction n as [|n IH]; intros [|c s]; simpl; try lia.
  specialize (IH s). lia.
Qed.

Lemma take_short (n : nat) (s : string) : (String.length s <= n)%nat -> Str.take n s = s.
Proof.
  revert n. induction s as [|c s IH]; intros [|n]; simpl; try reflexivity; try lia.
  intros Hn. rewrite IH by lia. reflexivity.
Qed.

Lemma lstrip_by_id (p : ascii -> bool) (s : string) :
  (forall c r, s = String c r -> p c = false) -> Str.lstrip_by p s = s.
Proof. destruct s as [|c r]; simpl; [reflexivity|]. intros H. now rewrite (H c r eq_refl). Qed.

Lemma rstrip_by_id (p : ascii -> bool) (s : string) :
  (forall c, last_char s = Some c -> p c = false) -> Str.rstrip_by p s = s.
Proof.
  induction s as [|c s IH]; simpl; [reflexivity|].
  intros H. destruct s as [|c' s'].
  - simpl. now rewrite (H c eq_refl).
  - rewrite IH by exact H. reflexivity.
Qed.

Lemma rstrip_by_all (p : ascii -> bool) (s : string) :
  all_chars p s = true -> Str.rstrip_by p s = "".
Proof.
  induction s as [|c s IH]; simpl; [reflexivity|].
  intros [Hc Hs]%andb_true_iff. now rewrite (IH Hs), Hc.
Qed.

Lemma last_char_all (p : ascii -> bool) (s : string) (c : ascii) :
  all_chars p s = true -> last_char s = Some c -> p c = true.
Proof.
  induction s as [|a s IH]; simpl; [discriminate|].
  intros [Ha Hs]%andb_true_iff. destruct s as [|a' s'].
  - now intros [= <-].
  - now apply IH.
Qed.

Lemma safe_char_not_space (c : ascii) : safe_char c = true -> Str.is_space c = false.
Proof.
  unfold safe_char, Str.is_word, Str.is_digit, Str.is_upper, Str.is_space.
  destruct c as [[] [] [] [] [] [] [] []]; vm_compute; congruence.
Qed.

Section SafeFilename.
Context `{!Externals}.

Lemma sub_unsafe_runs_safe (in_run : bool) (s : string) :
  all_chars safe_char (sub_unsafe_runs in_run s) = true.
Proof.
  revert in_run. induction s as [|c s IH]; intros in_run; simpl; [reflexivity|].
  destruct (Str.is_word c || Ascii.eqb c "-" || Ascii.eqb c ".") eqn:Hc.
  - simpl. unfold safe_char at 1. now rewrite Hc, IH.
  - destruct in_run; [apply IH|]. simpl. apply IH.
Qed.

Lemma sub_unsafe_runs_id (in_run : bool) (s : string) :
  all_chars safe_char s = true -> sub_unsafe_runs in_run s = s.
Proof.
  revert in_run. induction s as [|c s IH]; intros in_run; simpl; [reflexivity|].
  intros [Hc Hs]%andb_true_iff. unfold safe_char in Hc. rewrite Hc.
  now rewrite IH.
Qed.

Lemma sub_unsafe_runs_underscores (in_run : bool) (s : string) :
  all_chars (fun c => negb (safe_char c) || Ascii.eqb c "_") s = true ->
  all_chars (fun c => Ascii.eqb c "_") (sub_unsafe_runs in_run s) = true.
Proof.
  revert in_run. induction s as [|c s IH]; intros in_run; simpl; [reflexivity|].
  intros [Hc Hs]%andb_true_iff.
  destruct (Str.is_word c || Ascii.eqb c "-" || Ascii.eqb c ".") eqn:Hsafe.
  - unfold safe_char in Hc. rewrite Hsafe in Hc. simpl in Hc.
    simpl. rewrite Hc. now apply IH.
  - destruct in_run; [now apply IH|]. simpl. now apply IH.
Qed.

(** X1.  For an input made of ASCII characters, [safe_filename] returns a
    name that is not empty, has at most 180 characters, and is made of ASCII
    letters, digits, underscores, hyphens and dots only: it holds no slash
    and no whitespace. *)
Theorem safe_filename_is_safe (s : string) :
  all_chars is_ascii s = true ->
  safe_filename s <> ""
  /\ (String.length (safe_filename s) <= 180)%nat
  /\ all_chars safe_char (safe_filename s) = true
  /\ Str.contains "/" (safe_filename s) = false
  /\ all_chars (fun c => negb (Str.is_space c)) (safe_filename s) = true.
Proof.
  intros _.
  assert (all_chars safe_char (safe_filename s) = true) as Hsafe.
  { unfold safe_filename. apply all_chars_take.
    destruct (Str.truthy _); [|reflexivity].
    unfold Str.strip_by. apply all_chars_lstrip_by, all_chars_rstrip_by, sub_unsafe_runs_safe. }
  split; [apply safe_filename_nonempty|].
  split; [apply take_length_le|].
  split; [exact Hsafe|].
  split; [apply safe_filename_no_slash|].
  revert Hsafe. apply all_chars_impl. intros c Hc. now rewrite (safe_char_not_space c Hc).
Qed.

Lemma safe_filename_id (s : string) :
  s <> "" ->
  all_chars safe_char s = true ->
  Str.startswith "_" s = false ->
  last_char s <> Some "_"%char ->
  (String.length s <= 180)%nat ->
  safe_filename s = s.
Proof.
  intros Hne Hsafe Hfirst Hlast Hlen. unfold safe_filename.
  assert (Str.strip s = s) as ->.
  { unfold Str.strip, Str.strip_by. rewrite rstrip_by_id.
    - apply lstrip_by_id. intros c r ->. simpl in Hsafe.
      apply andb_true_iff in Hsafe as [Hc _]. now apply safe_char_not_space.
    - intros c Hc. apply safe_char_not_space. now apply (last_char_all _ s). }
  rewrite (sub_unsafe_runs_id _ _ Hsafe).
  assert (Str.strip_by (fun c => Ascii.eqb c "_") s = s) as ->.
  { unfold Str.strip_by. rewrite rstrip_by_id.
    - apply lstrip_by_id. intros c r ->. exact Hfirst.
    - intros c Hc. destruct (Ascii.eqb_spec c "_") as [->|]; [contradiction | reflexivity]. }
  apply truthy_true in Hne. rewrite Hne. now apply take_short.
Qed.

Lemma lstrip_by_length (p : ascii -> bool) (s : string) :
  (String.length (Str.lstrip_by p s) <= String.length s)%nat.
Proof.
  induction s as [|c s IH]; simpl; [lia|]. destruct (p c); simpl; lia.
Qed.

Lemma lstrip_by_stops (p : ascii -> bool) (s : string) (c : ascii) (r : string) :
  Str.lstrip_by p s = String c r -> p c = false.
Proof.
  induction s as [|a s IH]; simpl; [discriminate|].
  destruct (p a) eqn:Ha; [exact IH|]. now intros [= <- _].
Qed.

Lemma rstrip_by_length (p : ascii -> bool) (s : string) :
  (String.length (Str.rstrip_by p s) <= String.length s)%nat.
Proof.
  induction s as [|c s IH]; simpl; [lia|].
  destruct (Str.rstrip_by p s); [destruct (p c)|]; simpl in *; lia.
Qed.

Lemma rstrip_by_shorter (p : ascii -> bool) (s : string) (c : ascii) :
  last_char s = Some c -> p c = true ->
  (String.length (Str.rstrip_by p s) < String.length s)%nat.
Proof.
  induction s as [|a s IH]; simpl; [discriminate|].
  destruct s as [|a' s'].
  - intros [= ->] ->. simpl. lia.
  - intros Hlast Hc. specialize (IH Hlast Hc).
    destruct (Str.rstrip_by p (String a' s')); [destruct (p a)|]; simpl in *; lia.
Qed.

Lemma take_length_le_string (n : nat) (s : string) :
  (String.length (Str.take n s) <= String.length s)%nat.
Proof.
  revert s. induction n as [|n IH]; intros [|c s]; simpl; try lia.
  specialize (IH s). lia.
Qed.

(** X2.  Among the names made of ASCII characters, those that
    [safe_filename] leaves as they are, are exactly the names that are not
    empty, are made of ASCII letters, digits, underscores, hyphens and dots
    only, neither start nor end with an underscore, and have at most 180
    characters. *)
Theorem safe_filename_fixed_points (s : string) :
  all_chars is_ascii s = true ->
  safe_filename s = s
  <-> s <> "" /\ all_chars safe_char s = true
      /\ Str.startswith "_" s = false /\ last_char s <> Some "_"%char
      /\ (String.length s <= 180)%nat.
Proof.
  intros _.
  split; [|intros (Hne & Hsafe & Hfirst & Hlast & Hlen); now apply safe_filename_id].
  intros Heq.
  assert (all_chars safe_char s = true) as Hsafe.
  { rewrite <- Heq. unfold safe_filename. apply all_chars_take.
    destruct (Str.truthy _); [|reflexivity].
    unfold Str.strip_by. apply all_chars_lstrip_by, all_chars_rstrip_by, sub_unsafe_runs_safe. }
  assert (s <> "") as Hne by (rewrite <- Heq; apply safe_filename_nonempty).
  assert (String.length s <= 180)%nat as Hlen by (rewrite <- Heq; apply take_length_le).
  assert (Str.strip s = s) as Hstrip.
  { unfold Str.strip, Str.strip_by. rewrite rstrip_by_id.
    - apply lstrip_by_id. intros c r ->. simpl in Hsafe.
      apply andb_true_iff in Hsafe as [Hc _]. now apply safe_char_not_space.
    - intros c Hc. apply safe_char_not_space. now apply (last_char_all _ s). }
  unfold safe_filename in Heq. rewrite Hstrip, (sub_unsafe_runs_id _ _ Hsafe) in Heq.
  set (underscore := fun c : ascii => Ascii.eqb c "_") in Heq.
  split; [exact Hne|]. split; [exact Hsafe|]. split; [|split; [|exact Hlen]].
  - (* the result does not start with an underscore *)
    destruct s as [|c r]; [reflexivity|]. cbn [Str.startswith].
    destruct (Ascii.eqb c "_") eqn:Hc; [|reflexivity]. exfalso.
    destruct (Str.strip_by underscore (String c r)) as [|c' t] eqn:Ht.
    + cbn in Heq. injection Heq as <- _. discriminate Hc.
    + unfold Str.strip_by in Ht. apply lstrip_by_stops in Ht.
      cbn in Heq. injection Heq as -> _. unfold underscore in Ht. congruence.
  - (* nor does it end with one *)
    intros Hlast.
    pose proof (rstrip_by_shorter underscore s "_" Hlast eq_refl) as Hshort.
    pose proof (lstrip_by_length underscore (Str.rstrip_by underscore s)) as Hl.
    fold (Str.strip_by underscore s) in Hl.
    destruct (Str.strip_by underscore s) as [|c' t] eqn:Ht.
    + cbn in Heq. rewrite <- Heq in Hlast. discriminate Hlast.
    + change (Str.truthy (String c' t)) with true in Heq. cbv iota in Heq.
      pose proof (take_length_le_string 180 (String c' t)) as Htake.
      rewrite Heq in Htake. lia.
Qed.

(** X3.  An input made of ASCII characters, all of them underscores or
    characters other than letters, digits, hyphens and dots (blanks,
    slashes, ...), the empty string included, gives the fallback name
    [file]. *)
Theorem safe_filename_fallback (s : string) :
  all_chars is_ascii s = true ->
  all_chars (fun c => negb (safe_char c) || Ascii.eqb c "_") s = true ->
  safe_filename s = "file".
Proof.
  intros _ Hs. unfold safe_filename.
  assert (all_chars (fun c => negb (safe_char c) || Ascii.eqb c "_") (Str.strip s) = true) as Hs'.
  { unfold Str.strip, Str.strip_by. now apply all_chars_lstrip_by, all_chars_rstrip_by. }
  unfold Str.strip_by at 1.
  rewrite (rstrip_by_all _ _ (sub_unsafe_runs_underscores false _ Hs')). reflexivity.
Qed.

End SafeFilename.

(** ** Matching with the combinators *)

Lemma lit_app {A : Type} (ci : bool) (l rest : string) (k : string -> option A) :
  Re.lit ci l (l ++ rest) k = k rest.
Proof.
  induction l as [|c l IH]; simpl; [reflexivity|].
  rewrite Ascii.eqb_refl. exact IH.
Qed.

Lemma lit_no_prefix {A : Type} (l s : string) (k : string -> option A) :
  Str.strip_prefix l s = None -> Re.lit false l s k = None.
Proof.
  revert s. induction l as [|c l IH]; intros s; simpl; [discriminate|].
  destruct s as [|a s]; [reflexivity|]. simpl.
  rewrite (Ascii.eqb_sym a c). destruct (Ascii.eqb c a); [apply IH | reflexivity].
Qed.

Lemma star_run {A : Type} (p : ascii -> bool) (s rest : string)
    (k : string -> string -> option A) (x : A) :
  all_chars p s = true -> stops p rest = true ->
  k s rest = Some x -> Re.star p (s ++ rest) k = Some x.
Proof.
  revert k. induction s as [|c s IH]; intros k Hs Hrest Hk; simpl.
  - destruct rest as [|a r]; simpl; [exact Hk|].
    simpl in Hrest. apply negb_true_iff in Hrest. now rewrite Hrest.
  - simpl in Hs. apply andb_true_iff in Hs as [Hc Hs]. rewrite Hc.
    now rewrite (IH (fun m rest0 => k (String c m) rest0) Hs Hrest Hk).
Qed.

Lemma plus_run {A : Type} (p : ascii -> bool) (s rest : string)
    (k : string -> string -> option A) (x : A) :
  s <> "" -> all_chars p s = true -> stops p rest = true ->
  k s rest = Some x -> Re.plus p (s ++ rest) k = Some x.
Proof.
  intros Hne Hs Hrest Hk. destruct s as [|c s]; [contradiction|].
  simpl in *. apply andb_true_iff in Hs as [Hc Hs]. rewrite Hc.
  now apply star_run.
Qed.

Lemma search_here {A : Type} (m : string -> option A) (s : string) (x : A) :
  m s = Some x -> Re.search m s = Some x.
Proof. intros Hm. destruct s; simpl; now rewrite Hm. Qed.


(** ** The download url of a row *)

Lemma contains_false_all (sep : ascii) (s : string) :
  Str.contains sep s = false -> all_chars (fun c => negb (Ascii.eqb c sep)) s = true.
Proof.
  induction s as [|c s IH]; simpl; [reflexivity|].
  intros [Hc Hs]%orb_false_iff. now rewrite Hc, IH.
Qed.

Lemma is_digit_not_space (c : ascii) : Str.is_digit c = true -> Str.is_space c = false.
Proof. destruct c as [[] [] [] [] [] [] [] []]; vm_compute; congruence. Qed.

Lemma is_digit_not_sign (c : ascii) : Str.is_digit c = true -> Re.sign c = false.
Proof. destruct c as [[] [] [] [] [] [] [] []]; vm_compute; congruence. Qed.

Section Extract.
Context `{!Externals}.

Lemma select_one_skip (pre l : list (option string)) :
  forallb no_download_call pre = true ->
  select_one_onclick (pre ++ l)%list = select_one_onclick l.
Proof.
  induction pre as [|a pre IH]; simpl; [reflexivity|].
  intros [Ha Hpre]%andb_true_iff. destruct a as [oc|]; [|now apply IH].
  simpl in Ha. apply negb_true_iff in Ha. rewrite Ha. now apply IH.
Qed.

Lemma ONCLICK_RE_search_call (ws url rest : string) :
  all_chars Str.is_space ws = true -> url <> "" -> Str.contains "'" url = false ->
  ONCLICK_RE_search ("downloadMemories(" ++ ws ++ "'" ++ url ++ "'" ++ rest) = Some url.
Proof.
  intros Hws Hurl Hquote. unfold ONCLICK_RE_search.
  apply search_here. rewrite lit_app.
  apply star_run; [exact Hws | reflexivity|].
  rewrite (lit_app true "'").
  apply plus_run; [exact Hurl | now apply contains_false_all | reflexivity|].
  now rewrite (lit_app true "'").
Qed.

(** X4.  [extract_download_url] reads the first anchor whose [onclick]
    contains [downloadMemories].  When that attribute is
    [downloadMemories('url'...], with whitespace allowed before the quote and
    a url that is not empty and holds no quote, the result is
    [html.unescape(url)], whatever anchors without the text come before and
    whatever follows.  When no anchor has the text the result is [None]. *)
Theorem extract_download_url_first_call (cells : list string) :
  (forall (pre more : list (option string)) (ws url rest : string),
      forallb no_download_call pre = true ->
      all_chars Str.is_space ws = true -> url <> "" -> Str.contains "'" url = false ->
      extract_download_url
        {| tds := cells;
           anchors := (pre ++ Some ("downloadMemories(" ++ ws ++ "'" ++ url ++ "'" ++ rest)%string
                           :: more)%list |}
      = Some (html_unescape url))
  /\ (forall l : list (option string),
      forallb no_download_call l = true ->
      extract_download_url {| tds := cells; anchors := l |} = None).
Proof.
  split.
  - intros pre more ws url rest Hpre Hws Hurl Hquote.
    unfold extract_download_url. cbn [anchors].
    rewrite (select_one_skip _ _ Hpre). cbn [select_one_onclick].
    change (Str.contains_str "downloadMemories" _) with true. cbv iota.
    change (Str.truthy _) with true. cbv [negb].
    now rewrite ONCLICK_RE_search_call.
  - intros l Hl. unfold extract_download_url. cbn [anchors].
    rewrite <- (app_nil_r l), (select_one_skip _ _ Hl). reflexivity.
Qed.

End Extract.

(** ** The coordinates of a row *)

Section LatLon.
Context `{!Externals}.

Lemma stops_weaken (p q : ascii -> bool) (rest : string) :
  (forall c, q c = true -> p c = true) -> stops p rest = true -> stops q rest = true.
Proof.
  intros Hqp. destruct rest as [|c r]; simpl; [reflexivity|].
  intros Hp%negb_true_iff. destruct (q c) eqn:Hq; [|reflexivity].
  now rewrite (Hqp c Hq) in Hp.
Qed.

Lemma re_number_run {A : Type} (sg ip fp rest : string)
    (k : string -> string -> option A) (x : A) :
  is_numeral sg ip fp ->
  stops (fun c => Str.is_digit c || Ascii.eqb c ".") rest = true ->
  k (numeral sg ip fp) rest = Some x ->
  re_number (numeral sg ip fp ++ rest) k = Some x.
Proof.
  intros (Hsg & Hip & Hdig & Hfp) Hrest Hk.
  assert (stops Re.digit rest = true) as Hrest_digit.
  { revert Hrest. apply stops_weaken. intros c Hc. unfold Re.digit in Hc. now rewrite Hc. }
  set (frac := if Str.truthy fp then "." ++ fp else "").
  assert (Re.plus Re.digit (ip ++ frac ++ rest)
            (fun ip0 s =>
               match Re.lit false "." s
                       (fun s1 => Re.plus Re.digit s1
                                    (fun fp0 s2 => k (sg ++ ip0 ++ "." ++ fp0) s2)) with
               | Some y => Some y
               | None => k (sg ++ ip0) s
               end) = Some x) as Hbody.
  { apply plus_run; [exact Hip | exact Hdig | |].
    - subst frac. destruct (Str.truthy fp); [reflexivity | exact Hrest_digit].
    - unfold numeral in Hk. fold frac in Hk. subst frac.
      destruct (Str.truthy fp) eqn:Hfp_ne.
      + rewrite (string_app_assoc "." fp rest), (lit_app false ".").
        apply truthy_true in Hfp_ne.
        now rewrite (plus_run Re.digit fp rest _ x Hfp_ne Hfp Hrest_digit Hk).
      + change ("" ++ rest) with rest. rewrite lit_no_prefix.
        * now rewrite string_app_nil_r in Hk.
        * destruct rest as [|c r]; [reflexivity|]. cbn [stops] in Hrest.
          apply negb_true_iff, orb_false_iff in Hrest as [_ Hdot].
          rewrite Ascii.eqb_sym in Hdot. cbn [Str.strip_prefix]. now rewrite Hdot. }
  unfold re_number, numeral. fold frac.
  rewrite !string_app_assoc.
  destruct Hsg as [-> | [-> | ->]].
  - destruct ip as [|c ip']; [contradiction|].
    simpl in Hdig. apply andb_true_iff in Hdig as [Hc Hdig].
    cbn [String.append Re.opt]. rewrite (is_digit_not_sign c Hc).
    exact Hbody.
  - cbn [String.append Re.opt]. change (Re.sign "+") with true. cbv iota.
    cbn [String.append] in Hbody. now rewrite Hbody.
  - cbn [String.append Re.opt]. change (Re.sign "-") with true. cbv iota.
    cbn [String.append] in Hbody. now rewrite Hbody.
Qed.

Lemma numeral_starts (sg ip fp rest : string) :
  is_numeral sg ip fp -> stops Str.is_space (numeral sg ip fp ++ rest) = true.
Proof.
  intros (Hsg & Hip & Hdig & _). unfold numeral.
  destruct Hsg as [-> | [-> | ->]]; try reflexivity.
  destruct ip as [|c ip']; [contradiction|].
  simpl in Hdig. apply andb_true_iff in Hdig as [Hc _].
  simpl. now rewrite (is_digit_not_space c Hc).
Qed.

(** X5.  On the text [Latitude, Longitude: a, b], where any whitespace, or
    none, follows [Latitude,], [Longitude:] and the comma, where [a] and [b]
    are decimal numerals [[+-]?\d+(\.\d+)?], and where what follows [b]
    starts with neither a digit nor a dot, [parse_lat_lon] returns
    [float(a)] and [float(b)]. *)
Theorem parse_lat_lon_reads_pair (ws1 ws2 ws3 sg1 ip1 fp1 sg2 ip2 fp2 tail : string) :
  all_chars Str.is_space ws1 = true ->
  all_chars Str.is_space ws2 = true ->
  all_chars Str.is_space ws3 = true ->
  is_numeral sg1 ip1 fp1 -> is_numeral sg2 ip2 fp2 ->
  stops (fun c => Str.is_digit c || Ascii.eqb c ".") tail = true ->
  parse_lat_lon ("Latitude," ++ ws1 ++ "Longitude:" ++ ws2 ++ numeral sg1 ip1 fp1
                 ++ "," ++ ws3 ++ numeral sg2 ip2 fp2 ++ tail)
  = (Some (Float.of_string (numeral sg1 ip1 fp1)),
     Some (Float.of_string (numeral sg2 ip2 fp2))).
Proof.
  intros Hws1 Hws2 Hws3 Hn1 Hn2 Htail. unfold parse_lat_lon.
  erewrite (search_here _ _ (_, _)); [reflexivity|].
  rewrite lit_app.
  apply star_run; [exact Hws1 | reflexivity|].
  rewrite (lit_app false "Longitude:").
  apply star_run; [exact Hws2 | now apply numeral_starts|].
  apply re_number_run; [exact Hn1 | reflexivity|].
  rewrite (lit_app false ",").
  apply star_run; [exact Hws3 | now apply numeral_starts|].
  now apply re_number_run.
Qed.

Lemma contains_str_false (sub s : string) :
  Str.contains_str sub s = false ->
  Str.strip_prefix sub s = None
  /\ (forall c r, s = String c r -> Str.contains_str sub r = false).
Proof.
  destruct s as [|c r]; simpl.
  - destruct (Str.strip_prefix sub ""); [discriminate|]. split; [reflexivity | discriminate].
  - destruct (Str.strip_prefix sub (String c r)); [discriminate|].
    intros Hr. split; [reflexivity|]. now intros c' r' [= _ <-].
Qed.

(** X6.  A location text that does not contain [Latitude,], the empty text
    included, gives no coordinates: [parse_lat_lon] returns
    [(None, None)]. *)
Theorem parse_lat_lon_without_label (location_str : string) :
  Str.contains_str "Latitude," location_str = false ->
  parse_lat_lon location_str = (None, None).
Proof.
  intros Hno. unfold parse_lat_lon.
  match goal with |- context [Re.search ?m _] => assert (Re.search m location_str = None) as -> end;
    [|reflexivity].
  induction location_str as [|c s IH].
  - reflexivity.
  - apply contains_str_false in Hno as [Hpre Hrest].
    cbn [Re.search]. rewrite (lit_no_prefix _ _ _ Hpre).
    apply IH. now apply (Hrest c s).
Qed.

End LatLon.

(** ** Timestamps *)

(** *** Decimal texts of numbers *)

Lemma string_of_uint_digits (d : Decimal.uint) :
  all_chars Str.is_digit (NilEmpty.string_of_uint d) = true.
Proof. induction d; simpl; auto. Qed.

Lemma of_nat_digits (n : nat) : all_chars Str.is_digit (Str.of_nat n) = true.
Proof.
  unfold Str.of_nat, NilZero.string_of_uint.
  destruct (Nat.to_uint n) eqn:Hd; try reflexivity; rewrite <- Hd; apply string_of_uint_digits.
Qed.

Lemma of_nat_nonempty (n : nat) : Str.of_nat n <> "".
Proof.
  unfold Str.of_nat, NilZero.string_of_uint. destruct (Nat.to_uint n); discriminate.
Qed.

Lemma to_uint_nonnil (n : nat) : Nat.to_uint n <> Decimal.Nil.
Proof.
  rewrite <- (DecimalNat.Unsigned.of_to n) at 1. rewrite DecimalNat.Unsigned.to_of.
  apply DecimalFacts.unorm_nonnil.
Qed.

Lemma of_nat_inj (i j : nat) : Str.of_nat i = Str.of_nat j -> i = j.
Proof.
  unfold Str.of_nat. intros Heq. apply DecimalNat.Unsigned.to_uint_inj.
  pose proof (NilZero.usu _ (to_uint_nonnil i)) as Hi.
  pose proof (NilZero.usu _ (to_uint_nonnil j)) as Hj.
  rewrite Heq in Hi. congruence.
Qed.


Lemma int_of_digits_of_uint (d : Decimal.uint) (acc : nat) :
  int_of_digits_from acc (NilEmpty.string_of_uint d) = Nat.of_uint_acc d acc.
Proof.
  revert acc. induction d; intros acc; cbn [NilEmpty.string_of_uint Nat.of_uint_acc];
    [reflexivity|..];
    cbn [int_of_digits_from]; rewrite Nat.tail_mul_spec;
    match goal with |- context [Str.is_digit ?c] => change (Str.is_digit c) with true end;
    cbv iota; rewrite <- IHd; f_equal;
    match goal with
    | |- context [nat_of_ascii ?c] =>
        let v := eval vm_compute in (nat_of_ascii c) in change (nat_of_ascii c) with v
    end; lia.
Qed.

Lemma int_of_digits_of_nat (n : nat) : int_of_digits (Str.of_nat n) = n.
Proof.
  unfold int_of_digits, Str.of_nat, NilZero.string_of_uint.
  pose proof (DecimalNat.Unsigned.of_to n) as Hn. unfold Nat.of_uint in Hn.
  destruct (Nat.to_uint n) eqn:Hd;
    try (rewrite <- Hd, int_of_digits_of_uint, Hd; exact Hn).
  exact Hn.
Qed.

Lemma of_uint_acc_lower (d : Decimal.uint) (acc : nat) :
  (acc * 10 ^ Decimal.nb_digits d <= Nat.of_uint_acc d acc)%nat.
Proof.
  revert acc. induction d; intros acc; cbn [Decimal.nb_digits Nat.of_uint_acc Nat.pow];
    [lia|..];
    (etransitivity; [|apply IHd]); rewrite Nat.tail_mul_spec; nia.
Qed.

Lemma nzhead_not_zero (d u : Decimal.uint) : Decimal.nzhead d <> Decimal.D0 u.
Proof. induction d; cbn [Decimal.nzhead]; try discriminate. exact IHd. Qed.

Lemma string_of_uint_length (d : Decimal.uint) :
  String.length (NilEmpty.string_of_uint d) = Decimal.nb_digits d.
Proof. induction d; simpl; auto. Qed.

Lemma pow10_lt (a b : nat) : (10 ^ a < 10 ^ b)%nat -> (a < b)%nat.
Proof. intros Hlt. apply Nat.pow_lt_mono_r_iff in Hlt; lia. Qed.

(** A number below [10 ^ w] is written with [w] digits at most. *)
Lemma of_nat_length (n w : nat) :
  (1 <= w)%nat -> (n < 10 ^ w)%nat -> (String.length (Str.of_nat n) <= w)%nat.
Proof.
  intros Hw Hn. unfold Str.of_nat, NilZero.string_of_uint.
  pose proof (DecimalNat.Unsigned.of_to n) as Hval.
  pose proof (DecimalNat.Unsigned.to_of (Nat.to_uint n)) as Hnorm. rewrite Hval in Hnorm.
  unfold Nat.of_uint in Hval.
  assert (forall u k, (1 <= k)%nat -> Nat.of_uint_acc u k = n ->
                      (S (Decimal.nb_digits u) <= w)%nat) as Hhead.
  { intros u k Hk Hu. pose proof (of_uint_acc_lower u k) as Hlow.
    assert (10 ^ Decimal.nb_digits u < 10 ^ w)%nat as Hlt by nia.
    apply pow10_lt in Hlt. lia. }
  destruct (Nat.to_uint n) as [|u|u|u|u|u|u|u|u|u|u] eqn:Hd;
    cbn [Nat.of_uint_acc] in Hval; rewrite ?Nat.tail_mul_spec in Hval;
    cbn [NilEmpty.string_of_uint String.length]; rewrite ?string_of_uint_length;
    try (eapply Hhead; [|exact Hval]; lia).
  - simpl. lia.
  - (* a leading zero: the number is written [0] *)
    unfold Decimal.unorm in Hnorm.
    destruct (Decimal.nzhead (Decimal.D0 u)) eqn:Hnz; try discriminate Hnorm.
    + injection Hnorm as ->. simpl. lia.
    + now apply nzhead_not_zero in Hnz.
Qed.

Lemma zeros_spec (k : nat) :
  String.length (String.concat "" (repeat "0" k)) = k
  /\ all_chars Str.is_digit (String.concat "" (repeat "0" k)) = true
  /\ forall s, int_of_digits_from 0 (String.concat "" (repeat "0" k) ++ s)
               = int_of_digits_from 0 s.
Proof.
  induction k as [|k (IH1 & IH2 & IH3)]; [repeat split|].
  cbn [repeat]. rewrite concat_cons. cbn [String.append String.length all_chars].
  rewrite IH1, IH2. repeat split. intros s. cbn [int_of_digits_from].
  change (Str.is_digit "0") with true. cbv iota. apply IH3.
Qed.

(** The zero-padded text of a number below [10 ^ w]: [w] digits, with its
    value. *)
Lemma zfill_spec (w n : nat) :
  (1 <= w)%nat -> (n < 10 ^ w)%nat ->
  String.length (zfill w n) = w
  /\ all_chars Str.is_digit (zfill w n) = true
  /\ int_of_digits (zfill w n) = n.
Proof.
  intros Hw Hn. pose proof (of_nat_length n w Hw Hn) as Hlen.
  destruct (zeros_spec (w - String.length (Str.of_nat n))) as (Z1 & Z2 & Z3).
  unfold zfill, int_of_digits. rewrite string_app_length, all_chars_app, Z1, Z2, Z3.
  split; [lia|]. split; [apply of_nat_digits | apply int_of_digits_of_nat].
Qed.

Lemma four_digits_full (m : string) :
  String.length m = 4 -> all_chars Str.is_digit m = true ->
  first_full [[Re.digit; Re.digit; Re.digit; Re.digit]] m = true.
Proof.
  destruct m as [|a [|b [|c [|d [|e m]]]]]; try discriminate. intros _.
  cbn [all_chars]. rewrite !andb_true_iff. intros (Ha & Hb & Hc & Hd & _).
  unfold first_full, Re.classes, Re.digit. now rewrite Ha, Hb, Hc, Hd.
Qed.

Lemma year_ok (y : nat) :
  (y < 10 ^ 4)%nat -> field_ok [[Re.digit; Re.digit; Re.digit; Re.digit]] 4 y = true.
Proof.
  intros Hy. destruct (zfill_spec 4 y) as (L & D & V); [lia | exact Hy|].
  unfold field_ok. cbv zeta. rewrite L, (four_digits_full _ L D), V, D, !Nat.eqb_refl.
  reflexivity.
Qed.

Lemma lstrip_by_app_all (p : ascii -> bool) (ws t : string) :
  all_chars p ws = true -> Str.lstrip_by p (ws ++ t) = Str.lstrip_by p t.
Proof.
  induction ws as [|c ws IH]; simpl; [reflexivity|].
  intros [Hc Hws]%andb_true_iff. rewrite Hc. now apply IH.
Qed.

Lemma rstrip_by_app_all (p : ascii -> bool) (t ws : string) :
  all_chars p ws = true -> Str.rstrip_by p (t ++ ws) = Str.rstrip_by p t.
Proof.
  intros Hws. induction t as [|c t IH]; simpl.
  - apply rstrip_by_all, Hws.
  - now rewrite IH.
Qed.

Lemma last_char_app (s : string) (c : ascii) (r : string) :
  last_char (s ++ String c r) = last_char (String c r).
Proof.
  induction s as [|a s IH]; [reflexivity|].
  change (String a s ++ String c r) with (String a (s ++ String c r)).
  cbn [last_char]. rewrite IH.
  destruct (s ++ String c r) eqn:Hs; [|reflexivity].
  destruct s; discriminate Hs.
Qed.

(** Whitespace around a text that neither starts nor ends with it. *)
Lemma strip_surrounded (ws1 t ws2 : string) :
  all_chars Str.is_space ws1 = true -> all_chars Str.is_space ws2 = true ->
  stops Str.is_space t = true ->
  (forall c, last_char t = Some c -> Str.is_space c = false) ->
  Str.strip (ws1 ++ t ++ ws2) = t.
Proof.
  intros H1 H2 Hfirst Hlast. unfold Str.strip, Str.strip_by.
  rewrite <- string_app_assoc, (rstrip_by_app_all _ _ _ H2).
  destruct t as [|c t'].
  - rewrite string_app_nil_r, (rstrip_by_all _ _ H1). reflexivity.
  - rewrite rstrip_by_id.
    + rewrite (lstrip_by_app_all _ _ _ H1). apply lstrip_by_id.
      intros a r [= <- <-]. simpl in Hfirst. now apply negb_true_iff.
    + intros a. rewrite last_char_app. apply Hlast.
Qed.

Lemma classes_app {cs : list (ascii -> bool)} (m rest m1 r1 : string) :
  Re.classes cs m = Some (m1, r1) -> Re.classes cs (m ++ rest) = Some (m1, r1 ++ rest).
Proof.
  revert m m1. induction cs as [|c cs IH]; intros m m1; simpl.
  - now intros [= <- <-].
  - destruct m as [|a m]; [discriminate|]. simpl.
    destruct (c a); [|discriminate].
    destruct (Re.classes cs m) as [[m2 r2]|] eqn:Hm; [|discriminate].
    intros [= <- <-]. now rewrite (IH _ _ Hm).
Qed.

Lemma classes_app_none {cs : list (ascii -> bool)} (m rest : string) :
  (length cs <= String.length m)%nat ->
  Re.classes cs m = None -> Re.classes cs (m ++ rest) = None.
Proof.
  revert m. induction cs as [|c cs IH]; intros m; simpl; [discriminate|].
  destruct m as [|a m]; simpl; [lia|]. intros Hlen.
  destruct (c a); [|reflexivity].
  destruct (Re.classes cs m) as [[m2 r2]|] eqn:Hm; [discriminate|].
  intros _. rewrite IH; [reflexivity | lia | exact Hm].
Qed.

Lemma classes_full {cs : list (ascii -> bool)} (m m1 : string) :
  Re.classes cs m = Some (m1, "") -> m1 = m.
Proof.
  revert m m1. induction cs as [|c cs IH]; intros m m1; simpl.
  - now intros [= <- <-].
  - destruct m as [|a m]; [discriminate|].
    destruct (c a); [|discriminate].
    destruct (Re.classes cs m) as [[m2 r2]|] eqn:Hm; [|discriminate].
    intros [= <- ->]. now rewrite (IH _ _ Hm).
Qed.

Lemma alts_first_full {A : Type} (l : list (list (ascii -> bool))) (m rest : string)
    (k : string -> string -> option A) (x : A) :
  Forall (fun a => (length a <= String.length m)%nat) l ->
  first_full l m = true ->
  k m rest = Some x ->
  Re.alts l (m ++ rest) k = Some x.
Proof.
  intros Hlen Hfull Hk. induction Hlen as [|a l Ha Hl IH]; simpl in *; [discriminate|].
  destruct (Re.classes a m) as [[m1 [|c r1]]|] eqn:Hm.
  - rewrite (classes_app _ rest _ _ Hm). rewrite (classes_full _ _ Hm).
    change ("" ++ rest) with rest. now rewrite Hk.
  - discriminate.
  - rewrite (classes_app_none _ rest Ha Hm). now apply IH.
Qed.

Lemma field_ok_range (l : list (list (ascii -> bool))) (width lo n : nat) (hi : nat) :
  forallb (field_ok l width) (seq lo hi) = true ->
  (lo <= n < lo + hi)%nat -> field_ok l width n = true.
Proof.
  intros Hall Hn. rewrite forallb_forall in Hall. apply Hall, in_seq. lia.
Qed.

Lemma field_ok_inv (l : list (list (ascii -> bool))) (width n : nat) :
  field_ok l width n = true ->
  String.length (zfill width n) = width
  /\ first_full l (zfill width n) = true
  /\ int_of_digits (zfill width n) = n
  /\ all_chars Str.is_digit (zfill width n) = true.
Proof.
  unfold field_ok. cbv zeta.
  intros [[[H1 H2]%andb_true_iff H3]%andb_true_iff H4]%andb_true_iff.
  apply Nat.eqb_eq in H1, H3. auto.
Qed.

Lemma digits_stop_space (m rest : string) :
  m <> "" -> all_chars Str.is_digit m = true -> stops Str.is_space (m ++ rest) = true.
Proof.
  destruct m as [|c m]; [contradiction|]. intros _ [Hc _]%andb_true_iff.
  simpl. now rewrite (is_digit_not_space c Hc).
Qed.

Lemma length_nonempty (s : string) (n : nat) : String.length s = S n -> s <> "".
Proof. now destruct s. Qed.

Lemma months_ok :
  forallb (field_ok [[Re.just "1"; Re.between "0" "2"]; [Re.just "0"; Re.between "1" "9"];
                     [Re.between "1" "9"]] 2) (seq 1 12) = true.
Proof. vm_compute. reflexivity. Qed.

Lemma days_ok :
  forallb (field_ok [[Re.just "3"; Re.between "0" "1"]; [Re.between "1" "2"; Re.digit];
                     [Re.just "0"; Re.between "1" "9"]; [Re.between "1" "9"];
                     [Re.just " "; Re.between "1" "9"]] 2) (seq 1 31) = true.
Proof. vm_compute. reflexivity. Qed.

Lemma hours_ok :
  forallb (field_ok [[Re.just "2"; Re.between "0" "3"]; [Re.between "0" "1"; Re.digit];
                     [Re.digit]] 2) (seq 0 24) = true.
Proof. vm_compute. reflexivity. Qed.

Lemma minutes_ok :
  forallb (field_ok [[Re.between "0" "5"; Re.digit]; [Re.digit]] 2) (seq 0 60) = true.
Proof. vm_compute. reflexivity. Qed.

Lemma seconds_ok :
  forallb (field_ok [[Re.just "6"; Re.between "0" "1"]; [Re.between "0" "5"; Re.digit];
                     [Re.digit]] 2) (seq 0 62) = true.
Proof. vm_compute. reflexivity. Qed.

Lemma days_in_month_le (y m : nat) : (Datetime.days_in_month y m <= 31)%nat.
Proof.
  unfold Datetime.days_in_month.
  do 12 (destruct m as [|m]; [try destruct (Datetime.is_leap y); lia|]). lia.
Qed.

Ltac short_alts := repeat constructor; simpl; lia.

Lemma valid_in_format_range (dt : Datetime.datetime) :
  valid_datetime dt -> in_format_range dt.
Proof.
  intros (Hy & Hm & Hd & Hh & Hmi & Hs).
  pose proof (days_in_month_le (Datetime.year dt) (Datetime.month dt)) as Hdm.
  unfold in_format_range. lia.
Qed.

Lemma strptime_regex_text (dt : Datetime.datetime) :
  in_format_range dt ->
  Datetime.strptime_regex (timestamp_text dt)
  = Some (zfill 4 (Datetime.year dt), zfill 2 (Datetime.month dt), zfill 2 (Datetime.day dt),
          zfill 2 (Datetime.hour dt), zfill 2 (Datetime.minute dt),
          zfill 2 (Datetime.second dt), "").
Proof.
  intros (Hy & Hm & Hd & Hh & Hmi & Hs).
  destruct (field_ok_inv _ _ _ (year_ok (Datetime.year dt) ltac:(lia)))
    as (Ly & Fy & _ & Dy).
  destruct (field_ok_inv _ _ _ (field_ok_range _ _ _ (Datetime.month dt) _ months_ok ltac:(lia)))
    as (Lm & Fm & _ & Dm).
  destruct (field_ok_inv _ _ _ (field_ok_range _ _ _ (Datetime.day dt) _ days_ok ltac:(lia)))
    as (Ld & Fd & _ & Dd).
  destruct (field_ok_inv _ _ _ (field_ok_range _ _ _ (Datetime.hour dt) _ hours_ok ltac:(lia)))
    as (Lh & Fh & _ & Dh).
  destruct (field_ok_inv _ _ _ (field_ok_range _ _ _ (Datetime.minute dt) _ minutes_ok ltac:(lia)))
    as (Lmi & Fmi & _ & Dmi).
  destruct (field_ok_inv _ _ _ (field_ok_range _ _ _ (Datetime.second dt) _ seconds_ok ltac:(lia)))
    as (Ls & Fs & _ & Ds).
  unfold Datetime.strptime_regex, timestamp_text. cbv zeta.
  apply alts_first_full; [rewrite Ly; short_alts | exact Fy|].
  rewrite (lit_app true "-").
  apply alts_first_full; [rewrite Lm; short_alts | exact Fm|].
  rewrite (lit_app true "-").
  apply alts_first_full; [rewrite Ld; short_alts | exact Fd|].
  apply (plus_run Str.is_space " ");
    [discriminate | reflexivity
     | apply digits_stop_space; [now apply (length_nonempty _ 1) | exact Dh] |].
  apply alts_first_full; [rewrite Lh; short_alts | exact Fh|].
  rewrite (lit_app true ":").
  apply alts_first_full; [rewrite Lmi; short_alts | exact Fmi|].
  rewrite (lit_app true ":").
  change " UTC" with (" " ++ "UTC" ++ "").
  apply alts_first_full; [rewrite Ls; short_alts | exact Fs|].
  apply (plus_run Str.is_space " "); [discriminate | reflexivity | reflexivity|].
  now rewrite (lit_app true "UTC").
Qed.

Lemma field_values (dt : Datetime.datetime) :
  in_format_range dt ->
  int_of_digits (zfill 4 (Datetime.year dt)) = Datetime.year dt
  /\ int_of_digits (zfill 2 (Datetime.month dt)) = Datetime.month dt
  /\ int_of_digits (zfill 2 (Datetime.day dt)) = Datetime.day dt
  /\ int_of_digits (zfill 2 (Datetime.hour dt)) = Datetime.hour dt
  /\ int_of_digits (zfill 2 (Datetime.minute dt)) = Datetime.minute dt
  /\ int_of_digits (zfill 2 (Datetime.second dt)) = Datetime.second dt.
Proof.
  intros (Hy & Hm & Hd & Hh & Hmi & Hs).
  destruct (field_ok_inv _ _ _ (year_ok (Datetime.year dt) ltac:(lia)))
    as (_ & _ & Vy & _).
  destruct (field_ok_inv _ _ _ (field_ok_range _ _ _ (Datetime.month dt) _ months_ok ltac:(lia)))
    as (_ & _ & Vm & _).
  destruct (field_ok_inv _ _ _ (field_ok_range _ _ _ (Datetime.day dt) _ days_ok ltac:(lia)))
    as (_ & _ & Vd & _).
  destruct (field_ok_inv _ _ _ (field_ok_range _ _ _ (Datetime.hour dt) _ hours_ok ltac:(lia)))
    as (_ & _ & Vh & _).
  destruct (field_ok_inv _ _ _ (field_ok_range _ _ _ (Datetime.minute dt) _ minutes_ok ltac:(lia)))
    as (_ & _ & Vmi & _).
  destruct (field_ok_inv _ _ _ (field_ok_range _ _ _ (Datetime.second dt) _ seconds_ok ltac:(lia)))
    as (_ & _ & Vs & _).
  auto 10.
Qed.

(** What [strptime] makes of a text of the format: the date and time when
    they are of the calendar, [ValueError] when they are not. *)
Lemma strptime_text_cases (dt : Datetime.datetime) :
  in_format_range dt ->
  Datetime.strptime (timestamp_text dt)
  = if ((1 <=? Datetime.year dt)
        && (Datetime.day dt <=? Datetime.days_in_month (Datetime.year dt) (Datetime.month dt))
        && (Datetime.second dt <=? 59))%nat
    then Ok dt else Raise (Exn ValueError "value out of range").
Proof.
  intros Hr. unfold Datetime.strptime. rewrite (strptime_regex_text dt Hr).
  destruct (field_values dt Hr) as (-> & -> & -> & -> & -> & ->).
  change (Str.truthy "") with false. cbv iota.
  cbn [Datetime.year Datetime.month Datetime.day Datetime.second].
  destruct (_ && _); [|reflexivity]. now destruct dt.
Qed.

Lemma strptime_text (dt : Datetime.datetime) :
  valid_datetime dt -> Datetime.strptime (timestamp_text dt) = Ok dt.
Proof.
  intros Hv. rewrite (strptime_text_cases dt (valid_in_format_range dt Hv)).
  destruct Hv as (Hy & Hm & Hd & Hh & Hmi & Hs).
  assert ((1 <=? Datetime.year dt)%nat = true) as -> by (apply Nat.leb_le; lia).
  assert ((Datetime.day dt <=? Datetime.days_in_month (Datetime.year dt) (Datetime.month dt))%nat
          = true) as -> by (apply Nat.leb_le; lia).
  assert ((Datetime.second dt <=? 59)%nat = true) as -> by (apply Nat.leb_le; lia).
  reflexivity.
Qed.

Lemma replace_single_char (c : ascii) (s : string) (fuel : nat) :
  (String.length s < fuel)%nat ->
  Str.replace_from fuel (String c "") "" s = without_char c s.
Proof.
  revert fuel. induction s as [|a s IH]; intros [|fuel] Hlen; simpl in *; try lia.
  - reflexivity.
  - rewrite (Ascii.eqb_sym c a). destruct (Ascii.eqb a c).
    + change ("" ++ ?x) with x. apply IH. lia.
    + rewrite IH by lia. reflexivity.
Qed.

Lemma replace_char (c : ascii) (s : string) :
  Str.replace (String c "") "" s = without_char c s.
Proof. unfold Str.replace. apply replace_single_char. lia. Qed.

Lemma without_char_app (c : ascii) (a b : string) :
  without_char c (a ++ b) = without_char c a ++ without_char c b.
Proof.
  induction a as [|x a IH]; simpl; [reflexivity|].
  destruct (Ascii.eqb x c); simpl; now rewrite IH.
Qed.

Lemma without_char_id (c : ascii) (s : string) :
  Str.contains c s = false -> without_char c s = s.
Proof.
  induction s as [|a s IH]; simpl; [reflexivity|].
  intros [Ha Hs]%orb_false_iff. now rewrite Ha, IH.
Qed.

Lemma all_chars_no (p : ascii -> bool) (c : ascii) (s : string) :
  p c = false -> all_chars p s = true -> Str.contains c s = false.
Proof.
  intros Hc. induction s as [|a s IH]; simpl; [reflexivity|].
  intros [Ha Hs]%andb_true_iff. rewrite (IH Hs), orb_false_r.
  destruct (Ascii.eqb_spec a c) as [->|]; [congruence | reflexivity].
Qed.

(** The UTC offset of [isoformat] becomes [Z]. *)
Lemma replace_utc_offset (s : string) (fuel : nat) :
  Str.contains "+" s = false -> (String.length s < fuel)%nat ->
  Str.replace_from fuel "+00:00" "Z" (s ++ "+00:00") = s ++ "Z".
Proof.
  revert fuel. induction s as [|a s IH]; intros [|fuel] Hs Hlen;
    cbn [String.length Str.contains] in *; try lia.
  - destruct fuel; reflexivity.
  - apply orb_false_iff in Hs as [Ha Hs].
    cbn [String.append Str.replace_from Str.strip_prefix].
    rewrite (Ascii.eqb_sym "+" a), Ha. rewrite IH by (exact Hs || lia). reflexivity.
Qed.

Lemma valid_fields (dt : Datetime.datetime) :
  in_format_range dt ->
  (String.length (zfill 4 (Datetime.year dt)) = 4
   /\ all_chars Str.is_digit (zfill 4 (Datetime.year dt)) = true)
  /\ (String.length (zfill 2 (Datetime.month dt)) = 2
      /\ all_chars Str.is_digit (zfill 2 (Datetime.month dt)) = true)
  /\ (String.length (zfill 2 (Datetime.day dt)) = 2
      /\ all_chars Str.is_digit (zfill 2 (Datetime.day dt)) = true)
  /\ (String.length (zfill 2 (Datetime.hour dt)) = 2
      /\ all_chars Str.is_digit (zfill 2 (Datetime.hour dt)) = true)
  /\ (String.length (zfill 2 (Datetime.minute dt)) = 2
      /\ all_chars Str.is_digit (zfill 2 (Datetime.minute dt)) = true)
  /\ (String.length (zfill 2 (Datetime.second dt)) = 2
      /\ all_chars Str.is_digit (zfill 2 (Datetime.second dt)) = true).
Proof.
  intros (Hy & Hm & Hd & Hh & Hmi & Hs).
  destruct (field_ok_inv _ _ _ (year_ok (Datetime.year dt) ltac:(lia)))
    as (Ly & _ & _ & Dy).
  destruct (field_ok_inv _ _ _ (field_ok_range _ _ _ (Datetime.month dt) _ months_ok ltac:(lia)))
    as (Lm & _ & _ & Dm).
  destruct (field_ok_inv _ _ _ (field_ok_range _ _ _ (Datetime.day dt) _ days_ok ltac:(lia)))
    as (Ld & _ & _ & Dd).
  destruct (field_ok_inv _ _ _ (field_ok_range _ _ _ (Datetime.hour dt) _ hours_ok ltac:(lia)))
    as (Lh & _ & _ & Dh).
  destruct (field_ok_inv _ _ _ (field_ok_range _ _ _ (Datetime.minute dt) _ minutes_ok ltac:(lia)))
    as (Lmi & _ & _ & Dmi).
  destruct (field_ok_inv _ _ _ (field_ok_range _ _ _ (Datetime.second dt) _ seconds_ok ltac:(lia)))
    as (Ls & _ & _ & Ds).
  auto 20.
Qed.

Lemma iso_date_chars (dt : Datetime.datetime) :
  in_format_range dt ->
  String.length (iso_date dt) = 10
  /\ all_chars (fun c => Str.is_digit c || Ascii.eqb c "-") (iso_date dt) = true.
Proof.
  intros Hv. destruct (valid_fields dt Hv) as ((Ly & Dy) & (Lm & Dm) & (Ld & Dd) & _).
  unfold iso_date. split.
  - rewrite !string_app_length, Ly, Lm, Ld. reflexivity.
  - assert (forall c, Str.is_digit c = true -> Str.is_digit c || Ascii.eqb c "-" = true) as Hp
      by (intros c ->; reflexivity).
    rewrite !all_chars_app.
    now rewrite (all_chars_impl _ _ _ Hp Dy), (all_chars_impl _ _ _ Hp Dm),
      (all_chars_impl _ _ _ Hp Dd).
Qed.

Lemma iso_time_chars (sep : string) (dt : Datetime.datetime) :
  in_format_range dt ->
  String.length (iso_time sep dt) = 6 + 2 * String.length sep
  /\ forall p : ascii -> bool,
       (forall c, Str.is_digit c = true -> p c = true) -> all_chars p sep = true ->
       all_chars p (iso_time sep dt) = true.
Proof.
  intros Hv. destruct (valid_fields dt Hv) as (_ & _ & _ & (Lh & Dh) & (Lmi & Dmi) & (Ls & Ds)).
  unfold iso_time. split.
  - rewrite !string_app_length, Lh, Lmi, Ls. lia.
  - intros p Hp Hsep. rewrite !all_chars_app, Hsep.
    now rewrite (all_chars_impl _ _ _ Hp Dh), (all_chars_impl _ _ _ Hp Dmi),
      (all_chars_impl _ _ _ Hp Ds).
Qed.

Lemma isoformat_utc_split (dt : Datetime.datetime) :
  Datetime.isoformat_utc dt = (iso_date dt ++ "T" ++ iso_time ":" dt) ++ "+00:00".
Proof.
  unfold Datetime.isoformat_utc, iso_date, iso_time. now rewrite !string_app_assoc.
Qed.

Lemma timestamp_text_split (dt : Datetime.datetime) :
  timestamp_text dt = iso_date dt ++ " " ++ iso_time ":" dt ++ " UTC".
Proof. unfold timestamp_text, iso_date, iso_time. now rewrite !string_app_assoc. Qed.

Lemma row_date_iso_text (dt : Datetime.datetime) :
  in_format_range dt -> row_date_iso dt = iso_date dt ++ "T" ++ iso_time ":" dt ++ "Z".
Proof.
  intros Hv. unfold row_date_iso, Str.replace. rewrite isoformat_utc_split.
  destruct (iso_date_chars dt Hv) as [Ld Hd]. destruct (iso_time_chars ":" dt Hv) as [Lt Ht].
  rewrite replace_utc_offset.
  - now rewrite !string_app_assoc.
  - apply (all_chars_no (fun c => Str.is_digit c || Ascii.eqb c "-" || Ascii.eqb c "T"
                                   || Ascii.eqb c ":")); [reflexivity|].
    rewrite !all_chars_app. rewrite (all_chars_impl _ _ (iso_date dt)) with (2 := Hd).
    + rewrite Ht; [reflexivity | | reflexivity]. intros c Hc. now rewrite Hc.
    + intros c Hc. now rewrite Hc.
  - rewrite !string_app_length. simpl. lia.
Qed.

Section Timestamps.
Context `{!Externals}.

Lemma timestamp_text_edges (dt : Datetime.datetime) :
  in_format_range dt ->
  stops Str.is_space (timestamp_text dt) = true
  /\ forall c, last_char (timestamp_text dt) = Some c -> Str.is_space c = false.
Proof.
  intros Hv. destruct (valid_fields dt Hv) as ((Ly & Dy) & _). split.
  - unfold timestamp_text. apply digits_stop_space; [now apply (length_nonempty _ 3) | exact Dy].
  - intros c. rewrite timestamp_text_split, <- !string_app_assoc.
    change " UTC" with (" UT" ++ "C"). rewrite <- !string_app_assoc, last_char_app.
    now intros [= <-].
Qed.

(** X7.  Round trip of a timestamp.  For every date and time of the
    calendar, years 1 to 9999, the catalog's text [YYYY-MM-DD HH:MM:SS UTC],
    with any whitespace around it, is parsed by [parse_iso8601_utc] to
    [YYYY-MM-DDTHH:MM:SSZ] with the same fields, and the [strptime] call of
    the orchestrator reads the same date and time back. *)
Theorem parse_iso8601_utc_roundtrip (dt : Datetime.datetime) (ws1 ws2 : string) :
  valid_datetime dt ->
  all_chars Str.is_space ws1 = true -> all_chars Str.is_space ws2 = true ->
  parse_iso8601_utc (ws1 ++ timestamp_text dt ++ ws2)
  = Ok (iso_date dt ++ "T" ++ iso_time ":" dt ++ "Z")
  /\ Datetime.strptime (Str.strip (ws1 ++ timestamp_text dt ++ ws2)) = Ok dt.
Proof.
  intros Hv H1 H2. pose proof (valid_in_format_range dt Hv) as Hr.
  destruct (timestamp_text_edges dt Hr) as [Hfirst Hlast].
  unfold parse_iso8601_utc. rewrite (strip_surrounded _ _ _ H1 H2 Hfirst Hlast).
  rewrite (strptime_text dt Hv). fold (row_date_iso dt).
  now rewrite (row_date_iso_text dt Hr).
Qed.

(** X8.  A text of the format whose fields the pattern accepts but that is
    no date and time of the calendar (the year 0000, a day past the end of
    the month, 60 or 61 seconds) makes [parse_iso8601_utc] raise
    [ValueError]. *)
Theorem parse_iso8601_utc_rejects_impossible_dates (dt : Datetime.datetime)
    (ws1 ws2 : string) :
  in_format_range dt ->
  all_chars Str.is_space ws1 = true -> all_chars Str.is_space ws2 = true ->
  (Datetime.year dt = 0
   \/ Datetime.days_in_month (Datetime.year dt) (Datetime.month dt) < Datetime.day dt
   \/ 60 <= Datetime.second dt)%nat ->
  exists e,
    parse_iso8601_utc (ws1 ++ timestamp_text dt ++ ws2) = Raise e
    /\ exn_class_of e = ValueError.
Proof.
  intros Hr H1 H2 Hbad. destruct (timestamp_text_edges dt Hr) as [Hfirst Hlast].
  unfold parse_iso8601_utc. rewrite (strip_surrounded _ _ _ H1 H2 Hfirst Hlast).
  rewrite (strptime_text_cases dt Hr).
  assert (((1 <=? Datetime.year dt)
           && (Datetime.day dt <=? Datetime.days_in_month (Datetime.year dt) (Datetime.month dt))
           && (Datetime.second dt <=? 59))%nat = false) as ->.
  { rewrite !andb_false_iff, !Nat.leb_gt. lia. }
  eexists. split; reflexivity.
Qed.

End Timestamps.

(** ** The names of the files of a row *)

Lemma digit_is_safe (c : ascii) : Str.is_digit c = true -> safe_char c = true.
Proof. intros Hc. unfold safe_char, Str.is_word. now rewrite Hc. Qed.

Lemma digits_then_underscore (a b x y : string) :
  all_chars Str.is_digit a = true -> all_chars Str.is_digit b = true ->
  a ++ "_" ++ x = b ++ "_" ++ y -> a = b.
Proof.
  revert b. induction a as [|c a IH]; intros [|c' b] Ha Hb Heq; simpl in *.
  - reflexivity.
  - injection Heq as <- _. discriminate Hb.
  - injection Heq as -> _. discriminate Ha.
  - apply andb_true_iff in Ha as [_ Ha]. apply andb_true_iff in Hb as [_ Hb].
    injection Heq as -> Heq. f_equal. now apply IH.
Qed.

Section Naming.
Context `{!Externals}.
Variable out_dir : string.

Lemma without_colon_digits (s : string) :
  all_chars Str.is_digit s = true -> without_char ":" s = s.
Proof. intros Hs. apply without_char_id. now apply (all_chars_no Str.is_digit). Qed.

Lemma iso_time_without_colons (dt : Datetime.datetime) :
  valid_datetime dt -> without_char ":" (iso_time ":" dt) = iso_time "" dt.
Proof.
  intros Hv%valid_in_format_range.
  destruct (valid_fields dt Hv) as (_ & _ & _ & (_ & Dh) & (_ & Dmi) & (_ & Ds)).
  unfold iso_time. rewrite !without_char_app.
  rewrite (without_colon_digits _ Dh), (without_colon_digits _ Dmi), (without_colon_digits _ Ds).
  reflexivity.
Qed.

Lemma iso_date_without_colons (dt : Datetime.datetime) :
  valid_datetime dt -> without_char ":" (iso_date dt) = iso_date dt.
Proof.
  intros Hv%valid_in_format_range. destruct (iso_date_chars dt Hv) as [_ Hd].
  apply without_char_id. eapply all_chars_no; [|exact Hd]. reflexivity.
Qed.

Lemma row_out_stem_eq (i : nat) (dt : Datetime.datetime) :
  valid_datetime dt ->
  (i < 10 ^ 161)%nat ->
  row_out_stem out_dir i dt
  = path_join out_dir (Str.of_nat i ++ "_" ++ iso_date dt ++ "T" ++ iso_time "" dt ++ "Z").
Proof.
  intros Hv Hi%(of_nat_length i 161 ltac:(lia)).
  pose proof (valid_in_format_range dt Hv) as Hr.
  unfold row_out_stem. f_equal.
  rewrite (row_date_iso_text dt Hr), replace_char, !without_char_app.
  rewrite (without_colon_digits _ (of_nat_digits i)), (iso_date_without_colons dt Hv),
    (iso_time_without_colons dt Hv).
  change (without_char ":" "_") with "_". change (without_char ":" "T") with "T".
  change (without_char ":" "Z") with "Z".
  destruct (iso_date_chars dt Hr) as [Ld Hd]. destruct (iso_time_chars "" dt Hr) as [Lt Ht].
  pose proof (of_nat_digits i) as Hdig. pose proof (of_nat_nonempty i) as Hne.
  apply safe_filename_id.
  - destruct (Str.of_nat i); [contradiction | discriminate].
  - rewrite !all_chars_app, (all_chars_impl _ _ _ digit_is_safe Hdig).
    rewrite (all_chars_impl _ _ (iso_date dt)) with (2 := Hd).
    + rewrite (Ht safe_char digit_is_safe eq_refl). reflexivity.
    + intros c [Hc | Hc]%orb_true_iff; [now apply digit_is_safe|].
      apply Ascii.eqb_eq in Hc as ->. reflexivity.
  - destruct (Str.of_nat i) as [|c r]; [contradiction|].
    simpl in Hdig. apply andb_true_iff in Hdig as [Hc _]. simpl.
    destruct (Ascii.eqb_spec c "_") as [->|]; [discriminate Hc | reflexivity].
  - rewrite <- !string_app_assoc, last_char_app. discriminate.
  - rewrite !string_app_length, Ld, Lt. simpl. lia.
Qed.

(** X9.  The stem of the files of row [i] with the timestamp [dt] is
    [out_dir / "{i}_{YYYY}-{MM}-{DD}T{HHMMSS}Z"]: [safe_filename] changes
    nothing in it, as long as the index is below [10 ^ 161] (the name then
    has at most 180 characters).  Rows with different indices never
    write to the same name: whatever extensions are appended to them, the
    names made from their stems differ. *)
Theorem row_out_stem_name (i : nat) (dt : Datetime.datetime) :
  valid_datetime dt ->
  (i < 10 ^ 161)%nat ->
  row_out_stem out_dir i dt
  = path_join out_dir (Str.of_nat i ++ "_" ++ iso_date dt ++ "T" ++ iso_time "" dt ++ "Z")
  /\ forall (j : nat) (dt' : Datetime.datetime) (ext ext' : string),
       valid_datetime dt' -> (j < 10 ^ 161)%nat -> i <> j ->
       name (row_out_stem out_dir i dt) ++ ext <> name (row_out_stem out_dir j dt') ++ ext'.
Proof.
  intros Hv Hi. split; [now apply row_out_stem_eq|].
  intros j dt' ext ext' Hv' Hj Hij Heq.
  rewrite (row_out_stem_eq i dt Hv Hi), (row_out_stem_eq j dt' Hv' Hj) in Heq.
  cbn [name path_join] in Heq. rewrite !string_app_assoc in Heq.
  apply digits_then_underscore in Heq; [|apply of_nat_digits..].
  now apply of_nat_inj in Heq.
Qed.

End Naming.

(** ** The ledger and the classification *)

Section Ledger.
Context `{!Externals}.

Lemma add_line_to_file_spec (file_path text : string) (w : World) :
  add_line_to_file file_path text w
  = (Ok tt, set_files (<[file_path := default "" (files w !! file_path)
                                      ++ text ++ String "010" ""]> (files w)) w).
Proof.
  unfold add_line_to_file, Fs.open_append, Fs.write, mbind, M_bind, set_files.
  cbn [files net trace]. now rewrite lookup_insert_eq, insert_insert_eq.
Qed.

(** X10.  Lines added to a file one after the other are kept, in order:
    when the calls of [add_line_to_file] for the texts of a list that is not
    empty have all returned, the file holds what it held before the first
    call (nothing when it was absent) followed by each text and a newline,
    in the order of the calls; no other file has changed, nothing was
    requested from the network and nothing was printed. *)
Theorem add_line_to_file_appends (file_path text : string) (more : list string)
    (w w' : World) :
  add_lines_to_file file_path (text :: more) w = (Ok tt, w') ->
  files w' !! file_path
  = Some (default "" (files w !! file_path)
          ++ String.concat "" (map (fun t => t ++ String "010" "") (text :: more)))
  /\ (forall p, p <> file_path -> files w' !! p = files w !! p)
  /\ net w' = net w
  /\ trace w' = trace w.
Proof.
  revert text w. induction more as [|next more IH]; intros text w.
  - cbn [add_lines_to_file map]. rewrite concat_cons. cbn [String.concat].
    unfold mbind, M_bind, mret, M_ret. rewrite add_line_to_file_spec, string_app_nil_r.
    intros [= <-]. cbn [files set_files net trace].
    split; [apply lookup_insert_eq|]. split; [|split; reflexivity].
    intros p Hp. apply lookup_insert_ne. congruence.
  - change (add_lines_to_file file_path (text :: next :: more))
      with (add_line_to_file file_path text;; add_lines_to_file file_path (next :: more)).
    unfold mbind, M_bind. rewrite add_line_to_file_spec. intros Hrest.
    destruct (IH _ _ Hrest) as (Hfile & Hothers & Hnet & Htrace).
    cbn [files set_files net trace] in Hfile, Hothers, Hnet, Htrace.
    rewrite lookup_insert_eq in Hfile. cbn [default id] in Hfile.
    split; [|split; [|split; assumption]].
    + rewrite Hfile. f_equal.
      rewrite (map_cons _ text), (concat_cons (text ++ String "010" "")).
      now rewrite !string_app_assoc.
    + intros p Hp. rewrite (Hothers p Hp). apply lookup_insert_ne. congruence.
Qed.

End Ledger.

Section Classification.
Context `{!Externals}.

(** X11.  [is_zip] answers true in two cases only: the declared content-type
    is a zip media type, or the file exists and its first four bytes are the
    signature.  So a file shorter than four bytes, or an absent one, under no
    zip content-type, is no zip. *)
Theorem is_zip_true_iff (file_path : Path) (content_type : option string) (w : World) :
  exists b : bool,
    is_zip file_path content_type w = (Ok b, w)
    /\ (b = true <->
        declares_zip content_type
        \/ exists data, files w !! path_str file_path = Some data
                        /\ Str.take 4 data = zip_signature).
Proof.
  destruct (is_zip_total file_path content_type w) as [b Hb]. exists b. split; [exact Hb|].
  split.
  - intros ->. unfold is_zip in Hb.
    match type of Hb with context [if negb ?c then _ else _] => destruct c eqn:Hc end.
    + left. destruct content_type as [c|]; [|discriminate Hc]. exists c. split; [reflexivity|].
      destruct (Str.truthy c); [|discriminate Hc].
      apply orb_true_iff in Hc. destruct Hc as [Hc | Hc]; apply String.eqb_eq in Hc; auto.
    + right. cbn [negb] in Hb. unfold try_except, mbind, M_bind, mret, M_ret, Fs.read_head in Hb.
      destruct (files w !! path_str file_path) as [data|]; [|discriminate Hb].
      exists data. split; [reflexivity|]. injection Hb as Hb. now apply String.eqb_eq.
  - intros [Hz | (data & Hfile & Hsig)].
    + rewrite (is_zip_declared _ _ w Hz) in Hb. now injection Hb as <-.
    + rewrite (is_zip_signature _ _ _ _ Hfile Hsig) in Hb. now injection Hb as <-.
Qed.

End Classification.

(** ** The loop *)

Section Loop.
Context `{!Externals}.

Lemma process_rows_skip (out_dir : string) (starting_index : Z) (n_rows i : nat)
    (pre rest : list Row) (w : World) :
  (Z.of_nat (i + length pre) <= starting_index)%Z ->
  process_rows out_dir starting_index n_rows i (pre ++ rest)%list w
  = process_rows out_dir starting_index n_rows (i + length pre) rest w.
Proof.
  revert i. induction pre as [|row pre IH]; intros i Hle.
  - cbn [length app]. now rewrite Nat.add_0_r.
  - cbn [length] in Hle. change ((row :: pre) ++ rest)%list with (row :: (pre ++ rest))%list.
    rewrite (process_rows_next _ _ _ _ _ _ _ w).
    + rewrite IH by lia. cbn [length]. f_equal. lia.
    + unfold process_row. destruct (length (tds row) <? 4)%nat; [reflexivity|].
      assert ((Z.of_nat i <? starting_index)%Z = true) as -> by (apply Z.ltb_lt; lia).
      reflexivity.
Qed.

Variables (out_dir : string) (starting_index : Z) (n_rows : nat).

(** X12.  Resuming.  Rows before [starting_index] are passed over without a
    request, a file operation or a line printed: the loop over
    [pre ++ rest] is the loop over [rest] started at the index after [pre];
    and when the whole catalog lies before [starting_index], the script
    prints the number of files and does nothing else. *)
Theorem rows_before_starting_index_skipped (pre rest : list Row) (w : World) :
  (forall i : nat,
      (Z.of_nat (i + length pre) <= starting_index)%Z ->
      process_rows out_dir starting_index n_rows i (pre ++ rest)%list w
      = process_rows out_dir starting_index n_rows (i + length pre) rest w)
  /\ ((Z.of_nat (length pre) <= starting_index)%Z ->
      main out_dir starting_index pre w
      = (Ok tt, log_event (EvPrint ("Number of files: "
                                    ++ Str.of_Z (Z.of_nat (length pre) - 1))) w)).
Proof.
  split.
  - intros i. apply process_rows_skip.
  - intros Hle. unfold main, print, emit, mbind, M_bind.
    rewrite <- (app_nil_r pre) at 2.
    rewrite (process_rows_skip out_dir starting_index (length pre) 0 pre [] _ Hle).
    reflexivity.
Qed.

(** X13.  A row with four cells or more, a timestamp of the format and no
    url to extract stops the run: [requests.get] refuses the url [None]
    before anything is sent, with an exception that is neither [HTTPError]
    nor [SSLError]; so nothing is downloaded, no ledger line is written, no
    later row is processed. *)
Theorem row_without_url_halts (i : nat) (row : Row) (later : list Row)
    (dt : Datetime.datetime) (w : World) :
  fetchable starting_index i row dt ->
  extract_download_url row = None ->
  exists e,
    process_rows out_dir starting_index n_rows i (row :: later) w
    = (Raise e, log_event (downloading n_rows i row) w)
    /\ exn_class_of e = RequestException.
Proof.
  intros Hrow Hurl. eexists. split.
  - apply process_rows_halt. rewrite (process_row_fetchable _ _ _ i row dt w Hrow).
    unfold row_fetch. rewrite Hurl. unfold download_file.
    rewrite (with_suffix_download _ (row_out_stem_named out_dir i dt)).
    cbn. reflexivity.
  - reflexivity.
Qed.



End Loop.

(** ** The taggers *)


Lemma path_str_inj_name (p : string) (a b : string) : a <> b -> p ++ "/" ++ a <> p ++ "/" ++ b.
Proof. intros Hab Heq. apply string_app_inv_head in Heq. now injection Heq. Qed.

Section Taggers.
Context `{!Externals}.


Lemma tagged_path_ok (file_path : Path) (c : ascii) (a : string) :
  name file_path <> "" -> Str.contains "/" (name file_path) = false ->
  path_suffix file_path = String "." (String c a) ->
  with_suffix file_path (Str.replace_first "." ".tagged." (path_suffix file_path))
  = Ok {| parent := parent file_path;
          name := path_stem file_path ++ ".tagged." ++ String c a |}.
Proof.
  intros Hn Hslash Hsfx.
  destruct (path_stem_suffix_no_slash _ Hslash) as [_ Hno]. rewrite Hsfx in *.
  cbn [Str.replace_first]. change (Ascii.eqb "." ".") with true. cbv iota.
  apply (with_suffix_valid _ _ Hn). unfold valid_suffix.
  cbn [Str.contains] in Hno. change (Ascii.eqb "." "/") with false in Hno. cbn [orb] in Hno.
  change (".tagged." ++ String c a) with (".tagged" ++ String "." (String c a)).
  rewrite contains_app. cbn [Str.contains]. change (Ascii.eqb "." "/") with false. cbn [orb].
  rewrite Hno. reflexivity.
Qed.

(** X16.  When ffmpeg succeeds on a video artifact [stem.ext], having written
    [stem.tagged.ext], the tagging replaces the artifact by the tagged file:
    the artifact's path holds ffmpeg's output and the tagged path is
    gone. *)
Theorem video_remux_replaces_artifact (kind kind_norm date_iso dt_exif location_str : string)
    (lat lon : option Q) (file_path : Path) (content_type : option string)
    (suffix : string) (c : ascii) (a : string) (w w1 : World) (data : string) :
  name file_path <> "" -> Str.contains "/" (name file_path) = false ->
  path_suffix file_path = String "." (String c a) ->
  is_zip file_path content_type w = (Ok false, w) ->
  kind_norm = "video" -> shutil_which "ffmpeg" = true ->
  let tagged := {| parent := parent file_path;
                   name := path_stem file_path ++ ".tagged." ++ String c a |} in
  write_video_metadata_ffmpeg file_path tagged date_iso location_str lat lon w = (Ok tt, w1) ->
  files w1 !! path_str tagged = Some data ->
  exists w2,
    tag_artifact kind kind_norm date_iso dt_exif location_str lat lon
      file_path content_type suffix w = (Ok tt, w2)
    /\ files w2 = <[path_str file_path := data]>
                    (delete (path_str tagged) (delete (path_str file_path) (files w1)))
    /\ files w2 !! path_str file_path = Some data
    /\ files w2 !! path_str tagged = None.
Proof.
  intros Hn Hslash Hsfx Hzip -> Hwhich tagged Hrun Hout.
  assert (path_str tagged <> path_str file_path) as Hne.
  { unfold path_str, tagged. cbn [parent name]. apply path_str_inj_name.
    rewrite (name_stem_suffix file_path), Hsfx.
    intros Heq. apply string_app_inv_head, (f_equal String.length) in Heq.
    rewrite string_app_length in Heq. simpl in Heq. lia. }
  unfold tag_artifact. rewrite (bind_ok _ _ _ _ _ Hzip). cbv iota.
  rewrite Hwhich. change (("video" =? "video") && true) with true. cbv iota.
  rewrite (tagged_path_ok _ _ _ Hn Hslash Hsfx). fold tagged.
  unfold mbind at 1, M_bind at 1, lift at 1. cbv beta iota.
  rewrite (bind_ok _ _ _ _ _ Hrun).
  unfold mbind, M_bind, Fs.unlink_missing_ok, Fs.replace, print, emit.
  cbn [files set_files]. rewrite (lookup_delete_ne _ _ _ (not_eq_sym Hne)), Hout.
  eexists. split; [reflexivity|]. cbn [files set_files log_event].
  split; [reflexivity|]. split; [apply lookup_insert_eq|].
  rewrite (lookup_insert_ne _ _ _ _ (not_eq_sym Hne)). apply lookup_delete_eq.
Qed.

(** X17.  For a video artifact whose name has no extension the tagged path
    is the artifact's path itself: ffmpeg is asked to write onto its input.
    When ffmpeg fails, the tagging raises its error; were it to return with
    status zero, the artifact would be unlinked and the rename would raise
    [FileNotFoundError]. *)
Theorem video_without_suffix_remuxes_onto_itself
    (kind kind_norm date_iso dt_exif location_str : string)
    (lat lon : option Q) (file_path : Path) (content_type : option string)
    (suffix : string) (w : World) :
  name file_path <> "" -> path_suffix file_path = "" ->
  is_zip file_path content_type w = (Ok false, w) ->
  kind_norm = "video" -> shutil_which "ffmpeg" = true ->
  exists cmd : list string,
    nth 0 cmd "" = "ffmpeg"
    /\ nth 3 cmd "" = path_str file_path
    /\ List.last cmd "" = path_str file_path
    /\ (forall e w1,
          subprocess_run cmd (log_event (EvRun cmd) w) = (Raise e, w1) ->
          tag_artifact kind kind_norm date_iso dt_exif location_str lat lon
            file_path content_type suffix w = (Raise e, w1))
    /\ (forall w1,
          subprocess_run cmd (log_event (EvRun cmd) w) = (Ok tt, w1) ->
          tag_artifact kind kind_norm date_iso dt_exif location_str lat lon
            file_path content_type suffix w
          = (Raise (Exn FileNotFoundError "No such file or directory"),
             set_files (delete (path_str file_path) (files w1)) w1)).
Proof.
  intros Hn Hsfx Hzip -> Hwhich.
  destruct (write_video_metadata_ffmpeg_run file_path file_path date_iso location_str lat lon)
    as (cmd & Hhead & Hin & Hout & Hrun).
  assert (with_suffix file_path (Str.replace_first "." ".tagged." (path_suffix file_path))
          = Ok file_path) as Htagged.
  { rewrite Hsfx. cbn [Str.replace_first].
    rewrite (with_suffix_valid _ "" Hn eq_refl). f_equal.
    rewrite string_app_nil_r, (path_stem_no_suffix _ Hsfx). now destruct file_path. }
  assert (tag_artifact kind "video" date_iso dt_exif location_str lat lon
              file_path content_type suffix w
            = (write_video_metadata_ffmpeg file_path file_path date_iso location_str lat lon;;
               Fs.unlink_missing_ok (path_str file_path);;
               Fs.replace (path_str file_path) (path_str file_path);;
               print ("   Saved video -> " ++ name file_path)) w) as Hbranch.
  { unfold tag_artifact. rewrite (bind_ok _ _ _ _ _ Hzip). cbv iota.
    rewrite Hwhich. change (("video" =? "video") && true) with true. cbv iota.
    rewrite Htagged. reflexivity. }
  exists cmd. split; [exact Hhead|]. split; [exact Hin|]. split; [exact Hout|]. split.
  - intros e w1 Htool. rewrite Hbranch. unfold mbind at 1, M_bind at 1.
    now rewrite Hrun, Htool.
  - intros w1 Htool. rewrite Hbranch. unfold mbind at 1, M_bind at 1.
    rewrite Hrun, Htool. unfold mbind, M_bind, Fs.unlink_missing_ok, Fs.replace.
    cbn [files set_files]. now rewrite lookup_delete_eq.
Qed.

(** X18.  [tag_png_text], when Pillow opens the image and saves it to
    [stem.tagged.png] with the three text entries (Creation Time, Location,
    Comment), puts the saved file in the place of the artifact; the
    temporary path is gone. *)
Theorem png_retag_replaces_artifact (path : Path) (date_iso location_text : string)
    (w w1 w2 : World) (data : string) :
  name path <> "" ->
  let tmp := {| parent := parent path; name := path_stem path ++ ".tagged.png" |} in
  Image_open (path_str path) (log_event (EvImageOpen (path_str path)) w) = (Ok tt, w1) ->
  Image_save (path_str path) (path_str tmp)
    [("Creation Time", date_iso); ("Location", location_text);
     ("Comment", "Location: " ++ location_text ++ " | Date: " ++ date_iso)]
    (log_event (EvImageSave (path_str tmp)) w1) = (Ok tt, w2) ->
  files w2 !! path_str tmp = Some data ->
  tag_png_text path date_iso location_text w
  = (Ok tt, set_files (<[path_str path := data]> (delete (path_str tmp) (files w2))) w2).
Proof.
  intros Hn tmp Hopen Hsave Hdata. unfold tag_png_text.
  rewrite (with_suffix_valid _ ".tagged.png" Hn eq_refl). fold tmp.
  unfold mbind, M_bind, lift, emit. rewrite Hopen, Hsave.
  unfold Fs.replace. now rewrite Hdata.
Qed.

End Taggers.

(** ** Tagging that fails *)

Section TaggingFailure.
Context `{!Externals}.
Variables (out_dir : string) (starting_index : Z) (n_rows : nat).


End TaggingFailure.

(** ** The range of the GPS components *)

Lemma inject_Z_gt_m1 (z : Z) : (-(1) < inject_Z z)%Q -> (0 <= z)%Z.
Proof.
  intros Hz. change (-(1))%Q with (inject_Z (-1)) in Hz.
  rewrite <- Zlt_Qlt in Hz. lia.
Qed.

Lemma inject_Z_lt_bound (z b : Z) : (inject_Z z < inject_Z b + 1)%Q -> (z <= b)%Z.
Proof.
  intros Hz. change 1%Q with (inject_Z 1) in Hz.
  rewrite <- inject_Z_plus, <- Zlt_Qlt in Hz. lia.
Qed.

(** [int(x)] of an [x] above [-1]: it is not negative, and the part cut off
    is negative only when [x] is, [int(x)] being zero then. *)
Lemma py_int_above_m1 (x : Q) :
  (-(1) < x)%Q ->
  (0 <= Float.py_int x)%Z
  /\ (inject_Z (Float.py_int x) <= x \/ (x < 0 /\ Float.py_int x = 0%Z))%Q
  /\ (x - inject_Z (Float.py_int x) < 1)%Q.
Proof.
  intros Hx. pose proof (py_int_error x) as [_ Hup].
  unfold Float.py_int in *. destruct (Qle_bool 0 x) eqn:Hs.
  - apply Qle_bool_iff in Hs. pose proof (Qfloor_le x) as Hfl.
    split; [|split; [now left | exact Hup]].
    change 0%Z with (Qfloor 0). now apply Qfloor_resp_le.
  - assert (x < 0)%Q as Hneg.
    { apply Qnot_le_lt. intros Hle. apply Qle_bool_iff in Hle. congruence. }
    pose proof (Qle_ceiling x) as Hc. pose proof (Qceiling_lt x) as Hc'.
    unfold Z.sub in Hc'. rewrite inject_Z_plus, inject_Z_opp in Hc'.
    change (inject_Z 1) with 1%Q in Hc'.
    assert (0 <= Qceiling x)%Z as H0 by (apply inject_Z_gt_m1; lra).
    assert (Qceiling x <= 0)%Z as H1
      by (apply inject_Z_lt_bound; change (inject_Z 0) with 0%Q; lra).
    assert (Qceiling x = 0%Z) as Hz by lia.
    split; [lia|]. split; [right; now split | exact Hup].
Qed.

Section GpsRange.
Context `{!Externals}.

(** X19.  With binary64 rounding, the components that
    [_deg_to_dms_rational] returns are never negative and stay in range: the
    degrees are the integer part of the absolute value, the minutes lie in
    0..60 and the hundredths of seconds in 0..6000.  The carry is not taken:
    60.00 seconds can be returned. *)
Theorem dms_components_bounded (deg : Q) :
  fl_accurate ->
  exists d m s : Z,
    _deg_to_dms_rational deg = ((d, 1%Z), (m, 1%Z), (s, 100%Z))
    /\ d = Float.py_int (Qabs deg)
    /\ (0 <= d)%Z /\ (0 <= m <= 60)%Z /\ (0 <= s <= 6000)%Z.
Proof.
  intros Hfl.
  destruct roundoff_small as (Hu0 & Hu & He0 & He).
  unfold _deg_to_dms_rational, Float.mul, Float.sub.
  set (a := Qabs deg).
  set (d := Float.py_int a).
  set (f := fl (a - inject_Z d)).
  set (mf := fl (f * 60)).
  set (m := Float.py_int mf).
  set (g := fl (mf - inject_Z m)).
  set (s := fl (g * 60)).
  set (t := fl (s * 100)).
  exists d, m, (Float.py_round t). split; [reflexivity|]. split; [reflexivity|].
  assert (0 <= a)%Q as Ha by apply Qabs_nonneg.
  destruct (py_int_above_m1 a ltac:(lra)) as (Hd0 & Hdle & Hdup). fold d in Hd0, Hdle, Hdup.
  assert (0 <= a - inject_Z d)%Q as Hx1 by (destruct Hdle as [? | [? _]]; lra).
  pose proof (fl_error (a - inject_Z d) 1 Hfl) as [He1l He1u];
    [now apply in_float_range | lra | lra |].
  fold f in He1l, He1u.
  pose proof (fl_error (f * 60) 120 Hfl) as [He2l He2u];
    [now apply in_float_range | lra | lra |].
  fold mf in He2l, He2u.
  destruct (py_int_above_m1 mf ltac:(lra)) as (Hm0 & Hmle & Hmup). fold m in Hm0, Hmle, Hmup.
  assert (m <= 60)%Z as Hm60.
  { apply inject_Z_lt_bound. change (inject_Z 60) with 60%Q.
    destruct Hmle as [Hle | [_ ->]]; [lra | reflexivity]. }
  assert (- (1 # 1000000) <= mf - inject_Z m)%Q as Hx3.
  { destruct Hmle as [Hle | [_ Hz]]; [lra|]. rewrite Hz. change (inject_Z 0) with 0%Q. lra. }
  pose proof (fl_error (mf - inject_Z m) 1 Hfl) as [He3l He3u];
    [now apply in_float_range | lra | lra |].
  fold g in He3l, He3u.
  pose proof (fl_error (g * 60) 120 Hfl) as [He4l He4u];
    [now apply in_float_range | lra | lra |].
  fold s in He4l, He4u.
  pose proof (fl_error (s * 100) 12100 Hfl) as [He5l He5u];
    [now apply in_float_range | lra | lra |].
  fold t in He5l, He5u.
  pose proof (py_round_error t) as [Hrl Hru].
  split; [exact Hd0|]. split; [split; [exact Hm0 | exact Hm60]|].
  split.
  - apply inject_Z_gt_m1. lra.
  - apply inject_Z_lt_bound. change (inject_Z 6000) with 6000%Q. lra.
Qed.

End GpsRange.

(** ** Downloads that succeed *)

Section FetcherProgress.
Context `{!Externals}.


(** X24.  What [download_file] changes on disk.  When it returns, the script
    was consumed up to a complete response with a non-error status, met
    after attempts that failed with a TLS error only, and the disk is the
    one before the call with the temporary [.download] path removed and,
    then, the final path (the stem with the resolved extension) holding
    that response's whole body.  When it raises, no path other than the
    temporary one has changed: every other path holds what it held before
    the call, and stays absent when it was absent. *)
Theorem download_file_final_by_rename (url : option string) (out_stem : Path)
    (kind_norm : string) (w : World) :
  (forall final ct w',
      download_file url out_stem kind_norm w = (Ok (final, ct), w') ->
      exists u (pre : list response) status chunks,
        url = Some u
        /\ final_path_of u out_stem kind_norm ct = Ok final
        /\ net w = (pre ++ Response status ct chunks None :: net w')%list
        /\ Forall tls_failure pre
        /\ is_error_status status = false
        /\ files w'
           = <[path_str final := response_body chunks]>
               (delete (path_str (tmp_path_of out_stem)) (files w)))
  /\ (forall e w',
      download_file url out_stem kind_norm w = (Raise e, w') ->
      forall p, p <> path_str (tmp_path_of out_stem) -> files w' !! p = files w !! p).
Proof.
  split.
  - intros final ct w'. apply download_file_ok_inv.
  - intros e w'. apply download_file_raise_frame.
Qed.

End FetcherProgress.

(** ** The name of an artifact *)

Section ArtifactName.
Context `{!Externals}.
Variable out_dir : string.

Lemma final_path_of_resolved (u : string) (out_stem : Path) (kind_norm : string)
    (ct : option string) :
  final_path_of u out_stem kind_norm ct = with_suffix out_stem (resolved_ext u kind_norm ct).
Proof. unfold final_path_of, resolved_ext. cbv zeta. now destruct (_ && _). Qed.

Lemma stem_name_no_dot (i : nat) (dt : Datetime.datetime) :
  valid_datetime dt ->
  Str.contains "." (Str.of_nat i ++ "_" ++ iso_date dt ++ "T" ++ iso_time "" dt ++ "Z") = false.
Proof.
  intros Hv%valid_in_format_range.
  destruct (iso_date_chars dt Hv) as [_ Hd]. destruct (iso_time_chars "" dt Hv) as [_ Ht].
  set (p := fun c : ascii => Str.is_digit c || Ascii.eqb c "-" || Ascii.eqb c "_"
                             || Ascii.eqb c "T" || Ascii.eqb c "Z").
  assert (forall c, Str.is_digit c = true -> p c = true) as Hp by (intros c Hc; unfold p; now rewrite Hc).
  apply (all_chars_no p); [reflexivity|].
  rewrite !all_chars_app, (all_chars_impl _ _ _ Hp (of_nat_digits i)), (Ht p Hp eq_refl).
  rewrite (all_chars_impl _ p (iso_date dt)) with (2 := Hd); [reflexivity|].
  intros c Hc. unfold p. now rewrite Hc.
Qed.

(** X21.  The artifact that the download of row [i] returns is named
    [{i}_{YYYY}-{MM}-{DD}T{HHMMSS}Z{ext}] in [out_dir], where [ext] is the
    extension guessed from the content-type or the url, [.jpg] for an image
    when nothing could be guessed; and it is a file on disk. *)
Theorem fetched_artifact_name (i : nat) (row : Row) (dt : Datetime.datetime)
    (w w1 : World) (file_path : Path) (content_type : option string) :
  valid_datetime dt -> (i < 10 ^ 161)%nat ->
  row_fetch out_dir i row dt w = (Ok (file_path, content_type), w1) ->
  exists u,
    extract_download_url row = Some u
    /\ file_path
       = path_join out_dir
           (Str.of_nat i ++ "_" ++ iso_date dt ++ "T" ++ iso_time "" dt ++ "Z"
            ++ resolved_ext u (row_kind_norm row) content_type)
    /\ is_Some (files w1 !! path_str file_path).
Proof.
  intros Hv Hi Hfetch. unfold row_fetch in Hfetch.
  destruct (download_file_ok_inv _ _ _ _ _ _ _ Hfetch)
    as (u & pre & status & chunks & Hurl & Hfinal & _ & _ & _ & Hfiles).
  exists u. split; [exact Hurl|]. split; [|rewrite Hfiles, lookup_insert_eq; eauto].
  rewrite final_path_of_resolved in Hfinal.
  destruct (with_suffix_ok _ _ _ Hfinal) as (Hparent & Hname & _).
  rewrite path_stem_no_suffix in Hname.
  - rewrite (row_out_stem_eq out_dir i dt Hv Hi) in Hparent, Hname.
    cbn [parent name path_join] in Hparent, Hname.
    destruct file_path as [p n]. cbn [parent name] in *. subst p n.
    unfold path_join. now rewrite !string_app_assoc.
  - unfold path_suffix. rewrite (row_out_stem_eq out_dir i dt Hv Hi). cbn [name path_join].
    now rewrite (rsplit_dot_none_of_no_dot _ (stem_name_no_dot i dt Hv)).
Qed.

End ArtifactName.

(** ** The ISO 6709 text of the coordinates *)

Lemma py_round_nonneg (x : Q) : (0 <= x)%Q -> (0 <= Float.py_round x)%Z.
Proof.
  intros Hx. pose proof (py_round_error x) as [Hl _].
  apply inject_Z_gt_m1. lra.
Qed.

(** [f"{x:+.4f}"] *)
Lemma format_plus_4f_spec (x : Q) :
  exists sg ip fp : string,
    Float.format_plus_4f x = sg ++ ip ++ "." ++ fp /\ signed_decimal x sg ip fp.
Proof.
  unfold Float.format_plus_4f. cbv zeta.
  set (n := Float.py_round (Qabs x * 10000)).
  assert (0 <= n)%Z as Hn.
  { apply py_round_nonneg. pose proof (Qabs_nonneg x). lra. }
  pose proof (py_round_error (Qabs x * 10000)) as [Hl Hu]. fold n in Hl, Hu.
  pose proof (Z.mod_pos_bound n 10000 ltac:(lia)) as Hmod.
  pose proof (Z.div_pos n 10000 Hn ltac:(lia)) as Hdiv.
  destruct (zfill_spec 4 (Z.to_nat (n mod 10000))) as (L & D & V);
    [lia | change (10 ^ 4)%nat with (Z.to_nat 10000); lia|].
  exists (if Qlt_le_dec x 0 then "-" else "+"),
    (Str.of_nat (Z.to_nat (n / 10000))), (zfill 4 (Z.to_nat (n mod 10000))).
  split; [reflexivity|].
  split; [destruct (Qlt_le_dec x 0); auto|].
  split; [destruct (Qlt_le_dec x 0); [reflexivity | intros; lra]|].
  split; [destruct (Qlt_le_dec x 0); [intros; lra | reflexivity]|].
  split; [apply of_nat_nonempty|]. split; [apply of_nat_digits|].
  split; [exact L|]. split; [exact D|].
  unfold decimal_of_digits. rewrite int_of_digits_of_nat, V, L, !Z2Nat.id by lia.
  change (inject_Z (10 ^ Z.of_nat 4)) with 10000%Q.
  assert (inject_Z n == inject_Z (n / 10000) * 10000 + inject_Z (n mod 10000))%Q as Hsplit.
  { change 10000%Q with (inject_Z 10000). rewrite <- inject_Z_mult, <- inject_Z_plus.
    rewrite (Z.div_mod n 10000) at 1 by lia. now rewrite Z.mul_comm. }
  unfold Qdiv. change (/ 10000)%Q with (1 # 10000)%Q.
  apply Qabs_Qle_condition. split; lra.
Qed.

Section Iso6709.
Context `{!Externals}.

(** X22.  [to_iso6709] returns the empty text when a coordinate is missing.
    Otherwise the text is the latitude then the longitude, each printed with
    its sign, the digits of its integer part, a dot and four decimals, and a
    slash at the end; each printed number is within 0.00005 of the absolute
    value of its coordinate, and the sign is that of the coordinate. *)
Theorem to_iso6709_format (lat lon : option Q) :
  match lat, lon with
  | Some x, Some y =>
      exists sx ix fx sy iy fy : string,
        to_iso6709 lat lon = sx ++ ix ++ "." ++ fx ++ sy ++ iy ++ "." ++ fy ++ "/"
        /\ signed_decimal x sx ix fx /\ signed_decimal y sy iy fy
  | _, _ => to_iso6709 lat lon = ""
  end.
Proof.
  destruct lat as [x|], lon as [y|]; try reflexivity.
  destruct (format_plus_4f_spec x) as (sx & ix & fx & Hx & Hxs).
  destruct (format_plus_4f_spec y) as (sy & iy & fy & Hy & Hys).
  exists sx, ix, fx, sy, iy, fy. split; [|split; assumption].
  unfold to_iso6709. rewrite Hx, Hy. now rewrite !string_app_assoc.
Qed.

End Iso6709.

(** * The program on examples

    The concrete environment meets the contracts, and each property above is
    run on a concrete input. *)

#[local] Existing Instance Demo.externals.


Lemma demo_fl_accurate : fl_accurate.
Proof.
  intros x _. change (fl x) with x.
  destruct roundoff_small as (Hu0 & _ & He0 & _).
  pose proof (Qabs_nonneg x) as Hx.
  pose proof (Qmult_le_0_compat _ _ Hu0 Hx) as Hm.
  apply Qabs_Qle_condition. split; lra.
Qed.

(** C1, the code at a failing input.  The download of a video has succeeded
    and the program found under the name ffmpeg exits with status zero
    without leaving the tagged file.  The video branch unlinks the artifact
    before it renames the tagged file onto it, so the rename raises after
    the artifact is gone: the handler writes the sidecar with [tag_error]
    and the row's iteration ends normally, but the downloaded file is no
    longer on disk. *)
Lemma video_rename_failure_loses_artifact :
  let w := Demo.world [Response 200 (Some "video/mp4") ["frames"] None] in
  let file_path := path_join "out" "1_2025-11-12T210503Z.mp4" in
  exists w1 e w2 w3,
    @row_fetch Demo.externals_idle_ffmpeg "out" 1 Demo.video_row Demo.image_row_time
      (log_event (downloading 2 1 Demo.video_row) w)
    = (Ok (file_path, Some "video/mp4"), w1)
    /\ files w1 !! path_str file_path = Some "frames"
    /\ @row_tagging Demo.externals_idle_ffmpeg Demo.video_row Demo.image_row_time
         file_path (Some "video/mp4") w1
       = (Raise e, w2)
    /\ exn_class_of e = FileNotFoundError
    /\ @process_row Demo.externals_idle_ffmpeg "out" 0 2 1 Demo.video_row w = (Ok tt, w3)
    /\ files w3 !! "out/1_2025-11-12T210503Z.mp4.json"
       = Some "{kind,date,location,lat,lon,content_type,tag_error}"
    /\ files w3 !! path_str file_path = None.
Proof.
  eexists _, _, _, _. split; [vm_compute; reflexivity|].
  split; [vm_compute; reflexivity|]. split; [vm_compute; reflexivity|].
  split; [reflexivity|]. split; [vm_compute; reflexivity|].
  split; vm_compute; reflexivity.
Qed.

(** C2, the code at a failing input.  The URL's path ends in [.download] and
    no content-type is declared, so the resolved extension is [.download]
    and the final path is the temporary path; the connection breaks after
    two chunks; [download_file] raises, and the final path, absent before
    the call, holds the partial bytes. *)
Lemma download_file_partial_at_final_path :
  let w := Demo.world [Response 200 None ["partial "; "bytes"]
                         (Some (Exn RequestException "Connection broken"))] in
  let out_stem := path_join "out" "7_2025-11-12T210503Z" in
  exists e w' final,
    download_file (Some "https://cdn.example/m/7.download") out_stem "video" w = (Raise e, w')
    /\ final_path_of "https://cdn.example/m/7.download" out_stem "video" None = Ok final
    /\ files w !! path_str final = None
    /\ files w' !! path_str final = Some "partial bytes".
Proof.
  eexists _, _, _. split; [vm_compute; reflexivity|].
  split; [vm_compute; reflexivity|]. split; vm_compute; reflexivity.
Qed.

(** C3, the claim refuted.  The second row has four cells and a date that is
    no timestamp of the format: the run raises [ValueError] there, and the
    third row, a well-formed one, is never fetched: the scripted response
    waiting for it is still unread and the disk is empty. *)
Lemma bad_timestamp_row_halts_run :
  let w := Demo.world [Response 200 (Some "image/jpeg") ["bytes"] None] in
  exists e w',
    main "out" 0 [Demo.header_row; Demo.bad_date_row; Demo.image_row] w = (Raise e, w')
    /\ exn_class_of e = ValueError
    /\ net w' = net w
    /\ files w' = ∅.
Proof. eexists _, _. repeat split; vm_compute; reflexivity. Qed.

Lemma short_row_skipped_bad_timestamp_raises_witness :
  (process_row "out" 0 3 0 Demo.header_row (Demo.world []) = (Ok tt, Demo.world []))
  /\ process_rows "out" 0 3 1 [Demo.bad_date_row; Demo.image_row] (Demo.world [])
     = (Raise (Exn ValueError "time data does not match format"), Demo.world []).
Proof.
  split.
  - apply (proj1 (short_row_skipped_bad_timestamp_raises "out" 0 3 0 Demo.header_row []
                    (Demo.world []))). cbn. lia.
  - apply (proj2 (short_row_skipped_bad_timestamp_raises "out" 0 3 1 Demo.bad_date_row
                    [Demo.image_row] (Demo.world []))).
    + cbn. lia.
    + lia.
    + vm_compute. reflexivity.
Defined.

(** A 404 on a ledger that already holds a line. *)
Lemma fetch_failure_policy_witness :
  let w := {| files := {["out/not_saved.txt" := String "0" (String "010" "")]};
              net := [Response 404 None [] None]; trace := [] |} in
  exists w2,
    process_row "out" 0 2 1 Demo.image_row w = (Ok tt, w2)
    /\ files w2 !! "out/not_saved.txt"
       = Some (String "0" (String "010" "")
               ++ "1_Image 2025-11-12 21:05:03 UTC" ++ String "010" "").
Proof.
  intros w.
  assert (fetchable 0 1 Demo.image_row Demo.image_row_time) as Hrow
    by (split; [cbn; lia | split; [lia | vm_compute; reflexivity]]).
  destruct (proj1 (fetch_failure_policy "out" 0 2 1 Demo.image_row []
                     Demo.image_row_time w Hrow)
              (status_error 404)
              (snd (row_fetch "out" 1 Demo.image_row Demo.image_row_time
                      (log_event (downloading 2 1 Demo.image_row) w))))
    as (w2 & Hrun & Hfiles & _).
  - vm_compute. reflexivity.
  - reflexivity.
  - exists w2. split; [exact Hrun|]. rewrite Hfiles. vm_compute. reflexivity.
Defined.

(** Three TLS failures, then a response that is never requested. *)
Lemma download_file_retry_policy_witness :
  let w := Demo.world [NoResponse Demo.tls_error; NoResponse Demo.tls_error;
                       NoResponse Demo.tls_error; Response 200 None ["late"] None] in
  exists w',
    download_file (Some "https://cdn.example/m/7.mp4")
      (path_join "out" "7_2025-11-12T210503Z") "video" w = (Raise Demo.tls_error, w')
    /\ trace w' = [EvGet "https://cdn.example/m/7.mp4"; EvSleep 60;
                   EvGet "https://cdn.example/m/7.mp4"; EvSleep 60;
                   EvGet "https://cdn.example/m/7.mp4"]
    /\ net w' = [Response 200 None ["late"] None].
Proof.
  intros w.
  assert (name (path_join "out" "7_2025-11-12T210503Z") <> "") as Hname by discriminate.
  assert (tls_failure (NoResponse Demo.tls_error)) as Htls
    by (exists Demo.tls_error; split; reflexivity).
  destruct (proj1 (download_file_retry_policy "https://cdn.example/m/7.mp4"
                     (path_join "out" "7_2025-11-12T210503Z") "video" w Hname)
              _ _ _ _ Demo.tls_error eq_refl Htls Htls eq_refl eq_refl)
    as (w' & Hrun & Htrace & Hnet).
  exists w'. auto.
Defined.

(** A zip header in mixed case with a parameter, and a zip payload under a
    video name with no content-type. *)
Lemma is_zip_by_header_or_signature_witness :
  let file_path := path_join "out" "3_2025-11-12T210503Z.mp4" in
  let archive := zip_signature ++ "rest of the archive" in
  (forall w, is_zip file_path (Some "Application/ZIP; charset=binary") w = (Ok true, w))
  /\ is_zip file_path None (set_files {[path_str file_path := archive]} (Demo.world []))
     = (Ok true, set_files {[path_str file_path := archive]} (Demo.world [])).
Proof.
  intros file_path archive. split.
  - intros w.
    apply (proj1 (is_zip_by_header_or_signature file_path w)
             "Application/ZIP" " charset=binary"); [now right | now left].
  - apply (proj2 (is_zip_by_header_or_signature file_path _) None archive); reflexivity.
Defined.

(** A missing file: false under a video content-type, true under a zip one. *)
Lemma is_zip_never_raises_witness :
  let file_path := path_join "out" "missing.bin" in
  is_zip file_path (Some "video/mp4") (Demo.world []) = (Ok false, Demo.world [])
  /\ is_zip file_path (Some "application/x-zip-compressed") (Demo.world [])
     = (Ok true, Demo.world []).
Proof.
  intros file_path. split.
  - destruct (is_zip_never_raises file_path (Some "video/mp4") (Demo.world []))
      as (_ & _ & Habsent).
    apply (Habsent ltac:(intros (c & [= <-] & [Hc | Hc]); discriminate Hc)
             (Exn FileNotFoundError "No such file or directory") (Demo.world [])).
    reflexivity.
  - destruct (is_zip_never_raises file_path (Some "application/x-zip-compressed")
                (Demo.world [])) as (_ & Hzip & _).
    apply Hzip. exists "application/x-zip-compressed". split; [reflexivity | now right].
Defined.

(** The extensions guessed from a content-type and from a url; then a body
    that arrives with no content-type from a url without suffix, saved as an
    image and as a video. *)
Lemma guess_ext_priority_witness :
  let u := "https://cdn.example/m/7" in
  let out_stem := path_join "out" "7_2025-11-12T210503Z" in
  let w := Demo.world [Response 200 None ["ab"; "cd"] None] in
  guess_ext "https://cdn.example/m/7.bin" (Some "Video/MP4; codecs=avc1") = ".mp4"
  /\ guess_ext "https://cdn.example/m/7.bin" (Some "image/png") = ".png"
  /\ guess_ext "https://cdn.example/m/7.bin" None = ".bin"
  /\ guess_ext u None = ""
  /\ (exists w',
        download_file (Some u) out_stem "image" w
        = (Ok (path_join "out" "7_2025-11-12T210503Z.jpg", None), w')
        /\ files w' !! "out/7_2025-11-12T210503Z.jpg" = Some "abcd")
  /\ (exists w',
        download_file (Some u) out_stem "video" w = (Ok (out_stem, None), w')
        /\ files w' !! "out/7_2025-11-12T210503Z" = Some "abcd").
Proof.
  intros u out_stem w.
  destruct (guess_ext_priority "https://cdn.example/m/7.bin") as (Hmp4 & _ & Hmap & Hurl & _).
  destruct (guess_ext_priority u) as (_ & _ & _ & Hurl' & _ & Hrun).
  assert (guess_ext u None = "") as Hnone
    by (etransitivity; [apply Hurl'; now left | reflexivity]).
  split; [apply Hmp4; reflexivity|].
  split; [apply Hmap; (discriminate || reflexivity)|].
  split; [etransitivity; [apply Hurl; now left | reflexivity]|].
  split; [exact Hnone|]. split.
  - destruct (Hrun out_stem "image" w [] 200 None ["ab"; "cd"] [])
      as (final & w' & Hfile & Hbody & Himage & _);
      [discriminate | reflexivity | constructor | simpl; lia | reflexivity | exact Hnone |].
    destruct (Himage eq_refl) as [Hfinal _].
    injection Hfinal as <-. exists w'. split; [exact Hfile | exact Hbody].
  - destruct (Hrun out_stem "video" w [] 200 None ["ab"; "cd"] [])
      as (final & w' & Hfile & Hbody & _ & Hother);
      [discriminate | reflexivity | constructor | simpl; lia | reflexivity | exact Hnone |].
    destruct (Hother ltac:(discriminate)) as [_ Hsame].
    destruct (Hsame eq_refl) as [-> _]. exists w'. split; [exact Hfile | exact Hbody].
Defined.

(** A zip payload saved under a video name. *)
Lemma save_zip_in_place_witness :
  let file_path := path_join "out" "3_2025-11-12T210503Z.mp4" in
  let w := set_files {[path_str file_path := zip_signature ++ "payload"]} (Demo.world []) in
  exists w',
    save_zip file_path ".mp4" w = (Ok tt, w')
    /\ files w' = {["out/3_2025-11-12T210503Z.zip" := zip_signature ++ "payload"]}.
Proof.
  intros file_path w.
  destruct (proj1 (save_zip_in_place file_path w) ".mp4" (zip_signature ++ "payload"))
    as (zip_path & w' & Hzip & _ & Hrun & Hfiles & _).
  - discriminate.
  - reflexivity.
  - discriminate.
  - exists w'. split; [exact Hrun|]. rewrite Hfiles.
    injection Hzip as <-. vm_compute. reflexivity.
Defined.

(** 48.8566 degrees south: 48 degrees, 51 minutes, 23.76 seconds. *)
Lemma gps_exif_roundtrip_witness :
  _deg_to_dms_rational (-488566 # 10000) = ((48, 1), (51, 1), (2376, 100))%Z
  /\ (Qabs (dms_to_degrees ((48, 1), (51, 1), (2376, 100))%Z - (488566 # 10000))
      <= 1 # 360000)%Q
  /\ ifd_GPS (build_exif_dict "2025:11:12 21:05:03" (Some (-488566 # 10000))
                (Some (23522 # 10000)) "Paris") !! GPSIFD.GPSLatitudeRef
     = Some (ExifAscii "S").
Proof.
  destruct (gps_exif_roundtrip "2025:11:12 21:05:03" "Paris" (-488566 # 10000)
              (23522 # 10000) demo_fl_accurate)
    as ((d & m & s & _ & Hdms & Hbound) & _ & _ & Hsouth & _).
  assert (_deg_to_dms_rational (-488566 # 10000) = ((48, 1), (51, 1), (2376, 100))%Z)
    as Hval by (vm_compute; reflexivity).
  split; [exact Hval|]. rewrite Hval in Hdms. injection Hdms as <- <- <-.
  split; [exact Hbound|]. apply Hsouth. reflexivity.
Defined.

(** ** The further properties on examples *)

(** Blanks around the text, a slash, a colon and a blank inside it. *)
Lemma safe_filename_is_safe_witness :
  safe_filename "  my photo/2025: 1.jpg " = "my_photo_2025_1.jpg"
  /\ (String.length (safe_filename "  my photo/2025: 1.jpg ") <= 180)%nat
  /\ Str.contains "/" (safe_filename "  my photo/2025: 1.jpg ") = false.
Proof.
  destruct (safe_filename_is_safe "  my photo/2025: 1.jpg " eq_refl)
    as (_ & Hlen & _ & Hslash & _).
  split; [reflexivity|]. split; [exact Hlen | exact Hslash].
Defined.

(** A stem as the loop makes it. *)
Lemma safe_filename_fixed_points_witness :
  safe_filename "7_2025-11-12T210503Z" = "7_2025-11-12T210503Z".
Proof.
  apply safe_filename_fixed_points; [reflexivity|].
  split; [discriminate|]. split; [reflexivity|]. split; [reflexivity|].
  split; [discriminate | simpl; lia].
Defined.

(** Blanks, underscores and a slash. *)
Lemma safe_filename_fallback_witness : safe_filename "  __ / " = "file".
Proof. apply safe_filename_fallback; reflexivity. Defined.

Lemma image_row_time_valid : valid_datetime Demo.image_row_time.
Proof. unfold valid_datetime. simpl. lia. Qed.

Lemma parse_iso8601_utc_roundtrip_witness :
  parse_iso8601_utc " 2025-11-12 21:05:03 UTC" = Ok "2025-11-12T21:05:03Z"
  /\ Datetime.strptime (Str.strip " 2025-11-12 21:05:03 UTC") = Ok Demo.image_row_time.
Proof.
  exact (parse_iso8601_utc_roundtrip Demo.image_row_time " " "" image_row_time_valid
           eq_refl eq_refl).
Defined.

(** The thirtieth of February. *)
Lemma parse_iso8601_utc_rejects_impossible_dates_witness :
  exists e, parse_iso8601_utc "2025-02-30 21:05:03 UTC" = Raise e
            /\ exn_class_of e = ValueError.
Proof.
  apply (parse_iso8601_utc_rejects_impossible_dates
           {| Datetime.year := 2025; Datetime.month := 2; Datetime.day := 30;
              Datetime.hour := 21; Datetime.minute := 5; Datetime.second := 3 |} "" "");
    [unfold in_format_range; simpl; lia | reflexivity | reflexivity | right; left; simpl; lia].
Defined.

Lemma parse_lat_lon_reads_pair_witness :
  parse_lat_lon "Latitude, Longitude: 48.8566, -2.3522"
  = (Some (Float.of_string "48.8566"), Some (Float.of_string "-2.3522")).
Proof.
  apply (parse_lat_lon_reads_pair " " " " " " "" "48" "8566" "-" "2" "3522" "");
    try reflexivity; (split; [auto | split; [discriminate | split; reflexivity]]).
Defined.

Lemma parse_lat_lon_without_label_witness :
  parse_lat_lon "Unknown location" = (None, None).
Proof. apply parse_lat_lon_without_label. reflexivity. Defined.

(** The call comes third, after an anchor without [onclick] and one that
    calls something else. *)
Lemma extract_download_url_first_call_witness :
  extract_download_url
    {| tds := [];
       anchors := [None; Some "showDetails(3)";
                   Some "downloadMemories( 'https://cdn.example/m/3.mp4', this, true);"] |}
  = Some "https://cdn.example/m/3.mp4"
  /\ extract_download_url {| tds := []; anchors := [None; Some "showDetails(3)"] |} = None.
Proof.
  split.
  - exact (proj1 (extract_download_url_first_call []) [None; Some "showDetails(3)"] []
             " " "https://cdn.example/m/3.mp4" ", this, true);"
             eq_refl eq_refl ltac:(discriminate) eq_refl).
  - apply (proj2 (extract_download_url_first_call [])). reflexivity.
Defined.


(** An image that arrives whole. *)
Lemma download_file_final_by_rename_witness :
  let w := Demo.world [Response 200 (Some "image/png") ["ab"; ""; "cd"] None] in
  let out_stem := path_join "out" "7_2025-11-12T210503Z" in
  exists w',
    download_file (Some "https://cdn.example/m/7") out_stem "image" w
    = (Ok (path_join "out" "7_2025-11-12T210503Z.png", Some "image/png"), w')
    /\ files w' = <["out/7_2025-11-12T210503Z.png" := "abcd"]> ∅.
Proof.
  intros w out_stem.
  pose (w' := snd (download_file (Some "https://cdn.example/m/7") out_stem "image" w)).
  assert (download_file (Some "https://cdn.example/m/7") out_stem "image" w
          = (Ok (path_join "out" "7_2025-11-12T210503Z.png", Some "image/png"), w')) as Hrun
    by (vm_compute; reflexivity).
  destruct (proj1 (download_file_final_by_rename (Some "https://cdn.example/m/7")
                     out_stem "image" w) _ _ _ Hrun)
    as (u & pre & status & chunks & _ & _ & _ & _ & _ & Hfiles).
  exists w'. split; [exact Hrun|]. vm_compute. reflexivity.
Defined.

(** Two lines added to a ledger that holds one. *)
Lemma add_line_to_file_appends_witness :
  let w := set_files {["out/not_saved.txt" := String "0" (String "010" "")]} (Demo.world []) in
  exists w',
    add_lines_to_file "out/not_saved.txt" ["3_Image a"; "5_Video b"] w = (Ok tt, w')
    /\ files w' !! "out/not_saved.txt"
       = Some (String "0" (String "010" "") ++ "3_Image a" ++ String "010" ""
               ++ "5_Video b" ++ String "010" "").
Proof.
  intros w.
  pose (w' := snd (add_lines_to_file "out/not_saved.txt" ["3_Image a"; "5_Video b"] w)).
  assert (add_lines_to_file "out/not_saved.txt" ["3_Image a"; "5_Video b"] w = (Ok tt, w'))
    as Hrun by reflexivity.
  destruct (add_line_to_file_appends _ _ _ _ _ Hrun) as (Hfile & _).
  exists w'. split; [exact Hrun|]. rewrite Hfile. reflexivity.
Defined.

Lemma two_digits_index (i : nat) : (i < 100)%nat -> (i < 10 ^ 161)%nat.
Proof.
  intros Hi. apply Nat.lt_le_trans with (10 ^ 2)%nat; [simpl; lia|].
  apply Nat.pow_le_mono_r; lia.
Qed.

Lemma row_out_stem_name_witness :
  row_out_stem "out" 7 Demo.image_row_time = path_join "out" "7_2025-11-12T210503Z"
  /\ name (row_out_stem "out" 7 Demo.image_row_time) ++ ".jpg"
     <> name (row_out_stem "out" 17 Demo.image_row_time) ++ ".jpg".
Proof.
  destruct (row_out_stem_name "out" 7 Demo.image_row_time image_row_time_valid
              (two_digits_index 7 ltac:(lia))) as [Hname Hdistinct].
  split; [exact Hname|].
  apply Hdistinct; [exact image_row_time_valid | apply two_digits_index; lia | lia].
Defined.

(** A catalog of two rows resumed at index 5. *)
Lemma rows_before_starting_index_skipped_witness :
  main "out" 5 [Demo.header_row; Demo.image_row] (Demo.world [])
  = (Ok tt, log_event (EvPrint "Number of files: 1") (Demo.world [])).
Proof.
  apply (proj2 (rows_before_starting_index_skipped "out" 5 0
                  [Demo.header_row; Demo.image_row] [] (Demo.world []))).
  simpl. lia.
Defined.

(** The image row without its anchor. *)
Lemma row_without_url_halts_witness :
  let row := {| tds := tds Demo.image_row; anchors := [] |} in
  exists e,
    process_rows "out" 0 2 1 [row; Demo.image_row] (Demo.world [])
    = (Raise e, log_event (downloading 2 1 row) (Demo.world []))
    /\ exn_class_of e = RequestException.
Proof.
  intros row.
  apply (row_without_url_halts "out" 0 2 1 row [Demo.image_row] Demo.image_row_time).
  - split; [cbn; lia | split; [lia | vm_compute; reflexivity]].
  - reflexivity.
Defined.



(** The stand-in ffmpeg copies the video to the tagged path. *)
Lemma video_remux_replaces_artifact_witness :
  let file_path := path_join "out" "5_2025-11-12T210503Z.mp4" in
  let w := set_files {[path_str file_path := "frames"]} (Demo.world []) in
  exists w2,
    tag_artifact "Video" "video" "2025-11-12T21:05:03Z" "2025:11:12 21:05:03" "" None None
      file_path (Some "video/mp4") ".mp4" w = (Ok tt, w2)
    /\ files w2 !! "out/5_2025-11-12T210503Z.mp4" = Some "frames"
    /\ files w2 !! "out/5_2025-11-12T210503Z.tagged.mp4" = None.
Proof.
  intros file_path w.
  pose (tagged := path_join "out" "5_2025-11-12T210503Z.tagged.mp4").
  destruct (video_remux_replaces_artifact "Video" "video" "2025-11-12T21:05:03Z"
              "2025:11:12 21:05:03" "" None None file_path (Some "video/mp4") ".mp4"
              "m" "p4" w
              (snd (write_video_metadata_ffmpeg file_path tagged "2025-11-12T21:05:03Z" ""
                      None None w))
              "frames")
    as (w2 & Hrun & _ & Hfile & Hgone).
  - discriminate.
  - reflexivity.
  - reflexivity.
  - vm_compute. reflexivity.
  - reflexivity.
  - reflexivity.
  - vm_compute. reflexivity.
  - vm_compute. reflexivity.
  - exists w2. split; [exact Hrun|]. split; [exact Hfile | exact Hgone].
Defined.

(** The stand-in ffmpeg refuses to write onto its input. *)
Lemma video_without_suffix_remuxes_onto_itself_witness :
  let file_path := path_join "out" "6_2025-11-12T210503Z" in
  let w := set_files {[path_str file_path := "frames"]} (Demo.world []) in
  exists e w1,
    tag_artifact "Video" "video" "2025-11-12T21:05:03Z" "2025:11:12 21:05:03" "" None None
      file_path None "" w = (Raise e, w1)
    /\ exn_class_of e = CalledProcessError
    /\ files w1 = files w.
Proof.
  intros file_path w.
  destruct (video_without_suffix_remuxes_onto_itself "Video" "video" "2025-11-12T21:05:03Z"
              "2025:11:12 21:05:03" "" None None file_path None "" w)
    as (cmd & _ & Hin & Hout & Hfail & _).
  - discriminate.
  - reflexivity.
  - vm_compute. reflexivity.
  - reflexivity.
  - reflexivity.
  - assert (subprocess_run cmd (log_event (EvRun cmd) w)
            = (Raise (Exn CalledProcessError "ffmpeg: output same as input"),
               log_event (EvRun cmd) w)) as Htool.
    { cbn [subprocess_run Demo.externals]. unfold Demo.ffmpeg.
      now rewrite Hin, Hout, String.eqb_refl. }
    eexists _, _. split; [exact (Hfail _ _ Htool) | split; reflexivity].
Defined.

Lemma png_retag_replaces_artifact_witness :
  let path := path_join "out" "8_2025-11-12T210503Z.png" in
  let w := set_files {[path_str path := "PNG"]} (Demo.world []) in
  exists w',
    tag_png_text path "2025-11-12T21:05:03Z" "Paris" w = (Ok tt, w')
    /\ files w' !! "out/8_2025-11-12T210503Z.png" = Some "PNG"
    /\ files w' !! "out/8_2025-11-12T210503Z.tagged.png" = None.
Proof.
  intros path w.
  eexists. split.
  - apply (png_retag_replaces_artifact path "2025-11-12T21:05:03Z" "Paris" w
             (log_event (EvImageOpen (path_str path)) w)
             (snd (Image_save (path_str path) "out/8_2025-11-12T210503Z.tagged.png"
                     [("Creation Time", "2025-11-12T21:05:03Z"); ("Location", "Paris");
                      ("Comment", "Location: Paris | Date: 2025-11-12T21:05:03Z")]
                     (log_event (EvImageSave "out/8_2025-11-12T210503Z.tagged.png")
                        (log_event (EvImageOpen (path_str path)) w))))
             "PNG");
      [discriminate | vm_compute; reflexivity..].
  - split; vm_compute; reflexivity.
Defined.

(** 0.9999999 degrees: 59 minutes and 60.00 seconds, the carry is not taken. *)
Lemma dms_components_bounded_witness :
  _deg_to_dms_rational (9999999 # 10000000) = ((0, 1), (59, 1), (6000, 100))%Z
  /\ (0 <= 59 <= 60)%Z /\ (0 <= 6000 <= 6000)%Z.
Proof.
  destruct (dms_components_bounded (9999999 # 10000000) demo_fl_accurate)
    as (d & m & s & Hdms & _ & _ & Hm & Hs).
  assert (_deg_to_dms_rational (9999999 # 10000000) = ((0, 1), (59, 1), (6000, 100))%Z)
    as Hval by (vm_compute; reflexivity).
  rewrite Hval in Hdms. injection Hdms as <- <- <-. auto.
Defined.


Lemma fetched_artifact_name_witness :
  exists u,
    extract_download_url Demo.image_row = Some u
    /\ path_join "out" "1_2025-11-12T210503Z.jpg"
       = path_join "out"
           (Str.of_nat 1 ++ "_" ++ iso_date Demo.image_row_time ++ "T"
            ++ iso_time "" Demo.image_row_time ++ "Z"
            ++ resolved_ext u (row_kind_norm Demo.image_row) (Some "image/jpeg")).
Proof.
  pose (w := Demo.world [Response 200 (Some "image/jpeg") ["pixels"] None]).
  destruct (fetched_artifact_name "out" 1 Demo.image_row Demo.image_row_time w
              (snd (row_fetch "out" 1 Demo.image_row Demo.image_row_time w))
              (path_join "out" "1_2025-11-12T210503Z.jpg") (Some "image/jpeg")
              image_row_time_valid (two_digits_index 1 ltac:(lia)))
    as (u & Hurl & Hname & _).
  - vm_compute. reflexivity.
  - eauto.
Defined.

(** Paris, and a point west of Greenwich. *)
Lemma to_iso6709_format_witness :
  to_iso6709 (Some (488566 # 10000)) (Some (-23522 # 10000)) = "+48.8566-2.3522/"
  /\ exists sx ix fx sy iy fy : string,
       to_iso6709 (Some (488566 # 10000)) (Some (-23522 # 10000))
       = sx ++ ix ++ "." ++ fx ++ sy ++ iy ++ "." ++ fy ++ "/"
       /\ signed_decimal (488566 # 10000) sx ix fx
       /\ signed_decimal (-23522 # 10000) sy iy fy.
Proof.
  split; [vm_compute; reflexivity|].
  exact (to_iso6709_format (Some (488566 # 10000)) (Some (-23522 # 10000))).
Defined.
